(** * Interview orchestration engine: a shallow embedding

    The development follows the Python sources under [backend/app]:
    - [agents/star_checker.py]        narrative-pattern (STAR) scoring,
    - [agents/response_evaluator.py]  evaluation normalisation,
    - [agents/followup_engine.py]     follow-up decision,
    - [agents/persona_detector.py]    persona classification,
    - [agents/question_generator.py]  question set construction,
    - [agents/report_generator.py]    score aggregation,
    - [services/interview_service.py] the session state machine.

    Modelling conventions.
    - A Python exception is a value of [PyExc]; a function that may raise
      returns [Result A].
    - A parsed JSON document is a [JValue]; a Python [dict] with string
      keys is a [gmap string JValue].
    - A Python [float] is a [PyFloat]: an exact rational, or one of the
      three special values.  Binary64 rounding is not modelled; the
      conversions that CPython refuses for magnitudes beyond the binary64
      range raise [OverflowError] here as well.  Every arithmetic
      operation returns a reduced fraction, so that numeric results can be
      compared with [=].
    - Text is ASCII ([string]); [str.upper], [str.lower] and [str.split]
      act on the ASCII range.
    - The generative backend is an oracle: each call site receives the
      backend's outcome as an argument, and theorems quantify over it.
      Prompts, logging and the extraction of the JSON text from a reply
      are not modelled: an agent that parses JSON receives the parsed
      value, or [None] when the request raised or nothing parsed.
    - [datetime.now()] is an argument of the operation that reads it. *)

From Stdlib Require Import QArith Qround Lqa ZArith Ascii.
From stdpp Require Import gmap strings list fin_maps.

#[local] Set Warnings "-register-all".
#[local] Open Scope Z_scope.

(** ** Exceptions *)

Inductive PyExc :=
| ValueError | TypeError | OverflowError | ZeroDivisionError
| IndexError | KeyError | AttributeError | ValidationError.

Inductive Result (A : Type) :=
| Ok (a : A)
| Raise (e : PyExc).
Arguments Ok {A} a.
Arguments Raise {A} e.

#[global] Instance Result_ret : MRet Result := fun _ a => Ok a.
#[global] Instance Result_bind : MBind Result := fun _ _ f m =>
  match m with Ok a => f a | Raise e => Raise e end.

#[global] Instance Result_fmap : FMap Result := fun _ _ f m =>
  match m with Ok a => Ok (f a) | Raise e => Raise e end.

(** [try: m except: h] is a handler that catches every exception. *)
Definition try_except {A} (m : Result A) (handler : A) : A :=
  match m with Ok a => a | Raise _ => handler end.

(** ** Python floats *)

Inductive PyFloat :=
| Fin (q : Q)
| PosInf
| NegInf
| NaN.

Coercion Fin : Q >-> PyFloat.

Definition inf_times (q : Q) (pos neg : PyFloat) : PyFloat :=
  match Qcompare q 0 with Gt => pos | Lt => neg | Eq => NaN end.

Definition fadd (x y : PyFloat) : PyFloat :=
  match x, y with
  | NaN, _ | _, NaN => NaN
  | Fin a, Fin b => Fin (Qred (a + b))
  | PosInf, NegInf | NegInf, PosInf => NaN
  | PosInf, _ | _, PosInf => PosInf
  | NegInf, _ | _, NegInf => NegInf
  end.

Definition fmul (x y : PyFloat) : PyFloat :=
  match x, y with
  | NaN, _ | _, NaN => NaN
  | Fin a, Fin b => Fin (Qred (a * b))
  | Fin a, PosInf | PosInf, Fin a => inf_times a PosInf NegInf
  | Fin a, NegInf | NegInf, Fin a => inf_times a NegInf PosInf
  | PosInf, PosInf | NegInf, NegInf => PosInf
  | PosInf, NegInf | NegInf, PosInf => NegInf
  end.

(** [x / y] on floats; a zero divisor raises. *)
Definition fdiv (x y : PyFloat) : Result PyFloat :=
  match y with
  | NaN => Ok NaN
  | Fin b =>
      if Qeq_bool b 0 then Raise ZeroDivisionError
      else match x with
           | Fin a => Ok (Fin (Qred (a / b)))
           | PosInf => Ok (inf_times b PosInf NegInf)
           | NegInf => Ok (inf_times b NegInf PosInf)
           | NaN => Ok NaN
           end
  | PosInf | NegInf =>
      match x with
      | Fin _ => Ok (Fin 0)
      | _ => Ok NaN
      end
  end.

(** [x < y]; every comparison with [nan] is false. *)
Definition flt (x y : PyFloat) : bool :=
  match x, y with
  | NaN, _ | _, NaN => false
  | Fin a, Fin b => match Qcompare a b with Lt => true | _ => false end
  | NegInf, NegInf => false
  | NegInf, _ => true
  | _, NegInf => false
  | PosInf, _ => false
  | Fin _, PosInf => true
  end.

Definition fgt (x y : PyFloat) : bool := flt y x.

(** [x >= y] *)
Definition fge (x y : PyFloat) : bool :=
  match x, y with
  | NaN, _ | _, NaN => false
  | Fin a, Fin b => match Qcompare a b with Lt => false | _ => true end
  | PosInf, _ => true
  | _, NegInf => true
  | _, PosInf => false
  | NegInf, _ => false
  end.

(** A float in reduced form: what every arithmetic operation returns. *)
Definition canonical (f : PyFloat) : Prop :=
  match f with Fin q => Qred q = q | _ => True end.

(** ** Parsed JSON *)

Inductive JValue :=
| JNull
| JBool (b : bool)
| JInt (z : Z)
| JFloat (f : PyFloat)
| JStr (s : string)
| JList (l : list JValue)
| JObj (d : gmap string JValue).

Abbreviation Dict := (gmap string JValue).

(** [d.get(k, dflt)] *)
Definition dict_get (d : Dict) (k : string) (dflt : JValue) : JValue :=
  default dflt (d !! k).

(** Truth value of an object in a condition. *)
Definition py_truthy (v : JValue) : bool :=
  match v with
  | JNull => false
  | JBool b => b
  | JInt z => negb (z =? 0)
  | JFloat (Fin q) => negb (Qeq_bool q 0)
  | JFloat _ => true
  | JStr s => negb (String.eqb s "")
  | JList l => match l with [] => false | _ => true end
  | JObj d => negb (bool_decide (d = ∅))
  end.

(** ** Python numbers: [int] and [float] *)

(** [bool] is a subclass of [int]: in arithmetic [True] is [1]. *)
Inductive PyNum :=
| PInt (z : Z)
| PFlt (f : PyFloat).

Definition as_number (v : JValue) : Result PyNum :=
  match v with
  | JBool b => Ok (PInt (if b then 1 else 0))
  | JInt z => Ok (PInt z)
  | JFloat f => Ok (PFlt f)
  | _ => Raise TypeError
  end.

Definition num_to_json (n : PyNum) : JValue :=
  match n with PInt z => JInt z | PFlt f => JFloat f end.

(** The exact value of a number; comparisons between [int] and [float]
    are exact in Python. *)
Definition num_val (n : PyNum) : PyFloat :=
  match n with PInt z => Fin (inject_Z z) | PFlt f => f end.

(** An [int] whose magnitude reaches this bound has no binary64
    neighbour: converting it raises [OverflowError]. *)
Definition float_int_bound : Z := 2 ^ 1024 - 2 ^ 970.

(** [float(z)] for an [int], also the implicit conversion in mixed
    arithmetic *)
Definition float_of_int (z : Z) : Result PyFloat :=
  if Z.abs z <? float_int_bound then Ok (Fin (inject_Z z))
  else Raise OverflowError.

Definition py_add (a b : PyNum) : Result PyNum :=
  match a, b with
  | PInt x, PInt y => Ok (PInt (x + y))
  | PInt x, PFlt g => f ← float_of_int x; Ok (PFlt (fadd f g))
  | PFlt f, PInt y => g ← float_of_int y; Ok (PFlt (fadd f g))
  | PFlt f, PFlt g => Ok (PFlt (fadd f g))
  end.

Definition py_mul (a b : PyNum) : Result PyNum :=
  match a, b with
  | PInt x, PInt y => Ok (PInt (x * y))
  | PInt x, PFlt g => f ← float_of_int x; Ok (PFlt (fmul f g))
  | PFlt f, PInt y => g ← float_of_int y; Ok (PFlt (fmul f g))
  | PFlt f, PFlt g => Ok (PFlt (fmul f g))
  end.

(** [a / b], true division: the quotient of two [int]s is formed
    directly, and raises when it leaves the binary64 range. *)
Definition py_truediv (a b : PyNum) : Result PyNum :=
  match a, b with
  | PInt x, PInt y =>
      if y =? 0 then Raise ZeroDivisionError
      else if Z.abs x <? Z.abs y * float_int_bound
           then Ok (PFlt (Fin (Qred (inject_Z x / inject_Z y))))
           else Raise OverflowError
  | PInt x, PFlt g => f ← float_of_int x; PFlt <$> fdiv f g
  | PFlt f, PInt y => g ← float_of_int y; PFlt <$> fdiv f g
  | PFlt f, PFlt g => PFlt <$> fdiv f g
  end.

Definition py_lt (a b : PyNum) : bool := flt (num_val a) (num_val b).
Definition py_gt (a b : PyNum) : bool := py_lt b a.
Definition py_ge (a b : PyNum) : bool := fge (num_val a) (num_val b).

(** The two-argument built-ins [min(a, b)] and [max(a, b)]: the first
    argument is kept unless the second is strictly smaller (larger). *)
Definition py_min (a b : PyNum) : PyNum := if py_lt b a then b else a.
Definition py_max (a b : PyNum) : PyNum := if py_gt b a then b else a.

(** The closed interval [[0,100]] of scores. *)
Definition in_0_100 (n : PyNum) : Prop :=
  match num_val n with
  | Fin q => (0 <= q /\ q <= 100)%Q
  | _ => False
  end.

(** ** Counting dictionaries *)

(** A [dict] from keys to counts whose iteration order matters is a list
    of pairs in insertion order. *)

(** [max(d, key=d.get)] from the first pair [best] on: a later key
    replaces the best one only when its count is strictly larger. *)
Fixpoint max_by_count {K} (best : K * Z) (rest : list (K * Z)) : K :=
  match rest with
  | [] => best.1
  | kv :: rest' => max_by_count (if best.2 <? kv.2 then kv else best) rest'
  end.

(** ** Python strings (ASCII) *)

Module PyStr.

Definition is_space (c : ascii) : bool :=
  let n := nat_of_ascii c in
  ((9 <=? n) && (n <=? 13) || (28 <=? n) && (n <=? 32))%nat.

Definition lower_char (c : ascii) : ascii :=
  let n := nat_of_ascii c in
  if ((65 <=? n) && (n <=? 90))%nat then ascii_of_nat (n + 32) else c.

Definition upper_char (c : ascii) : ascii :=
  let n := nat_of_ascii c in
  if ((97 <=? n) && (n <=? 122))%nat then ascii_of_nat (n - 32) else c.

Fixpoint map_chars (f : ascii -> ascii) (s : string) : string :=
  match s with
  | EmptyString => EmptyString
  | String c s' => String (f c) (map_chars f s')
  end.

(** [s.lower()], [s.upper()] *)
Definition lower : string -> string := map_chars lower_char.
Definition upper : string -> string := map_chars upper_char.

(** [sub in s] *)
Fixpoint contains (sub s : string) : bool :=
  String.prefix sub s ||
  match s with
  | EmptyString => false
  | String _ s' => contains sub s'
  end.

(** [s.count(sub)] for a non-empty [sub]: occurrences from left to right
    that do not overlap.  [skip] counts the characters still covered by
    the last occurrence. *)
Fixpoint count_from (sub s : string) (skip : nat) : nat :=
  match s with
  | EmptyString => 0
  | String _ s' =>
      match skip with
      | S k => count_from sub s' k
      | O => if String.prefix sub s
             then S (count_from sub s' (String.length sub - 1))
             else count_from sub s' 0
      end
  end.

Definition count (s sub : string) : nat := count_from sub s 0.

(** [s.split()]: the maximal runs of characters that are not white space.
    [cur] is the word being read, reversed. *)
Fixpoint split_from (s : string) (cur : list ascii) : list string :=
  let flush (rest : list string) :=
    match cur with
    | [] => rest
    | _ => String.string_of_list_ascii (rev cur) :: rest
    end in
  match s with
  | EmptyString => flush []
  | String c s' =>
      if is_space c then flush (split_from s' [])
      else split_from s' (c :: cur)
  end.

Definition split (s : string) : list string := split_from s [].

(** [s.replace(' ', '')] *)
Fixpoint remove_spaces (s : string) : string :=
  match s with
  | EmptyString => EmptyString
  | String c s' =>
      if Ascii.eqb c " "%char then remove_spaces s' else String c (remove_spaces s')
  end.

(** [len(set(s))] *)
Definition distinct_chars (s : string) : nat :=
  length (remove_dups (String.list_ascii_of_string s)).

(** [s.lstrip(chars)] and [s.strip(chars)] for a character class *)
Fixpoint lstrip (p : ascii -> bool) (s : string) : string :=
  match s with
  | EmptyString => EmptyString
  | String c s' => if p c then lstrip p s' else s
  end.

Definition reverse (s : string) : string :=
  String.string_of_list_ascii (rev (String.list_ascii_of_string s)).

Definition strip (p : ascii -> bool) (s : string) : string :=
  reverse (lstrip p (reverse (lstrip p s))).

(** [s.split(sep, 1)[-1]] for a one-character [sep]: what follows the
    first [sep], or [s] when there is none. *)
Fixpoint after_first (sep : ascii) (s : string) : option string :=
  match s with
  | EmptyString => None
  | String c s' => if Ascii.eqb c sep then Some s' else after_first sep s'
  end.

(** [sep.join(parts)] *)
Fixpoint join (sep : string) (parts : list string) : string :=
  match parts with
  | [] => ""
  | [x] => x
  | x :: rest => x +:+ sep +:+ join sep rest
  end.

(** [s.capitalize()] *)
Definition capitalize (s : string) : string :=
  match s with
  | EmptyString => EmptyString
  | String c s' => String (upper_char c) (lower s')
  end.

End PyStr.

(** ** Input validation ([utils/validators.py]) *)

Module Validators.

Definition is_valid_answer (text : string) (min_words : Z) : bool :=
  if String.eqb text ""
     || (String.length (PyStr.strip PyStr.is_space text) =? 0)%nat
  then false
  else if Z.of_nat (length (PyStr.split text)) <? min_words then false
  else if (PyStr.distinct_chars (PyStr.remove_spaces text) <? 3)%nat then false
  else true.

End Validators.

(** ** Narrative-pattern checker ([agents/star_checker.py]) *)

Module STARChecker.

Definition COMPONENTS : list string := ["situation"; "task"; "action"; "result"].

(** [analysis.get(f"{component}_present", False)] as a condition *)
Definition present (analysis : Dict) (component : string) : bool :=
  py_truthy (dict_get analysis (component +:+ "_present") (JBool false)).

(** [analysis.get(f"{component}_quality", 0)] *)
Definition quality (analysis : Dict) (component : string) : JValue :=
  dict_get analysis (component +:+ "_quality") (JInt 0).

(** [(quality / 5) * 15] *)
Definition scaled_quality (q : JValue) : Result PyNum :=
  n ← as_number q;
  r ← py_truediv n (PInt 5);
  py_mul r (PInt 15).

(** The two loops of [_calculate_star_score], with their accumulators. *)
Definition presence_loop (analysis : Dict) : Z :=
  foldl (fun presence_score component =>
           if present analysis component then presence_score + 10
           else presence_score)
        0 COMPONENTS.

Definition quality_loop (analysis : Dict) : Result PyNum :=
  foldl (fun acc component =>
           quality_score ← acc;
           if present analysis component then
             points ← scaled_quality (quality analysis component);
             py_add quality_score points
           else Ok quality_score)
        (Ok (PInt 0)) COMPONENTS.

Definition _calculate_star_score (analysis : Dict) : Result PyNum :=
  let presence_score := presence_loop analysis in
  quality_score ← quality_loop analysis;
  total_score ← py_add (PInt presence_score) quality_score;
  Ok (py_min (PFlt (Fin 100)) total_score).

Definition _get_fallback_analysis : Dict :=
  list_to_map
    [ ("situation_present", JBool false); ("situation_quote", JStr "");
      ("situation_quality", JInt 0);
      ("task_present", JBool false); ("task_quote", JStr "");
      ("task_quality", JInt 0);
      ("action_present", JBool false); ("action_quote", JStr "");
      ("action_quality", JInt 0);
      ("result_present", JBool false); ("result_quote", JStr "");
      ("result_quality", JInt 0);
      ("score", JFloat (Fin 0));
      ("feedback", JStr "Could not analyze STAR pattern.") ].

(** [check_star_pattern].  [reply] is what the request and the three-tier
    JSON extraction produced: [None] when the backend raised or no tier
    parsed.  A parsed value that is not an object has no [get], and any
    exception of the scoring lands in the outer handler. *)
Definition check_star_pattern (reply : option JValue) : Dict :=
  match reply with
  | Some (JObj analysis) =>
      try_except
        (score ← _calculate_star_score analysis;
         Ok (<["score" := num_to_json score]> analysis))
        _get_fallback_analysis
  | Some _ => _get_fallback_analysis
  | None => _get_fallback_analysis
  end.

(** The score stored in an analysis the checker returned. *)
Definition score_of (analysis : Dict) : Result PyNum :=
  as_number (dict_get analysis "score" (JInt 0)).

(** The loop of [get_star_feedback]: the capitalised names of the
    components that are missing, and of those present with a quality
    below 3. *)
Definition feedback_lists (analysis : Dict) : Result (list string * list string) :=
  foldl (fun acc component =>
           lists ← acc;
           if negb (present analysis component)
           then Ok (lists.1 ++ [PyStr.capitalize component], lists.2)
           else
             q ← as_number (quality analysis component);
             if py_lt q (PInt 3)
             then Ok (lists.1, lists.2 ++ [PyStr.capitalize component])
             else Ok lists)
        (Ok ([], [])) COMPONENTS.

Definition EXCELLENT : string :=
  "Excellent use of the STAR method! All components are present and well-articulated.".

Definition QUANTIFY_ADVICE : string :=
  "Always quantify your results with metrics or specific outcomes.".

Definition ACTION_ADVICE : string :=
  "Describe your specific actions and decisions in detail.".

(** [name in names] *)
Definition mentions (name : string) (names : list string) : bool :=
  existsb (String.eqb name) names.

Definition is_empty {A} (l : list A) : bool :=
  match l with [] => true | _ => false end.

Definition get_star_feedback (analysis : Dict) : Result string :=
  lists ← feedback_lists analysis;
  let missing := lists.1 in
  let weak := lists.2 in
  if is_empty missing && is_empty weak then Ok EXCELLENT
  else
    let feedback_parts := [] in
    let feedback_parts :=
      if is_empty missing then feedback_parts
      else feedback_parts ++
             ["Your answer is missing: " +:+ PyStr.join ", " missing +:+ "."] in
    let feedback_parts :=
      if is_empty weak then feedback_parts
      else feedback_parts ++
             ["Consider strengthening: " +:+ PyStr.join ", " weak +:+ "."] in
    let feedback_parts :=
      if mentions "Result" missing then feedback_parts ++ [QUANTIFY_ADVICE]
      else feedback_parts in
    let feedback_parts :=
      if mentions "Action" missing || mentions "Action" weak
      then feedback_parts ++ [ACTION_ADVICE]
      else feedback_parts in
    Ok (PyStr.join " " feedback_parts).

(** *** The score formula as the specification words it *)

(** 10 points for a present component *)
Definition presence_points (analysis : Dict) (component : string) : Z :=
  if present analysis component then 10 else 0.

(** [(quality/5)*15] points for a present component, none for an absent one *)
Definition quality_points (analysis : Dict) (component : string) : Result PyNum :=
  if present analysis component
  then scaled_quality (quality analysis component)
  else Ok (PInt 0).

(** presence points plus quality points, capped at 100.0 *)
Definition narrative_score_formula (analysis : Dict) : Result PyNum :=
  qs ← quality_points analysis "situation";
  qt ← quality_points analysis "task";
  qa ← quality_points analysis "action";
  qr ← quality_points analysis "result";
  q1 ← py_add qs qt;
  q2 ← py_add q1 qa;
  quality_total ← py_add q2 qr;
  let presence_total :=
    presence_points analysis "situation" + presence_points analysis "task"
    + presence_points analysis "action" + presence_points analysis "result" in
  total ← py_add (PInt presence_total) quality_total;
  Ok (py_min (PFlt (Fin 100)) total).

(** An analysis with the given presence flags and integer qualities. *)
Definition analysis_of (s t a r : bool) (qs qt qa qr : Z) : Dict :=
  list_to_map
    [ ("situation_present", JBool s); ("situation_quality", JInt qs);
      ("task_present", JBool t); ("task_quality", JInt qt);
      ("action_present", JBool a); ("action_quality", JInt qa);
      ("result_present", JBool r); ("result_quality", JInt qr) ].

(** The points of one component: a reduced float, or an exception. *)
Inductive points_shape : Result PyNum -> Prop :=
| shape_points f : canonical f -> points_shape (Ok (PFlt f))
| shape_raise e : points_shape (Raise e).

(** Points that cannot lower a score: the [int] 0 of an absent component,
    or a finite float that is not negative. *)
Definition nonneg_points (n : PyNum) : Prop :=
  n = PInt 0 \/ exists r, n = PFlt (Fin r) /\ (0 <= r)%Q.

(** Every present component is rated on the scale from 0 to 5. *)
Definition on_scale (analysis : Dict) : Prop :=
  forall component, component ∈ COMPONENTS ->
    present analysis component = true ->
    exists n q, as_number (quality analysis component) = Ok n
                /\ num_val n = Fin q /\ (0 <= q <= 5)%Q.

End STARChecker.

(** ** Data model ([models/interview.py], [config.py]) *)

Inductive PersonaType := CONFUSED | EFFICIENT | CHATTY | EDGE_CASE | NORMAL.

#[global] Instance PersonaType_eq_dec : EqDecision PersonaType.
Proof. solve_decision. Defined.

(** [persona.value] *)
Definition persona_value (p : PersonaType) : string :=
  match p with
  | CONFUSED => "confused"
  | EFFICIENT => "efficient"
  | CHATTY => "chatty"
  | EDGE_CASE => "edge_case"
  | NORMAL => "normal"
  end.

Inductive QuestionType := TECHNICAL | BEHAVIORAL | SITUATIONAL | EXPERIENCE.

Record InterviewQuestion := {
  question_id : Z;
  question_text : string;
  question_type : QuestionType;
  related_to : option string;
  expected_elements : list string;
  difficulty : string
}.

Record Answer := {
  answer_question_id : Z;
  answer_text : string;
  duration_seconds : PyFloat;
  word_count : Z
}.

Record FollowUpQuestion := {
  followup_text : string;
  followup_reason : string;
  followup_type : string
}.

(** One entry of [QuestionSession.follow_ups]:
    [{"question": ..., "answer": ..., "type": ...}] *)
Record FollowUpEntry := {
  entry_question : string;
  entry_answer : option string;
  entry_type : string
}.

Record QuestionSession := {
  question : InterviewQuestion;
  initial_answer : option Answer;
  follow_ups : list FollowUpEntry;
  persona_detected : PersonaType;
  evaluation : option Dict
}.

Inductive Status := in_progress | completed | cancelled.

#[global] Instance Status_eq_dec : EqDecision Status.
Proof. solve_decision. Defined.

(** Time stamps are opaque clock readings. *)
Definition Time := Z.

Record InterviewSession := {
  session_id : string;
  user_name : option string;
  target_role : string;
  resume_summary : string;
  questions : list QuestionSession;
  current_question_index : nat;
  start_time : Time;
  end_time : option Time;
  status : Status
}.

Record SubmitAnswerResponse := {
  success : bool;
  follow_up_question : option FollowUpQuestion;
  next_question : option InterviewQuestion;
  is_interview_complete : bool;
  message : string
}.

Record Settings := {
  ANSWER_TIME_SECONDS : Z;
  TOTAL_QUESTIONS : Z
}.

(** The values [config.py] declares. *)
Definition default_settings : Settings :=
  {| ANSWER_TIME_SECONDS := 180; TOTAL_QUESTIONS := 5 |}.

(** The built-in [float(s)] on a [str] is not part of the repository: it
    is a parameter, [None] standing for [ValueError]. *)
Class Builtins := { float_of_str : string -> option PyFloat }.

(** ** Response evaluator ([agents/response_evaluator.py]) *)

Module ResponseEvaluator.

Definition SCORE_KEYS : list string :=
  ["relevance_score"; "confidence_score"; "technical_depth_score"; "clarity_score"].

Definition defaults : list (string * JValue) :=
  [ ("relevance_score", JFloat (Fin 50));
    ("confidence_score", JFloat (Fin 50));
    ("technical_depth_score", JFloat (Fin 50));
    ("clarity_score", JFloat (Fin 50));
    ("is_on_topic", JBool true);
    ("strengths", JList []);
    ("weaknesses", JList []);
    ("feedback", JStr "Response received.");
    ("needs_follow_up", JBool false);
    ("follow_up_reason", JStr "") ].

(** The loop [for key, default_value in defaults.items()] *)
Definition merge_defaults (evaluation : Dict) : Dict :=
  foldl (fun ev kv =>
           match ev !! kv.1 with
           | None => <[kv.1 := kv.2]> ev
           | Some _ => ev
           end)
        evaluation defaults.

(** First match in an association list. *)
Fixpoint assoc (key : string) (l : list (string * JValue)) : option JValue :=
  match l with
  | [] => None
  | kv :: rest => if String.eqb kv.1 key then Some kv.2 else assoc key rest
  end.

Section Normalisation.
Context `{Builtins}.

(** The built-in [float(v)] *)
Definition py_float (v : JValue) : Result PyFloat :=
  match v with
  | JBool b => Ok (Fin (if b then 1 else 0)%Q)
  | JInt z => float_of_int z
  | JFloat f => Ok f
  | JStr s =>
      match float_of_str s with
      | Some f => Ok f
      | None => Raise ValueError
      end
  | JNull | JList _ | JObj _ => Raise TypeError
  end.

(** [max(0.0, min(100.0, score))] *)
Definition clamp (score : PyFloat) : PyNum :=
  py_max (PFlt (Fin 0)) (py_min (PFlt (Fin 100)) (PFlt score)).

(** One iteration of the loop over the score keys: the handler catches
    [ValueError] and [TypeError] only. *)
Definition normalize_score (evaluation : Dict) (score_key : string) : Result Dict :=
  match evaluation !! score_key with
  | None => Raise KeyError
  | Some v =>
      match py_float v with
      | Ok score => Ok (<[score_key := num_to_json (clamp score)]> evaluation)
      | Raise ValueError | Raise TypeError =>
          Ok (<[score_key := JFloat (Fin 50)]> evaluation)
      | Raise e => Raise e
      end
  end.

Definition _normalize_evaluation (evaluation : Dict) : Result Dict :=
  foldl (fun acc score_key => ev ← acc; normalize_score ev score_key)
        (Ok (merge_defaults evaluation)) SCORE_KEYS.

Definition _get_fallback_evaluation : Dict :=
  list_to_map
    [ ("relevance_score", JFloat (Fin 50));
      ("confidence_score", JFloat (Fin 50));
      ("technical_depth_score", JFloat (Fin 50));
      ("clarity_score", JFloat (Fin 50));
      ("is_on_topic", JBool true);
      ("strengths", JList [JStr "Response provided"]);
      ("weaknesses", JList [JStr "Could not be fully evaluated"]);
      ("feedback", JStr "Your response has been recorded.");
      ("needs_follow_up", JBool false);
      ("follow_up_reason", JStr "") ].

(** [evaluate].  [reply] is what the request and the three-tier JSON
    extraction produced ([None]: the backend raised or nothing parsed).
    A parsed value that is not an object supports neither the membership
    test nor the item assignment of the normalisation, which then raises;
    the outer handler turns every exception into the fallback. *)
Definition evaluate (reply : option JValue) : Dict :=
  match reply with
  | Some (JObj evaluation) =>
      try_except (_normalize_evaluation evaluation) _get_fallback_evaluation
  | Some _ => _get_fallback_evaluation
  | None => _get_fallback_evaluation
  end.

(** *** The normalisation as the specification words it *)

(** The normalised score as the specification words it: 50.0 for a
    missing field, the clamped value of a field that coerces to a float,
    50.0 for a field that does not. *)
Definition expected_score (field : option JValue) : JValue :=
  match field with
  | None => JFloat (Fin 50)
  | Some v =>
      match py_float v with
      | Ok score => num_to_json (clamp score)
      | Raise _ => JFloat (Fin 50)
      end
  end.

(** No score field holds an [int] beyond the binary64 range. *)
Definition no_overflow (evaluation : Dict) : Prop :=
  forall key z, key ∈ SCORE_KEYS ->
    evaluation !! key = Some (JInt z) -> Z.abs z < float_int_bound.

End Normalisation.


End ResponseEvaluator.

(** ** Follow-up engine ([agents/followup_engine.py]) *)

Module FollowUpEngine.

Definition _determine_follow_up_type (evaluation : Dict) (persona : PersonaType)
  : Result string :=
  if negb (py_truthy (dict_get evaluation "is_on_topic" (JBool true)))
  then Ok "redirect"
  else
    relevance ← as_number (dict_get evaluation "relevance_score" (JInt 50));
    if py_lt relevance (PInt 60) then Ok "probe"
    else if bool_decide (persona = CONFUSED) then Ok "hint"
    else
      confidence ← as_number (dict_get evaluation "confidence_score" (JInt 50));
      if py_gt confidence (PInt 80) then Ok "challenge"
      else
        depth ← as_number (dict_get evaluation "technical_depth_score" (JInt 50));
        if py_lt depth (PInt 60) then Ok "probe"
        else Ok "probe".

Definition _get_fallback_follow_up (follow_up_type : string) : string :=
  if String.eqb follow_up_type "redirect" then
    "Let's refocus on the original question. Can you provide a more specific answer addressing the core issue?"
  else if String.eqb follow_up_type "hint" then
    "Think about your past experiences. Can you relate this to a specific project or situation from your background?"
  else if String.eqb follow_up_type "challenge" then
    "That's interesting. How would you handle this situation if you had different constraints? What alternatives did you consider?"
  else
    "Can you elaborate more on that? What specific steps did you take, and what were the measurable outcomes?".

Definition is_quote (c : ascii) : bool :=
  Ascii.eqb c (ascii_of_nat 34) || Ascii.eqb c (ascii_of_nat 39).

(** [_generate_follow_up_text]: [response] is the backend's text, [None]
    when the request raised. *)
Definition _generate_follow_up_text (response : option string)
    (follow_up_type : string) : string :=
  match response with
  | Some response =>
      let follow_up := PyStr.strip is_quote (PyStr.strip PyStr.is_space response) in
      match PyStr.after_first ":" follow_up with
      | Some rest => PyStr.strip PyStr.is_space rest
      | None => follow_up
      end
  | None => _get_fallback_follow_up follow_up_type
  end.

(** The model [FollowUpQuestion] declares [reason: str]; another value
    fails validation. *)
Definition validate_str (v : JValue) : Result string :=
  match v with
  | JStr s => Ok s
  | _ => Raise ValidationError
  end.

Definition generate_follow_up (response : option string)
    (evaluation : Dict) (persona : PersonaType)
  : Result (option FollowUpQuestion) :=
  if negb (py_truthy (dict_get evaluation "needs_follow_up" (JBool false)))
  then Ok None
  else
    follow_up_type ← _determine_follow_up_type evaluation persona;
    let follow_up_text := _generate_follow_up_text response follow_up_type in
    if String.eqb follow_up_text "" then Ok None
    else
      reason ← validate_str
        (dict_get evaluation "follow_up_reason" (JStr "Seeking clarification"));
      Ok (Some {| followup_text := follow_up_text;
                  followup_reason := reason;
                  followup_type := follow_up_type |}).

(** *** The type selection as the specification words it: the first
    matching rule of a fixed list *)

Definition is_on_topic (evaluation : Dict) : bool :=
  py_truthy (dict_get evaluation "is_on_topic" (JBool true)).

Definition needs_follow_up (evaluation : Dict) : bool :=
  py_truthy (dict_get evaluation "needs_follow_up" (JBool false)).

(** The numeric score stored under [key], [50] when the key is absent. *)
Definition score (evaluation : Dict) (key : string) : Result PyNum :=
  as_number (dict_get evaluation key (JInt 50)).

Definition first_matching_rule (on_topic : bool)
    (relevance confidence depth : PyNum) (persona : PersonaType) : string :=
  if negb on_topic then "redirect"
  else if py_lt relevance (PInt 60) then "probe"
  else if bool_decide (persona = CONFUSED) then "hint"
  else if py_gt confidence (PInt 80) then "challenge"
  else if py_lt depth (PInt 60) then "probe"
  else "probe".

(** The evaluation of the specification's example: relevance 90,
    confidence 40, technical depth 85, clarity 95, on topic, and a
    follow-up requested. *)
Definition example_evaluation : Dict :=
  list_to_map
    [ ("relevance_score", JFloat (Fin 90));
      ("confidence_score", JFloat (Fin 40));
      ("technical_depth_score", JFloat (Fin 85));
      ("clarity_score", JFloat (Fin 95));
      ("is_on_topic", JBool true);
      ("needs_follow_up", JBool true);
      ("follow_up_reason", JStr "depth") ].

End FollowUpEngine.

(** ** Persona detector ([agents/persona_detector.py]) *)

Module PersonaDetector.

Definition hesitation_words : list string :=
  ["um"; "uh"; "like"; "maybe"; "i think"; "i guess"; "kind of"; "sort of"].

Definition star_indicators : list string :=
  ["situation"; "task"; "action"; "result"; "first"; "then"; "finally"].

Definition _rule_based_detection (answer : string) (duration_seconds : PyFloat)
    (word_count : Z) : PersonaType :=
  if word_count <? 10 then EDGE_CASE
  else if word_count <? 3 then EDGE_CASE
  else
    let unique_chars :=
      PyStr.distinct_chars (PyStr.lower (PyStr.remove_spaces answer)) in
    if (unique_chars <? 5)%nat then EDGE_CASE
    else
      let hesitation_count :=
        sum_list (map (PyStr.count (PyStr.lower answer)) hesitation_words) in
      if (3 <? hesitation_count)%nat
         || ((1 <? hesitation_count)%nat && (word_count <? 50))
      then CONFUSED
      else if (300 <? word_count) || fgt duration_seconds (Fin 150)
      then CHATTY
      else if (50 <=? word_count) && (word_count <=? 150)
              && flt duration_seconds (Fin 90)
      then
        if existsb (fun indicator => PyStr.contains indicator (PyStr.lower answer))
                   star_indicators
        then EFFICIENT
        else NORMAL
      else NORMAL.

(** [_llm_based_detection]: [response] is the backend's text, [None] when
    the request raised. *)
Definition _llm_based_detection (response : option string) : PersonaType :=
  match response with
  | Some response =>
      let persona_str := PyStr.upper (PyStr.strip PyStr.is_space response) in
      if PyStr.contains "CONFUSED" persona_str then CONFUSED
      else if PyStr.contains "EFFICIENT" persona_str then EFFICIENT
      else if PyStr.contains "CHATTY" persona_str then CHATTY
      else if PyStr.contains "EDGE" persona_str
              || PyStr.contains "EDGE_CASE" persona_str then EDGE_CASE
      else NORMAL
  | None => NORMAL
  end.

(** [detect_persona] returns the persona and the extended history. *)
Definition detect_persona (persona_history : list PersonaType)
    (response : option string) (answer : string) (duration_seconds : PyFloat)
    (word_count : Z) : PersonaType * list PersonaType :=
  let persona := _rule_based_detection answer duration_seconds word_count in
  let persona :=
    if bool_decide (persona = EDGE_CASE)
       || (length (PyStr.split answer) <? 10)%nat
    then _llm_based_detection response
    else persona in
  (persona, persona_history ++ [persona]).

(** [persona_counts[persona] = persona_counts.get(persona, 0) + 1]: a new
    key goes to the end, a known key keeps its place. *)
Fixpoint count_persona (persona : PersonaType) (persona_counts : list (PersonaType * Z))
  : list (PersonaType * Z) :=
  match persona_counts with
  | [] => [(persona, 1)]
  | kv :: rest =>
      if bool_decide (kv.1 = persona) then (kv.1, kv.2 + 1) :: rest
      else kv :: count_persona persona rest
  end.

(** [get_dominant_persona]; [max] of an empty mapping raises. *)
Definition get_dominant_persona (persona_history : list PersonaType)
  : Result PersonaType :=
  match persona_history with
  | [] => Ok NORMAL
  | _ =>
      let persona_counts :=
        foldl (fun counts persona => count_persona persona counts) [] persona_history in
      match persona_counts with
      | [] => Raise ValueError
      | first :: rest => Ok (max_by_count first rest)
      end
  end.

(** [distribution[key] += 1]; a missing key raises. *)
Fixpoint increment (key : string) (distribution : list (string * Z))
  : Result (list (string * Z)) :=
  match distribution with
  | [] => Raise KeyError
  | kv :: rest =>
      if String.eqb kv.1 key then Ok ((kv.1, kv.2 + 1) :: rest)
      else rest' ← increment key rest; Ok (kv :: rest')
  end.

Definition empty_distribution : list (string * Z) :=
  [ (persona_value CONFUSED, 0); (persona_value EFFICIENT, 0);
    (persona_value CHATTY, 0); (persona_value EDGE_CASE, 0);
    (persona_value NORMAL, 0) ].

Definition get_persona_distribution (persona_history : list PersonaType)
  : Result (list (string * Z)) :=
  foldl (fun acc persona =>
           distribution ← acc; increment (persona_value persona) distribution)
        (Ok empty_distribution) persona_history.

(** How often a persona occurs in a history. *)
Definition occurrences (persona : PersonaType) (persona_history : list PersonaType)
  : Z :=
  Z.of_nat (length (List.filter (fun p => bool_decide (p = persona)) persona_history)).

(** The counting dictionary of [get_dominant_persona] after a history. *)
Definition counted (counts : list (PersonaType * Z)) (history : list PersonaType)
  : Prop :=
  NoDup counts.*1
  /\ forall k v, (k, v) ∈ counts <-> v = occurrences k history /\ 0 < v.

(** The count stored under a key, and the total of a distribution. *)
Definition count_of (key : string) (distribution : list (string * Z)) : option Z :=
  snd <$> find (fun kv => String.eqb kv.1 key) distribution.

Definition total_count (distribution : list (string * Z)) : Z :=
  foldr (fun kv acc => kv.2 + acc) 0 distribution.

End PersonaDetector.

(** ** Question generator ([agents/question_generator.py]) *)

Module QuestionGenerator.

(** [l[:n]] *)
Definition py_slice_to {A} (l : list A) (n : Z) : list A :=
  if 0 <=? n then take (Z.to_nat n) l
  else take (length l - Z.to_nat (- n)) l.

Definition technical_roles : list string :=
  ["software"; "data analyst"; "data engineer"; "developer"; "devops"; "engineer"].

Definition _create_generic_question (question_id : Z) (target_role : string)
  : InterviewQuestion :=
  let is_technical :=
    existsb (fun tech => PyStr.contains tech (PyStr.lower target_role))
            technical_roles in
  let q1 :=
    if is_technical
    then ("Tell me about a significant project or internship where you applied "
            +:+ target_role +:+ " skills.", EXPERIENCE, "medium")
    else ("Tell me about your most impactful accomplishment as a "
            +:+ target_role +:+ ".", EXPERIENCE, "medium") in
  let q :=
    if is_technical then
      if question_id =? 2 then
        ("Describe a technical challenge you faced in one of your projects. How did you overcome it?",
         BEHAVIORAL, "easy")
      else if question_id =? 3 then
        ("Walk me through your approach to solving a complex problem in "
           +:+ PyStr.lower target_role +:+ ". What tools do you use?",
         TECHNICAL, "hard")
      else if question_id =? 4 then
        ("Tell me about a time you had to learn a new technology quickly. What was your process?",
         BEHAVIORAL, "medium")
      else if question_id =? 5 then
        ("How do you ensure quality and maintainability in your work?",
         SITUATIONAL, "medium")
      else q1
    else
      if question_id =? 2 then
        ("Describe a situation where you managed competing priorities. How did you handle it?",
         BEHAVIORAL, "easy")
      else if question_id =? 3 then
        ("How would you approach a typical challenge in " +:+ target_role +:+ "?",
         SITUATIONAL, "hard")
      else if question_id =? 4 then
        ("Tell me about a time you had to influence stakeholders without authority.",
         BEHAVIORAL, "medium")
      else if question_id =? 5 then
        ("How do you measure success in your role?", SITUATIONAL, "medium")
      else q1 in
  {| question_id := question_id;
     question_text := q.1.1;
     question_type := q.1.2;
     related_to := None;
     expected_elements := [];
     difficulty := q.2 |}.

Definition _get_fallback_questions (target_role : string) : list InterviewQuestion :=
  [ _create_generic_question 1 target_role;
    _create_generic_question 2 target_role;
    _create_generic_question 3 target_role;
    _create_generic_question 4 target_role;
    _create_generic_question 5 target_role ].

(** [QuestionType(v)] *)
Definition question_type_of (v : JValue) : Result QuestionType :=
  match v with
  | JStr s =>
      if String.eqb s "technical" then Ok TECHNICAL
      else if String.eqb s "behavioral" then Ok BEHAVIORAL
      else if String.eqb s "situational" then Ok SITUATIONAL
      else if String.eqb s "experience" then Ok EXPERIENCE
      else Raise ValueError
  | _ => Raise ValueError
  end.

(** Field validation of the model [InterviewQuestion] *)
Definition validate_str (v : JValue) : Result string :=
  match v with
  | JStr s => Ok s
  | _ => Raise ValidationError
  end.

Definition validate_opt_str (v : JValue) : Result (option string) :=
  match v with
  | JNull => Ok None
  | JStr s => Ok (Some s)
  | _ => Raise ValidationError
  end.

Definition validate_str_list (v : JValue) : Result (list string) :=
  match v with
  | JList l =>
      foldr (fun x acc => s ← validate_str x; rest ← acc; Ok (s :: rest)) (Ok []) l
  | _ => Raise ValidationError
  end.

(** The body of the [try] in the conversion loop: build the question
    number [question_id] from the entry [q_data]. *)
Definition make_question (question_id : Z) (q_data : JValue)
  : Result InterviewQuestion :=
  match q_data with
  | JObj d =>
      text ← match d !! "question_text" with
              | Some v => Ok v
              | None => Raise KeyError
              end;
      qtype ← question_type_of (dict_get d "question_type" (JStr "behavioral"));
      text ← validate_str text;
      related ← validate_opt_str (dict_get d "related_to" JNull);
      expected ← validate_str_list (dict_get d "expected_elements" (JList []));
      level ← validate_str (dict_get d "difficulty" (JStr "medium"));
      Ok {| question_id := question_id;
            question_text := text;
            question_type := qtype;
            related_to := related;
            expected_elements := expected;
            difficulty := level |}
  | _ => Raise TypeError
  end.

(** The loop [for i, q_data in enumerate(...)]: [i] is the index of the
    entry, and an entry that cannot be converted is skipped. *)
Fixpoint convert_from (i : Z) (entries : list JValue)
    (questions : list InterviewQuestion) : list InterviewQuestion :=
  match entries with
  | [] => questions
  | q_data :: rest =>
      match make_question (i + 1) q_data with
      | Ok q => convert_from (i + 1) rest (questions ++ [q])
      | Raise _ => convert_from (i + 1) rest questions
      end
  end.

(** The loop [while len(questions) < TOTAL_QUESTIONS]; [missing] is the
    number of iterations left. *)
Fixpoint pad (missing : nat) (target_role : string)
    (questions : list InterviewQuestion) : list InterviewQuestion :=
  match missing with
  | O => questions
  | S k =>
      pad k target_role
          (questions ++ [_create_generic_question (Z.of_nat (length questions) + 1) target_role])
  end.

(** [questions_data.get('questions', [])[:TOTAL_QUESTIONS]]: a list is
    sliced, a string is sliced into characters, another value raises. *)
Definition question_entries (settings : Settings) (questions_data : JValue)
  : Result (list JValue) :=
  match questions_data with
  | JObj d =>
      match dict_get d "questions" (JList []) with
      | JList l => Ok (py_slice_to l (TOTAL_QUESTIONS settings))
      | JStr s =>
          Ok (py_slice_to
                (map (fun c => JStr (String c EmptyString))
                     (String.list_ascii_of_string s))
                (TOTAL_QUESTIONS settings))
      | _ => Raise TypeError
      end
  | _ => Raise AttributeError
  end.

(** [generate_questions].  [reply] is what the request and the three-tier
    JSON extraction produced ([None]: the backend raised or nothing
    parsed). *)
Definition generate_questions (settings : Settings) (reply : option JValue)
    (target_role : string) : list InterviewQuestion :=
  match reply with
  | Some questions_data =>
      try_except
        (entries ← question_entries settings questions_data;
         let questions := convert_from 0 entries [] in
         let missing :=
           Z.to_nat (TOTAL_QUESTIONS settings - Z.of_nat (length questions)) in
         let questions := pad missing target_role questions in
         Ok (py_slice_to questions (TOTAL_QUESTIONS settings)))
        (_get_fallback_questions target_role)
  | None => _get_fallback_questions target_role
  end.

(** *** A reply with a malformed entry *)

Definition entry_with_text (text : string) : JValue :=
  JObj {[ "question_text" := JStr text ]}.

(** A reply of five entries whose first entry lacks its question text. *)
Definition malformed_reply : JValue :=
  JObj {[ "questions" :=
            JList [ JObj ∅; entry_with_text "Q2"; entry_with_text "Q3";
                    entry_with_text "Q4"; entry_with_text "Q5" ] ]}.

(** An entry the conversion loop accepts. *)
Definition convertible (q_data : JValue) : Prop :=
  exists q, make_question 0 q_data = Ok q.

End QuestionGenerator.

(** ** Report generator ([agents/report_generator.py], [models/report.py]) *)

Module ReportGenerator.

Record ScoreBreakdown := {
  confidence : PyFloat;
  communication : PyFloat;
  technical_depth : PyFloat;
  star_method_usage : PyFloat;
  behavioral_clarity : PyFloat;
  overall : PyFloat
}.

(** [Field(ge=0, le=100)] *)
Definition validate_score (x : PyFloat) : Result PyFloat :=
  if fge x (Fin 0) && fge (Fin 100) x then Ok x else Raise ValidationError.

(** The constructor of the model [ScoreBreakdown] validates every field. *)
Definition make_ScoreBreakdown
    (confidence communication technical_depth star_method_usage
       behavioral_clarity overall : PyFloat) : Result ScoreBreakdown :=
  c ← validate_score confidence;
  m ← validate_score communication;
  t ← validate_score technical_depth;
  s ← validate_score star_method_usage;
  b ← validate_score behavioral_clarity;
  o ← validate_score overall;
  Ok {| confidence := c; communication := m; technical_depth := t;
        star_method_usage := s; behavioral_clarity := b; overall := o |}.

(** [sum(values)] *)
Definition py_sum (values : list JValue) : Result PyNum :=
  foldl (fun acc v => total ← acc; n ← as_number v; py_add total n)
        (Ok (PInt 0)) values.

(** [sum(values) / len(values)] *)
Definition average (values : list JValue) : Result PyNum :=
  total ← py_sum values;
  py_truediv total (PInt (Z.of_nat (length values))).

(** [round(x, 2)] on a float: to the nearest hundredth, a tie to the even
    neighbour. *)
Definition round_half_even (q : Q) : Z :=
  let f := Qfloor q in
  match Qcompare (q - inject_Z f) (1 # 2) with
  | Lt => f
  | Gt => f + 1
  | Eq => if Z.even f then f else f + 1
  end.

Definition py_round2 (x : PyNum) : PyFloat :=
  match num_val x with
  | Fin q => Fin (Qred (inject_Z (round_half_even (q * 100)) / 100))
  | other => other
  end.

(** [eval_data.get("star_analysis", {}).get("score", 0)] *)
Definition star_score_of (eval_data : Dict) : Result JValue :=
  match dict_get eval_data "star_analysis" (JObj ∅) with
  | JObj star_analysis => Ok (dict_get star_analysis "score" (JInt 0))
  | _ => Raise AttributeError
  end.

(** The weighted overall score *)
Definition weighted_overall (confidence technical communication star behavioral : PyNum)
  : Result PyNum :=
  a ← py_mul confidence (PFlt (Fin (25 # 100)));
  b ← py_mul technical (PFlt (Fin (25 # 100)));
  c ← py_mul communication (PFlt (Fin (25 # 100)));
  d ← py_mul star (PFlt (Fin (15 # 100)));
  e ← py_mul behavioral (PFlt (Fin (10 # 100)));
  ab ← py_add a b;
  abc ← py_add ab c;
  abcd ← py_add abc d;
  py_add abcd e.

(** The loop that collects the five lists; it stops at the first evaluation
    whose narrative analysis is not an object. *)
Fixpoint collect_star (all_evaluations : list Dict) : Result (list JValue) :=
  match all_evaluations with
  | [] => Ok []
  | eval_data :: rest =>
      s ← star_score_of eval_data;
      others ← collect_star rest;
      Ok (s :: others)
  end.

Definition _calculate_scores (all_evaluations : list Dict) : Result ScoreBreakdown :=
  match all_evaluations with
  | [] =>
      make_ScoreBreakdown (Fin 50) (Fin 50) (Fin 50) (Fin 0) (Fin 50) (Fin 50)
  | _ =>
      let column key := map (fun eval_data => dict_get eval_data key (JInt 50))
                            all_evaluations in
      let confidence_scores := column "confidence_score" in
      let technical_scores := column "technical_depth_score" in
      let clarity_scores := column "clarity_score" in
      let relevance_scores := column "relevance_score" in
      star_scores ← collect_star all_evaluations;
      confidence ← average confidence_scores;
      technical ← average technical_scores;
      communication ← average clarity_scores;
      star ← average star_scores;
      behavioral ← average relevance_scores;
      overall ← weighted_overall confidence technical communication star behavioral;
      make_ScoreBreakdown
        (py_round2 confidence) (py_round2 communication) (py_round2 technical)
        (py_round2 star) (py_round2 behavioral) (py_round2 overall)
  end.

(** [persona in distribution] *)
Definition has_key (key : string) (distribution : list (string * Z)) : bool :=
  existsb (fun kv => String.eqb kv.1 key) distribution.

(** [_analyze_persona_distribution].  The membership test hashes the
    persona tag: a list or an object raises, another value that is not one
    of the five keys is not counted. *)
Definition _analyze_persona_distribution (all_evaluations : list Dict)
  : Result (list (string * Z)) :=
  foldl (fun acc eval_data =>
           distribution ← acc;
           match dict_get eval_data "persona" (JStr "normal") with
           | JStr persona =>
               if has_key persona distribution
               then PersonaDetector.increment persona distribution
               else Ok distribution
           | JList _ | JObj _ => Raise TypeError
           | _ => Ok distribution
           end)
        (Ok [ ("confused", 0); ("efficient", 0); ("chatty", 0);
              ("edge_case", 0); ("normal", 0) ])
        all_evaluations.

(** [max(persona_dist, key=persona_dist.get)] in [generate_report] *)
Definition dominant_persona (persona_dist : list (string * Z)) : Result string :=
  match persona_dist with
  | [] => Raise ValueError
  | first :: rest => Ok (max_by_count first rest)
  end.

Definition _determine_recommendation (overall_score : PyFloat) : string * bool :=
  if fge overall_score (Fin 75) then ("Strong", true)
  else if fge overall_score (Fin 60) then ("Intermediate", true)
  else if fge overall_score (Fin 45) then ("Intermediate", false)
  else ("Beginner", false).

(** The order of the recommendation levels. *)
Definition level_rank (level : string) : Z :=
  if String.eqb level "Strong" then 2
  else if String.eqb level "Intermediate" then 1
  else 0.

End ReportGenerator.

(** ** Session state machine ([services/interview_service.py]) *)

Module InterviewService.

(** The part of [ResumeData] the service reads. *)
Record ResumeData := {
  resume_name : option string;
  resume_skills : list string;
  resume_experiences : list (string * string)
}.

(** The mutable state of the service object. *)
Record Service := {
  sessions : gmap string InterviewSession;
  session_evaluations : gmap string (list Dict);
  persona_history : list PersonaType
}.

(** The backend's outcomes during one [submit_answer], in call order. *)
Record Backend := {
  persona_reply : option string;
  evaluation_reply : option JValue;
  star_reply : option JValue;
  followup_reply : option string
}.

Definition set_sessions (svc : Service) (m : gmap string InterviewSession) : Service :=
  {| sessions := m;
     session_evaluations := session_evaluations svc;
     persona_history := persona_history svc |}.

Definition set_session_evaluations (svc : Service) (m : gmap string (list Dict))
  : Service :=
  {| sessions := sessions svc;
     session_evaluations := m;
     persona_history := persona_history svc |}.

Definition set_persona_history (svc : Service) (h : list PersonaType) : Service :=
  {| sessions := sessions svc;
     session_evaluations := session_evaluations svc;
     persona_history := h |}.

Definition set_questions (s : InterviewSession) (qs : list QuestionSession)
  : InterviewSession :=
  {| session_id := session_id s; user_name := user_name s;
     target_role := target_role s; resume_summary := resume_summary s;
     questions := qs;
     current_question_index := current_question_index s;
     start_time := start_time s; end_time := end_time s; status := status s |}.

Definition set_current_question_index (s : InterviewSession) (i : nat)
  : InterviewSession :=
  {| session_id := session_id s; user_name := user_name s;
     target_role := target_role s; resume_summary := resume_summary s;
     questions := questions s;
     current_question_index := i;
     start_time := start_time s; end_time := end_time s; status := status s |}.

(** [session.status = "completed"; session.end_time = datetime.now()] *)
Definition complete (s : InterviewSession) (now : Time) : InterviewSession :=
  {| session_id := session_id s; user_name := user_name s;
     target_role := target_role s; resume_summary := resume_summary s;
     questions := questions s;
     current_question_index := current_question_index s;
     start_time := start_time s; end_time := Some now; status := completed |}.

Definition new_question_session (q : InterviewQuestion) : QuestionSession :=
  {| question := q; initial_answer := None; follow_ups := [];
     persona_detected := NORMAL; evaluation := None |}.

Definition _create_resume_summary (resume_data : ResumeData) : string :=
  let parts := [] in
  let parts :=
    match resume_name resume_data with
    | Some name => if String.eqb name "" then parts
                   else parts ++ ["Name: " +:+ name]
    | None => parts
    end in
  let parts :=
    match resume_skills resume_data with
    | [] => parts
    | skills => parts ++ ["Skills: " +:+ PyStr.join ", " (take 5 skills)]
    end in
  let parts :=
    match resume_experiences resume_data with
    | [] => parts
    | exp :: _ => parts ++ ["Recent: " +:+ exp.1 +:+ " at " +:+ exp.2]
    end in
  PyStr.join " | " parts.

Definition start_interview (settings : Settings) (svc : Service)
    (questions_reply : option JValue) (now : Time)
    (session_id : string) (resume_data : ResumeData) (target_role : string)
  : Service * InterviewSession :=
  let questions :=
    QuestionGenerator.generate_questions settings questions_reply target_role in
  let session :=
    {| session_id := session_id;
       user_name := resume_name resume_data;
       target_role := target_role;
       resume_summary := _create_resume_summary resume_data;
       questions := map new_question_session questions;
       current_question_index := 0;
       start_time := now;
       end_time := None;
       status := in_progress |} in
  ({| sessions := <[session_id := session]> (sessions svc);
      session_evaluations := <[session_id := []]> (session_evaluations svc);
      persona_history := persona_history svc |},
   session).

Definition get_current_question (svc : Service) (session_id : string)
  : Result (option InterviewQuestion) :=
  match sessions svc !! session_id with
  | None => Raise ValueError
  | Some session =>
      if (length (questions session) <=? current_question_index session)%nat
      then Ok None
      else match questions session !! current_question_index session with
           | Some q_session => Ok (Some (question q_session))
           | None => Raise IndexError
           end
  end.

(** The common tail of both submissions: advance the cursor, then either
    complete the session or hand out the next question. *)
Definition advance (svc : Service) (now : Time) (session_id : string)
    (session : InterviewSession) (done_message next_message : string)
  : Service * Result SubmitAnswerResponse :=
  let session :=
    set_current_question_index session (current_question_index session + 1) in
  if (length (questions session) <=? current_question_index session)%nat then
    let session := complete session now in
    (set_sessions svc (<[session_id := session]> (sessions svc)),
     Ok {| success := true; follow_up_question := None; next_question := None;
           is_interview_complete := true; message := done_message |})
  else
    let svc := set_sessions svc (<[session_id := session]> (sessions svc)) in
    match questions session !! current_question_index session with
    | Some next =>
        (svc,
         Ok {| success := true; follow_up_question := None;
               next_question := Some (question next);
               is_interview_complete := false; message := next_message |})
    | None => (svc, Raise IndexError)
    end.

Definition get_session (svc : Service) (session_id : string)
  : option InterviewSession :=
  sessions svc !! session_id.

Definition get_session_evaluations (svc : Service) (session_id : string)
  : list Dict :=
  default [] (session_evaluations svc !! session_id).

(** [session.questions[session.current_question_index] = q_session]: the
    slot object is mutated in place. *)
Definition set_slot (session : InterviewSession) (q_session : QuestionSession)
  : InterviewSession :=
  set_questions session
    (<[current_question_index session := q_session]> (questions session)).

(** [q_session.follow_ups[-1]["answer"] = answer_text] *)
Fixpoint answer_last (entries : list FollowUpEntry) (answer_text : string)
  : list FollowUpEntry :=
  match entries with
  | [] => []
  | [e] => [{| entry_question := entry_question e;
               entry_answer := Some answer_text;
               entry_type := entry_type e |}]
  | e :: rest => e :: answer_last rest answer_text
  end.

Definition rejection : SubmitAnswerResponse :=
  {| success := false; follow_up_question := None; next_question := None;
     is_interview_complete := false;
     message := "Answer exceeded time limit. Moving to next question." |}.

Section Submission.
Context `{Builtins}.

(** [submit_answer] returns the state the service is left in together
    with the response, or the exception that escaped. *)
Definition submit_answer (settings : Settings) (svc : Service)
    (backend : Backend) (now : Time)
    (session_id : string) (question_id : Z) (answer_text : string)
    (duration_seconds : PyFloat) (is_voice : bool)
  : Service * Result SubmitAnswerResponse :=
  match sessions svc !! session_id with
  | None => (svc, Raise ValueError)
  | Some session =>
      if fgt duration_seconds (Fin (inject_Z (ANSWER_TIME_SECONDS settings)))
      then (svc, Ok rejection)
      else
        match questions session !! current_question_index session with
        | None => (svc, Raise IndexError)
        | Some q_session =>
            let word_count := Z.of_nat (length (PyStr.split answer_text)) in
            let answer :=
              {| answer_question_id := question_id;
                 answer_text := answer_text;
                 duration_seconds := duration_seconds;
                 word_count := word_count |} in
            let detected :=
              PersonaDetector.detect_persona (persona_history svc)
                (persona_reply backend) answer_text duration_seconds word_count in
            let persona := detected.1 in
            let evaluation := ResponseEvaluator.evaluate (evaluation_reply backend) in
            let star_analysis := STARChecker.check_star_pattern (star_reply backend) in
            let evaluation :=
              <["persona" := JStr (persona_value persona)]>
                (<["word_count" := JInt word_count]>
                   (<["star_analysis" := JObj star_analysis]> evaluation)) in
            let q_session :=
              {| question := question q_session;
                 initial_answer := Some answer;
                 follow_ups := follow_ups q_session;
                 persona_detected := persona;
                 evaluation := Some evaluation |} in
            let session := set_slot session q_session in
            let svc :=
              set_persona_history
                (set_sessions svc (<[session_id := session]> (sessions svc)))
                detected.2 in
            match session_evaluations svc !! session_id with
            | None => (svc, Raise KeyError)
            | Some evaluations =>
                let svc :=
                  set_session_evaluations svc
                    (<[session_id := evaluations ++ [evaluation]]>
                       (session_evaluations svc)) in
                match FollowUpEngine.generate_follow_up
                        (followup_reply backend) evaluation persona with
                | Raise e => (svc, Raise e)
                | Ok (Some follow_up) =>
                    let q_session :=
                      {| question := question q_session;
                         initial_answer := Some answer;
                         follow_ups :=
                           follow_ups q_session ++
                             [{| entry_question := followup_text follow_up;
                                 entry_answer := None;
                                 entry_type := followup_type follow_up |}];
                         persona_detected := persona;
                         evaluation := Some evaluation |} in
                    let session := set_slot session q_session in
                    (set_sessions svc (<[session_id := session]> (sessions svc)),
                     Ok {| success := true;
                           follow_up_question := Some follow_up;
                           next_question := None;
                           is_interview_complete := false;
                           message := "Follow-up question generated" |})
                | Ok None =>
                    advance svc now session_id session
                      "Interview completed!" "Answer submitted successfully"
                end
            end
        end
  end.

End Submission.

Definition submit_followup_answer (svc : Service) (now : Time)
    (session_id : string) (answer_text : string) (duration_seconds : PyFloat)
  : Service * Result SubmitAnswerResponse :=
  match sessions svc !! session_id with
  | None => (svc, Raise ValueError)
  | Some session =>
      match questions session !! current_question_index session with
      | None => (svc, Raise IndexError)
      | Some q_session =>
          let q_session :=
            {| question := question q_session;
               initial_answer := initial_answer q_session;
               follow_ups := answer_last (follow_ups q_session) answer_text;
               persona_detected := persona_detected q_session;
               evaluation := evaluation q_session |} in
          let session := set_slot session q_session in
          advance svc now session_id session
            "Interview completed!" "Follow-up answer submitted"
      end
  end.

(** *** Runs of the state machine *)

(** One submission, with everything the environment supplies to it. *)
Inductive Call :=
| SubmitAnswer (backend : Backend) (now : Time) (session_id : string)
    (question_id : Z) (answer_text : string) (duration_seconds : PyFloat)
    (is_voice : bool)
| SubmitFollowup (now : Time) (session_id : string) (answer_text : string)
    (duration_seconds : PyFloat).

Definition call_time (c : Call) : Time :=
  match c with
  | SubmitAnswer _ now _ _ _ _ _ => now
  | SubmitFollowup now _ _ _ => now
  end.

(** The session a call addresses. *)
Definition call_session (c : Call) : string :=
  match c with
  | SubmitAnswer _ _ session_id _ _ _ _ => session_id
  | SubmitFollowup _ session_id _ _ => session_id
  end.

Section Runs.
Context `{Builtins}.
Variable settings : Settings.

Definition step (svc : Service) (c : Call) : Service * Result SubmitAnswerResponse :=
  match c with
  | SubmitAnswer backend now session_id question_id answer_text duration is_voice =>
      submit_answer settings svc backend now session_id question_id
        answer_text duration is_voice
  | SubmitFollowup now session_id answer_text duration =>
      submit_followup_answer svc now session_id answer_text duration
  end.

(** The state after a sequence of calls; a call that raises leaves the
    state as it was when the exception escaped. *)
Definition run (svc : Service) (calls : list Call) : Service :=
  foldl (fun svc c => (step svc c).1) svc calls.

End Runs.

(** A session as [start_interview] creates it, over at least one question. *)
Definition started (s : InterviewSession) : Prop :=
  current_question_index s = 0%nat /\ status s = in_progress /\
  end_time s = None /\ questions s <> [].

Definition empty_service : Service :=
  {| sessions := ∅; session_evaluations := ∅; persona_history := [] |}.

(** The states the service object reaches from its construction by
    [start_interview] and the two submissions. *)
Inductive reachable `{Builtins} (settings : Settings) : Service -> Prop :=
| reach_init : reachable settings empty_service
| reach_start svc questions_reply now session_id resume_data target_role :
    reachable settings svc ->
    reachable settings
      (start_interview settings svc questions_reply now session_id resume_data
         target_role).1
| reach_step svc c :
    reachable settings svc -> reachable settings (step settings svc c).1.

(** *** Invariant of the sessions *)

(** What one submission may do to the session it addresses: rewrite the
    current slot, move to the next question, or complete. *)
Inductive session_trans (now : Time) (s s' : InterviewSession) : Prop :=
| trans_slot :
    (current_question_index s < length (questions s))%nat ->
    length (questions s') = length (questions s) ->
    current_question_index s' = current_question_index s ->
    status s' = status s -> end_time s' = end_time s ->
    session_trans now s s'
| trans_next :
    (S (current_question_index s) < length (questions s))%nat ->
    length (questions s') = length (questions s) ->
    current_question_index s' = S (current_question_index s) ->
    status s' = status s -> end_time s' = end_time s ->
    session_trans now s s'
| trans_complete :
    S (current_question_index s) = length (questions s) ->
    length (questions s') = length (questions s) ->
    current_question_index s' = S (current_question_index s) ->
    status s' = completed -> end_time s' = Some now ->
    session_trans now s s'.

(** The states a started session moves through. *)
Definition consistent (s : InterviewSession) : Prop :=
  (status s = in_progress
   /\ (current_question_index s < length (questions s))%nat
   /\ end_time s = None)
  \/ (status s = completed
      /\ current_question_index s = length (questions s)
      /\ is_Some (end_time s)).

(** Every session of the store is consistent. *)
Definition store_consistent (svc : Service) : Prop :=
  forall session_id s, sessions svc !! session_id = Some s -> consistent s.

(** Every session has an evaluation list. *)
Definition keyed (svc : Service) : Prop :=
  forall sid, is_Some (sessions svc !! sid) ->
              is_Some (session_evaluations svc !! sid).

(** No slot after the cursor has been written. *)
Definition fresh_ahead (svc : Service) : Prop :=
  forall sid s i slot,
    sessions svc !! sid = Some s ->
    (current_question_index s < i)%nat ->
    questions s !! i = Some slot ->
    slot = new_question_session (question slot).

(** *** The parts of a submission *)

(** The session [advance] stores: the cursor moved by one, and the
    session completed when the cursor has reached the question count. *)
Definition advanced (session : InterviewSession) (now : Time) : InterviewSession :=
  let session :=
    set_current_question_index session (current_question_index session + 1) in
  if (length (questions session) <=? current_question_index session)%nat
  then complete session now
  else session.

Section Parts.
Context `{Builtins}.

(** The evaluation [submit_answer] builds for an answer. *)
Definition built_evaluation (backend : Backend) (persona : PersonaType)
    (word_count : Z) : Dict :=
  <["persona" := JStr (persona_value persona)]>
    (<["word_count" := JInt word_count]>
       (<["star_analysis" :=
            JObj (STARChecker.check_star_pattern (star_reply backend))]>
          (ResponseEvaluator.evaluate (evaluation_reply backend)))).

End Parts.

(** The persona [submit_answer] detects for an answer. *)
Definition detected_persona (svc : Service) (backend : Backend)
    (answer_text : string) (duration_seconds : PyFloat) : PersonaType :=
  (PersonaDetector.detect_persona (persona_history svc) (persona_reply backend)
     answer_text duration_seconds
     (Z.of_nat (length (PyStr.split answer_text)))).1.

(** The slot after an answer has been recorded on it. *)
Definition answered_slot (q_session : QuestionSession) (answer : Answer)
    (persona : PersonaType) (evaluation_data : Dict) : QuestionSession :=
  {| question := question q_session;
     initial_answer := Some answer;
     follow_ups := follow_ups q_session;
     persona_detected := persona;
     evaluation := Some evaluation_data |}.

(** The slot after a follow-up has been attached to it. *)
Definition slot_with_follow_up (q_session : QuestionSession)
    (follow_up : FollowUpQuestion) : QuestionSession :=
  {| question := question q_session;
     initial_answer := initial_answer q_session;
     follow_ups :=
       follow_ups q_session ++
         [{| entry_question := followup_text follow_up;
             entry_answer := None;
             entry_type := followup_type follow_up |}];
     persona_detected := persona_detected q_session;
     evaluation := evaluation q_session |}.

(** The slot after the answer to its last follow-up has been recorded. *)
Definition slot_with_follow_up_answer (q_session : QuestionSession)
    (answer_text : string) : QuestionSession :=
  {| question := question q_session;
     initial_answer := initial_answer q_session;
     follow_ups := answer_last (follow_ups q_session) answer_text;
     persona_detected := persona_detected q_session;
     evaluation := evaluation q_session |}.

(** What no submission changes in a session: the questions of its slots
    and the data it was started with. *)
Definition same_interview (s s' : InterviewSession) : Prop :=
  question <$> questions s' = question <$> questions s
  /\ session_id s' = session_id s /\ user_name s' = user_name s
  /\ target_role s' = target_role s /\ resume_summary s' = resume_summary s
  /\ start_time s' = start_time s.

(** The [submit_answer] calls of a sequence. *)
Definition is_answer (c : Call) : bool :=
  match c with
  | SubmitAnswer _ _ _ _ _ _ _ => true
  | SubmitFollowup _ _ _ _ => false
  end.

(** The [submit_answer] calls of a sequence that address a session. *)
Definition is_answer_for (session_id : string) (c : Call) : bool :=
  match c with
  | SubmitAnswer _ _ sid _ _ _ _ => String.eqb sid session_id
  | SubmitFollowup _ _ _ _ => false
  end.

Definition answers_for (session_id : string) (calls : list Call) : list Call :=
  List.filter (is_answer_for session_id) calls.

(** *** A concrete interview *)

(** An instance of the built-in for closed examples; no example below
    holds a string in a score field. *)
Definition example_builtins : Builtins := {| float_of_str := fun _ => None |}.

Definition example_resume : ResumeData :=
  {| resume_name := Some "Ada"; resume_skills := ["Python"];
     resume_experiences := [("Engineer", "Tech Corp")] |}.

(** A backend that fails at every request. *)
Definition silent_backend : Backend :=
  {| persona_reply := None; evaluation_reply := None;
     star_reply := None; followup_reply := None |}.

Definition started_service : Service :=
  (start_interview default_settings empty_service None 0 "s1"
     example_resume "Software Engineer").1.

Definition started_session : InterviewSession :=
  (start_interview default_settings empty_service None 0 "s1"
     example_resume "Software Engineer").2.

Definition answer_at (now : Time) (duration : PyFloat) : Call :=
  SubmitAnswer silent_backend now "s1" 1 "I fixed the cache" duration false.

Definition five_answers : list Call :=
  [answer_at 1 (Fin 30); answer_at 2 (Fin 30); answer_at 3 (Fin 30);
   answer_at 4 (Fin 30); answer_at 5 (Fin 30)].

Abbreviation finished_service :=
  (@run example_builtins default_settings started_service five_answers).

(** A second session beside the first. *)
Definition two_sessions_service : Service :=
  (start_interview default_settings started_service None 0 "s2"
     example_resume "Data Analyst").1.

(** A backend whose evaluation asks for a follow-up and that words it. *)
Definition probing_backend : Backend :=
  {| persona_reply := None;
     evaluation_reply :=
       Some (JObj (list_to_map
                     [ ("relevance_score", JInt 70);
                       ("needs_follow_up", JBool true);
                       ("follow_up_reason", JStr "depth") ]));
     star_reply := None;
     followup_reply := Some "Which index did you add?" |}.

End InterviewService.

(** ** Transport layer ([api/routes.py]) *)

Module Routes.

(** The outcome of a route: the body of a successful response, or the
    status code of the [HTTPException] that leaves the route.  The detail
    text of an error is not modelled. *)
Inductive HttpResult (A : Type) :=
| Http200 (body : A)
| HttpError (status_code : Z).
Arguments Http200 {A} body.
Arguments HttpError {A} status_code.

Record SubmitAnswerRequest := {
  req_session_id : string;
  req_question_id : Z;
  req_answer_text : string;
  req_duration_seconds : PyFloat;
  req_is_voice : bool
}.

(** [except ValueError] also catches the validation error of a model,
    which is a [ValueError]. *)
Definition is_value_error (e : PyExc) : bool :=
  match e with
  | ValueError | ValidationError => true
  | _ => false
  end.

(** The two handlers of the submission routes: [ValueError] gives 404,
    every other exception 500. *)
Definition handle {A} (r : Result A) : HttpResult A :=
  match r with
  | Ok body => Http200 body
  | Raise e => if is_value_error e then HttpError 404 else HttpError 500
  end.

Section Submission.
Context `{Builtins}.

(** [POST /submit-answer].  The [HTTPException] with status 400 is raised
    inside the [try]; it is no [ValueError], and the route has no handler
    that re-raises it, so the handler for [Exception] turns it into 500. *)
Definition submit_answer (settings : Settings) (svc : InterviewService.Service)
    (backend : InterviewService.Backend) (now : Time)
    (request : SubmitAnswerRequest)
  : InterviewService.Service * HttpResult SubmitAnswerResponse :=
  if negb (Validators.is_valid_answer (req_answer_text request) 5)
  then (svc, HttpError 500)
  else
    let result :=
      InterviewService.submit_answer settings svc backend now
        (req_session_id request) (req_question_id request)
        (req_answer_text request) (req_duration_seconds request)
        (req_is_voice request) in
    (result.1, handle result.2).

End Submission.

(** [POST /submit-followup] *)
Definition submit_followup (svc : InterviewService.Service) (now : Time)
    (request : SubmitAnswerRequest)
  : InterviewService.Service * HttpResult SubmitAnswerResponse :=
  let result :=
    InterviewService.submit_followup_answer svc now
      (req_session_id request) (req_answer_text request)
      (req_duration_seconds request) in
  (result.1, handle result.2).

Record SessionStatus := {
  status_session_id : string;
  status_status : Status;
  status_current_question : Z;
  status_total_questions : Z;
  status_target_role : string
}.

(** [GET /session/{session_id}] *)
Definition get_session (svc : InterviewService.Service) (id : string)
  : HttpResult SessionStatus :=
  match InterviewService.get_session svc id with
  | None => HttpError 404
  | Some session =>
      Http200
        {| status_session_id := session_id session;
           status_status := status session;
           status_current_question :=
             Z.of_nat (current_question_index session) + 1;
           status_total_questions := Z.of_nat (length (questions session));
           status_target_role := target_role session |}
  end.

End Routes.

(** * Properties *)

(** Membership in a list given by its elements. *)
Ltac in_list :=
  repeat first [apply list_elem_of_here | apply list_elem_of_further].

(** Case analysis on the membership in such a list. *)
Ltac cases_in_list H :=
  repeat (apply elem_of_cons in H as [->|H]); [..|by apply elem_of_nil in H].

(** ** Arithmetic facts *)

Section FloatFacts.

Lemma Qred_idem q : Qred (Qred q) = Qred q.
Proof. apply Qred_complete, Qred_correct. Qed.

Lemma inf_times_canonical q pos neg :
  canonical pos -> canonical neg -> canonical (inf_times q pos neg).
Proof. intros Hp Hn. unfold inf_times. destruct (q ?= 0)%Q; simpl; auto. Qed.

Lemma fadd_canonical x y : canonical (fadd x y).
Proof. destruct x, y; simpl; auto using Qred_idem. Qed.

Lemma fmul_canonical x y : canonical (fmul x y).
Proof.
  destruct x, y; simpl; auto using Qred_idem;
    apply inf_times_canonical; exact I.
Qed.

Lemma fadd_0_l f : canonical f -> fadd (Fin 0) f = f.
Proof.
  destruct f as [q| | |]; simpl; auto.
  intros Hq. f_equal. rewrite <- Hq at 2. apply Qred_complete. ring.
Qed.

Lemma fadd_0_r f : canonical f -> fadd f (Fin 0) = f.
Proof.
  destruct f as [q| | |]; simpl; auto.
  intros Hq. f_equal. rewrite <- Hq at 2. apply Qred_complete. ring.
Qed.

Lemma fdiv_Fin a b :
  Qeq_bool b 0 = false -> fdiv (Fin a) (Fin b) = Ok (Fin (Qred (a / b))).
Proof. intros Hb. unfold fdiv. by rewrite Hb. Qed.

Lemma float_of_int_small z :
  Z.abs z < float_int_bound -> float_of_int z = Ok (Fin (inject_Z z)).
Proof. intros Hz. unfold float_of_int. by rewrite (proj2 (Z.ltb_lt _ _) Hz). Qed.

Lemma float_int_bound_large : 1000 < float_int_bound.
Proof. reflexivity. Qed.

Lemma flt_Fin a b : flt (Fin a) (Fin b) = true <-> (a < b)%Q.
Proof.
  simpl. rewrite Qlt_alt. destruct (a ?= b)%Q; split; congruence.
Qed.

Lemma flt_Fin_false a b : flt (Fin a) (Fin b) = false <-> (b <= a)%Q.
Proof.
  pose proof (flt_Fin a b) as Hlt. pose proof (Qnot_lt_le a b) as H1.
  pose proof (Qle_not_lt b a) as H2.
  destruct (flt (Fin a) (Fin b)); split; intros; try congruence.
  - exfalso. apply H2; [assumption | by apply Hlt].
  - apply H1. intros Hab. apply Hlt in Hab. discriminate.
Qed.

End FloatFacts.

#[global] Opaque float_int_bound.

Section NumberFacts.

Lemma float_of_int_const z :
  Z.abs z <= 1000 -> float_of_int z = Ok (Fin (inject_Z z)).
Proof.
  intros Hz. apply float_of_int_small. pose proof float_int_bound_large. lia.
Qed.

Lemma py_add_flt f g : py_add (PFlt f) (PFlt g) = Ok (PFlt (fadd f g)).
Proof. reflexivity. Qed.

Lemma py_add_0_0 : py_add (PInt 0) (PInt 0) = Ok (PInt 0).
Proof. reflexivity. Qed.

Lemma py_add_0_l f : canonical f -> py_add (PInt 0) (PFlt f) = Ok (PFlt f).
Proof.
  intros Hf. unfold py_add. rewrite float_of_int_const by (simpl; lia).
  simpl. f_equal. f_equal. by apply fadd_0_l.
Qed.

Lemma py_add_0_r f : canonical f -> py_add (PFlt f) (PInt 0) = Ok (PFlt f).
Proof.
  intros Hf. unfold py_add. rewrite float_of_int_const by (simpl; lia).
  simpl. f_equal. f_equal. by apply fadd_0_r.
Qed.

Lemma py_add_int_flt z f :
  Z.abs z <= 1000 -> py_add (PInt z) (PFlt f) = Ok (PFlt (fadd (Fin (inject_Z z)) f)).
Proof. intros Hz. unfold py_add. by rewrite float_of_int_const. Qed.

Lemma py_mul_flt_const f z :
  Z.abs z <= 1000 -> py_mul (PFlt f) (PInt z) = Ok (PFlt (fmul f (Fin (inject_Z z)))).
Proof. intros Hz. unfold py_mul. by rewrite float_of_int_const. Qed.

Lemma py_truediv_flt_const f z :
  Z.abs z <= 1000 ->
  py_truediv (PFlt f) (PInt z) = PFlt <$> fdiv f (Fin (inject_Z z)).
Proof. intros Hz. unfold py_truediv. by rewrite float_of_int_const. Qed.

End NumberFacts.

(** ** Narrative-pattern checker *)

Section STARFacts.
Import STARChecker.

Lemma py_truediv_5_float n x : py_truediv n (PInt 5) = Ok x -> exists r, x = PFlt r.
Proof.
  destruct n as [z|f].
  - simpl. destruct (Z.abs z <? _); intros [= <-]; eauto.
  - rewrite py_truediv_flt_const by (simpl; lia).
    destruct (fdiv f _) as [r|e]; simpl; intros [= <-]; eauto.
Qed.

Lemma scaled_quality_shape q : points_shape (scaled_quality q).
Proof.
  unfold scaled_quality. destruct (as_number q) as [n|e]; simpl; [|constructor].
  destruct (py_truediv n (PInt 5)) as [x|e] eqn:Hdiv; simpl; [|constructor].
  apply py_truediv_5_float in Hdiv as [r ->].
  rewrite py_mul_flt_const by (simpl; lia).
  constructor. apply fmul_canonical.
Qed.

Lemma quality_loop_unfold analysis :
  quality_loop analysis =
    (let item acc component :=
       quality_score ← acc;
       if present analysis component then
         points ← scaled_quality (quality analysis component);
         py_add quality_score points
       else Ok quality_score in
     item (item (item (item (Ok (PInt 0)) "situation") "task") "action") "result").
Proof. reflexivity. Qed.

Lemma presence_loop_formula analysis :
  presence_loop analysis =
    presence_points analysis "situation" + presence_points analysis "task"
    + presence_points analysis "action" + presence_points analysis "result".
Proof.
  unfold presence_loop, presence_points. simpl.
  destruct (present analysis "situation"), (present analysis "task"),
    (present analysis "action"), (present analysis "result"); reflexivity.
Qed.

Lemma quality_loop_formula analysis :
  quality_loop analysis =
    (qs ← quality_points analysis "situation";
     qt ← quality_points analysis "task";
     qa ← quality_points analysis "action";
     qr ← quality_points analysis "result";
     q1 ← py_add qs qt;
     q2 ← py_add q1 qa;
     py_add q2 qr).
Proof.
  rewrite quality_loop_unfold. unfold quality_points. cbv zeta.
  generalize (scaled_quality_shape (quality analysis "situation")).
  generalize (scaled_quality_shape (quality analysis "task")).
  generalize (scaled_quality_shape (quality analysis "action")).
  generalize (scaled_quality_shape (quality analysis "result")).
  generalize (scaled_quality (quality analysis "situation")).
  generalize (scaled_quality (quality analysis "task")).
  generalize (scaled_quality (quality analysis "action")).
  generalize (scaled_quality (quality analysis "result")).
  intros tr ta tt ts Hr Ha Ht Hs.
  destruct (present analysis "situation"), (present analysis "task"),
    (present analysis "action"), (present analysis "result");
    repeat match goal with
      | H : points_shape ?t |- context [?t] => destruct H
      end;
    cbn [mbind Result_bind];
    repeat first
      [ rewrite py_add_flt
      | rewrite py_add_0_0
      | rewrite py_add_0_l by auto using fadd_canonical
      | rewrite py_add_0_r by auto using fadd_canonical
      | progress cbn [mbind Result_bind] ];
    reflexivity.
Qed.

Lemma Qred_inject_Z n : Qred (inject_Z n) = inject_Z n.
Proof.
  unfold Qred, inject_Z.
  generalize (Z.ggcd_gcd n 1), (Z.ggcd_correct_divisors n 1).
  destruct (Z.ggcd n 1) as [g [aa bb]]; simpl.
  rewrite Z.gcd_1_r. intros -> [Hn Hb].
  replace aa with n by lia. replace bb with 1 by lia. reflexivity.
Qed.

(** On the rating scale a present component earns [(quality/5)*15]
    points, between 0 and 15. *)
Lemma quality_points_on_scale analysis component n q :
  present analysis component = true ->
  as_number (quality analysis component) = Ok n ->
  num_val n = Fin q -> (0 <= q <= 5)%Q ->
  exists r, quality_points analysis component = Ok (PFlt (Fin r))
            /\ (r == (q / 5) * 15)%Q /\ (0 <= r <= 15)%Q.
Proof.
  intros Hp Hn Hq [Hq0 Hq5].
  unfold quality_points, scaled_quality. rewrite Hp, Hn. cbn [mbind Result_bind].
  assert (Hr : forall r, (r == q / 5 * 15)%Q -> (0 <= r <= 15)%Q).
  { intros r ->. assert (E : (q / 5 * 15 == 3 * q)%Q) by field.
    rewrite E. split; lra. }
  destruct n as [z|f]; simpl in Hq.
  - injection Hq as <-.
    assert (Hz : 0 <= z <= 5).
    { split; [apply Qle_bool_iff in Hq0 | apply Qle_bool_iff in Hq5];
        unfold Qle_bool in *; simpl in *; lia. }
    unfold py_truediv. simpl (5 =? 0).  cbv iota.
    assert (Hb : (Z.abs z <? Z.abs 5 * float_int_bound) = true).
    { apply Z.ltb_lt. pose proof float_int_bound_large. lia. }
    rewrite Hb. cbn [mbind Result_bind].
    rewrite py_mul_flt_const by (simpl; lia). simpl fmul.
    eexists; split; [reflexivity|].
    assert (E : (Qred (Qred (inject_Z z / inject_Z 5) * inject_Z 15)
                 == inject_Z z / 5 * 15)%Q).
    { rewrite !Qred_correct. reflexivity. }
    split; [exact E | apply Hr, E].
  - subst f. rewrite py_truediv_flt_const by (simpl; lia).
    rewrite fdiv_Fin by reflexivity. cbn [fmap Result_fmap mbind Result_bind].
    rewrite py_mul_flt_const by (simpl; lia). simpl fmul.
    eexists; split; [reflexivity|].
    assert (E : (Qred (Qred (q / inject_Z 5) * inject_Z 15) == q / 5 * 15)%Q).
    { rewrite !Qred_correct. reflexivity. }
    split; [exact E | apply Hr, E].
Qed.

(** The two accumulating loops compute the formula. *)
Lemma star_score_eq_formula analysis :
  _calculate_star_score analysis = narrative_score_formula analysis.
Proof.
  unfold _calculate_star_score, narrative_score_formula.
  rewrite quality_loop_formula, presence_loop_formula.
  destruct (quality_points analysis "situation"); [|reflexivity].
  destruct (quality_points analysis "task"); [|reflexivity].
  destruct (quality_points analysis "action"); [|reflexivity].
  destruct (quality_points analysis "result"); [|reflexivity].
  cbn [mbind Result_bind].
  destruct (py_add a a0); [|reflexivity]. cbn [mbind Result_bind].
  destruct (py_add a3 a1); [|reflexivity]. cbn [mbind Result_bind].
  reflexivity.
Qed.

(** The score formula.  For every parsed analysis object the narrative
    score is the sum of 10 points per present component and of
    [(quality/5)*15] points per present component, capped at 100.0.  An
    absent component earns nothing, a present component of quality 0 earns
    its 10 presence points only, and on the rating scale (quality between
    0 and 5) a component earns at most 15 quality points.  Situation, task
    and action present with qualities 4, 3 and 5 and result absent score
    exactly 66.0. *)
Theorem star_score_formula :
  (forall analysis,
     _calculate_star_score analysis = narrative_score_formula analysis)
  /\ (forall analysis component,
        (0 <= presence_points analysis component <= 10)
        /\ (present analysis component = false ->
            presence_points analysis component = 0
            /\ quality_points analysis component = Ok (PInt 0))
        /\ (present analysis component = true ->
            presence_points analysis component = 10)
        /\ (present analysis component = true ->
            quality analysis component = JInt 0 ->
            quality_points analysis component = Ok (PFlt (Fin 0)))
        /\ (forall n q,
              present analysis component = true ->
              as_number (quality analysis component) = Ok n ->
              num_val n = Fin q -> (0 <= q <= 5)%Q ->
              exists r, quality_points analysis component = Ok (PFlt (Fin r))
                        /\ (r == q / 5 * 15)%Q /\ (0 <= r <= 15)%Q))
  /\ _calculate_star_score (analysis_of true true true false 4 3 5 0)
     = Ok (PFlt (Fin 66)).
Proof.
  split; [|split].
  - exact star_score_eq_formula.
  - intros analysis component. unfold presence_points, quality_points.
    destruct (present analysis component) eqn:Hp.
    + repeat split; try lia; try discriminate.
      * intros _ Hq. rewrite Hq. vm_compute. reflexivity.
      * intros n q _ Hn Hq Hscale.
        pose proof (quality_points_on_scale analysis component n q Hp Hn Hq Hscale)
          as Hpoints.
        unfold quality_points in Hpoints. rewrite Hp in Hpoints. exact Hpoints.
    + repeat split; try lia; try discriminate.
  - vm_compute. reflexivity.
Qed.

(** The formula at the example of the specification. *)
Lemma star_score_formula_witness :
  let analysis := analysis_of true true true false 4 3 5 0 in
  narrative_score_formula analysis = Ok (PFlt (Fin 66))
  /\ quality_points analysis "result" = Ok (PInt 0)
  /\ exists r, quality_points analysis "situation" = Ok (PFlt (Fin r))
               /\ (r == 4 / 5 * 15)%Q /\ (0 <= r <= 15)%Q.
Proof.
  destruct star_score_formula as (Heq & Hcomp & Hex).
  split; [|split].
  - rewrite <- Heq. exact Hex.
  - apply (Hcomp (analysis_of true true true false 4 3 5 0) "result").
    vm_compute. reflexivity.
  - destruct (Hcomp (analysis_of true true true false 4 3 5 0) "situation")
      as (_ & _ & _ & _ & Hscale).
    apply (Hscale (PInt 4) 4%Q).
    + vm_compute. reflexivity.
    + vm_compute. reflexivity.
    + reflexivity.
    + split; discriminate.
Defined.

(** The analysis of the fallback carries the score 0.0. *)
Lemma fallback_analysis_score :
  check_star_pattern None = _get_fallback_analysis
  /\ score_of _get_fallback_analysis = Ok (PFlt (Fin 0)).
Proof. split; [reflexivity | vm_compute; reflexivity]. Qed.

(** A result with all four components absent scores exactly 0. *)
Lemma star_score_all_absent analysis :
  (forall component, component ∈ COMPONENTS -> present analysis component = false) ->
  _calculate_star_score analysis = Ok (PInt 0).
Proof.
  intros Habsent. rewrite star_score_eq_formula.
  unfold narrative_score_formula, quality_points, presence_points.
  rewrite !Habsent by (unfold COMPONENTS; in_list).
  reflexivity.
Qed.

(** A result with all four components present at quality 5 scores
    exactly 100. *)
Lemma star_score_all_present_5 analysis :
  (forall component, component ∈ COMPONENTS ->
     present analysis component = true /\ quality analysis component = JInt 5) ->
  _calculate_star_score analysis = Ok (PFlt (Fin 100)).
Proof.
  intros Hall. rewrite star_score_eq_formula.
  unfold narrative_score_formula, quality_points, presence_points.
  destruct (Hall "situation") as [Hsituation ->]; [unfold COMPONENTS; in_list|]; rewrite Hsituation.
  destruct (Hall "task") as [Htask ->]; [unfold COMPONENTS; in_list|]; rewrite Htask.
  destruct (Hall "action") as [Haction ->]; [unfold COMPONENTS; in_list|]; rewrite Haction.
  destruct (Hall "result") as [Hresult ->]; [unfold COMPONENTS; in_list|]; rewrite Hresult.
  vm_compute. reflexivity.
Qed.

Lemma py_add_nonneg x y :
  nonneg_points x -> nonneg_points y ->
  exists z, py_add x y = Ok z /\ nonneg_points z.
Proof.
  intros [->|(r1 & -> & H1)] [->|(r2 & -> & H2)].
  - exists (PInt 0). split; [reflexivity|by left].
  - rewrite py_add_int_flt by (simpl; lia). eexists; split; [reflexivity|].
    right. eexists; split; [reflexivity|]. rewrite Qred_correct.
    change (inject_Z 0) with 0%Q. lra.
  - unfold py_add. rewrite float_of_int_const by (simpl; lia).
    eexists; split; [reflexivity|].
    right. eexists; split; [reflexivity|]. rewrite Qred_correct.
    change (inject_Z 0) with 0%Q. lra.
  - eexists; split; [reflexivity|].
    right. eexists; split; [reflexivity|]. rewrite Qred_correct. lra.
Qed.

Lemma quality_points_nonneg analysis component :
  on_scale analysis -> component ∈ COMPONENTS ->
  exists x, quality_points analysis component = Ok x /\ nonneg_points x.
Proof.
  intros Hscale Hc. destruct (present analysis component) eqn:Hp.
  - destruct (Hscale component Hc Hp) as (n & q & Hn & Hq & Hrange).
    destruct (quality_points_on_scale analysis component n q Hp Hn Hq Hrange)
      as (r & -> & _ & Hr & _).
    eexists; split; [reflexivity|]. right. eauto.
  - unfold quality_points. rewrite Hp. eexists; split; [reflexivity|by left].
Qed.

(** The cap keeps a finite total that is not negative inside [0,100]. *)
Lemma py_min_100_in_range total :
  (exists z, total = PInt z /\ 0 <= z <= 100)
  \/ (exists r, total = PFlt (Fin r) /\ (0 <= r)%Q) ->
  in_0_100 (py_min (PFlt (Fin 100)) total).
Proof.
  intros [(z & -> & Hz)|(r & -> & Hr)]; unfold py_min, py_lt; cbn [num_val].
  - destruct (flt (Fin (inject_Z z)) (Fin 100)) eqn:Hlt.
    + apply flt_Fin in Hlt. unfold in_0_100; cbn [num_val].
      split; [|lra].
      change 0%Q with (inject_Z 0). rewrite <- Zle_Qle. lia.
    + unfold in_0_100; simpl. split; lra.
  - destruct (flt (Fin r) (Fin 100)) eqn:Hlt.
    + apply flt_Fin in Hlt. unfold in_0_100; cbn [num_val]. split; lra.
    + unfold in_0_100; simpl. split; lra.
Qed.

(** When every present component is rated on the scale, the score is
    returned and lies in [0,100]. *)
Lemma star_score_in_range_on_scale analysis :
  on_scale analysis ->
  exists x, _calculate_star_score analysis = Ok x /\ in_0_100 x.
Proof.
  intros Hscale. rewrite star_score_eq_formula. unfold narrative_score_formula.
  destruct (quality_points_nonneg analysis "situation" Hscale)
    as (qs & -> & Hqs); [unfold COMPONENTS; in_list|].
  destruct (quality_points_nonneg analysis "task" Hscale)
    as (qt & -> & Hqt); [unfold COMPONENTS; in_list|].
  destruct (quality_points_nonneg analysis "action" Hscale)
    as (qa & -> & Hqa); [unfold COMPONENTS; in_list|].
  destruct (quality_points_nonneg analysis "result" Hscale)
    as (qr & -> & Hqr); [unfold COMPONENTS; in_list|].
  cbn [mbind Result_bind].
  destruct (py_add_nonneg qs qt Hqs Hqt) as (q1 & -> & Hq1). cbn [mbind Result_bind].
  destruct (py_add_nonneg q1 qa Hq1 Hqa) as (q2 & -> & Hq2). cbn [mbind Result_bind].
  destruct (py_add_nonneg q2 qr Hq2 Hqr) as (q3 & -> & Hq3). cbn [mbind Result_bind].
  set (presence := presence_points analysis "situation"
                   + presence_points analysis "task"
                   + presence_points analysis "action"
                   + presence_points analysis "result").
  assert (Hpresence : 0 <= presence <= 40).
  { unfold presence, presence_points.
    destruct (present analysis "situation"), (present analysis "task"),
      (present analysis "action"), (present analysis "result"); lia. }
  destruct Hq3 as [->|(r & -> & Hr)].
  - eexists; split; [reflexivity|]. apply py_min_100_in_range.
    left. exists (presence + 0). split; [done|lia].
  - rewrite py_add_int_flt by lia. cbn [mbind Result_bind].
    eexists; split; [reflexivity|]. apply py_min_100_in_range.
    right. eexists; split; [reflexivity|]. rewrite Qred_correct.
    assert (0 <= inject_Z presence)%Q
      by (change 0%Q with (inject_Z 0); rewrite <- Zle_Qle; lia).
    lra.
Qed.

(** C4, at the failing input.  A parsed analysis whose only present
    component carries the quality -10 is returned by the checker with the
    score [10 + (-10/5)*15 = -20], outside [0,100]: the cap is applied on
    the upper side only. *)
Theorem star_score_negative_quality :
  let analysis := analysis_of true false false false (-10) 0 0 0 in
  _calculate_star_score analysis = Ok (PFlt (Fin (-20)))
  /\ score_of (check_star_pattern (Some (JObj analysis))) = Ok (PFlt (Fin (-20)))
  /\ ~ in_0_100 (PFlt (Fin (-20))).
Proof.
  split; [|split].
  - vm_compute. reflexivity.
  - vm_compute. reflexivity.
  - unfold in_0_100. simpl. intros [Hlo _]. apply Hlo. reflexivity.
Qed.

(** C5, at the failing input.  The quality of a present component is
    scaled without a check of the rating scale.  A parsed analysis whose only
    present component carries the quality 7 earns [(7/5)*15 = 21] quality
    points for that component, more than the 15 points a component is
    scaled to, and the checker returns it with the score [10 + 21 = 31].
    With all four components at quality 7 the quality points add up to 84,
    more than the 60 points of the quality share, and only the cap at
    100.0 hides it. *)
Theorem star_score_quality_above_scale :
  let analysis := analysis_of true false false false 7 0 0 0 in
  presence_points analysis "situation" = 10
  /\ quality_points analysis "situation" = Ok (PFlt (Fin 21))
  /\ ~ (21 <= 15)%Q
  /\ _calculate_star_score analysis = Ok (PFlt (Fin 31))
  /\ score_of (check_star_pattern (Some (JObj analysis))) = Ok (PFlt (Fin 31))
  /\ (let analysis4 := analysis_of true true true true 7 7 7 7 in
      (forall component, component ∈ COMPONENTS ->
         quality_points analysis4 component = Ok (PFlt (Fin 21)))
      /\ ~ (21 + 21 + 21 + 21 <= 60)%Q
      /\ _calculate_star_score analysis4 = Ok (PFlt (Fin 100))).
Proof.
  cbv zeta.
  split; [vm_compute; reflexivity|].
  split; [vm_compute; reflexivity|].
  split; [intros Hle; by apply Qle_bool_iff in Hle|].
  split; [vm_compute; reflexivity|].
  split; [vm_compute; reflexivity|].
  split; [|split].
  - intros component Hc. unfold COMPONENTS in Hc.
    cases_in_list Hc; vm_compute; reflexivity.
  - intros Hle. by apply Qle_bool_iff in Hle.
  - vm_compute. reflexivity.
Qed.

End STARFacts.

(** ** Response evaluator *)

Section EvaluatorFacts.
Import ResponseEvaluator.
Context `{Builtins}.

Lemma clamp_in_range score :
  exists x, clamp score = PFlt x /\ in_0_100 (PFlt x).
Proof.
  unfold clamp, py_max, py_min, py_gt, py_lt. cbn [num_val].
  destruct (flt score (Fin 100)) eqn:Hhi; cbn [num_val].
  - destruct (flt (Fin 0) score) eqn:Hlo; eexists; (split; [reflexivity|]).
    + destruct score as [q| | |]; try discriminate.
      apply flt_Fin in Hhi, Hlo. unfold in_0_100; simpl. split; lra.
    + unfold in_0_100; simpl. split; lra.
  - change (flt (Fin 0) (Fin 100)) with true. cbv iota.
    eexists; split; [reflexivity|]. unfold in_0_100; simpl. split; lra.
Qed.

Lemma expected_score_in_range field :
  exists x, expected_score field = JFloat x /\ in_0_100 (PFlt x).
Proof.
  assert (Hdefault : in_0_100 (PFlt (Fin 50))) by (unfold in_0_100; simpl; split; lra).
  unfold expected_score. destruct field as [v|]; [|eauto].
  destruct (py_float v) as [score|e]; [|eauto].
  destruct (clamp_in_range score) as (x & -> & Hx). eauto.
Qed.

Lemma merge_lookup (l : list (string * JValue)) (evaluation : Dict) key :
  foldl (fun ev kv =>
           match ev !! kv.1 with
           | None => <[kv.1 := kv.2]> ev
           | Some _ => ev
           end) evaluation l !! key
  = match evaluation !! key with
    | Some v => Some v
    | None => assoc key l
    end.
Proof.
  revert evaluation. induction l as [|[k d] l IH]; intros evaluation; simpl.
  - by destruct (evaluation !! key).
  - rewrite IH. destruct (String.eqb_spec k key) as [->|Hne].
    + destruct (evaluation !! key) eqn:Hk; [by rewrite Hk|].
      by rewrite lookup_insert_eq.
    + destruct (evaluation !! k) eqn:Hk; [done|]. by rewrite lookup_insert_ne.
Qed.

Lemma merge_defaults_score (evaluation : Dict) key :
  key ∈ SCORE_KEYS ->
  merge_defaults evaluation !! key
  = Some (default (JFloat (Fin 50)) (evaluation !! key)).
Proof.
  intros Hkey. unfold merge_defaults. rewrite merge_lookup.
  destruct (evaluation !! key); [done|].
  unfold SCORE_KEYS in Hkey.
  repeat (apply elem_of_cons in Hkey as [->|Hkey]; [reflexivity|]).
  by apply elem_of_nil in Hkey.
Qed.

Lemma normalize_score_inv (evaluation ev' : Dict) key :
  normalize_score evaluation key = Ok ev' ->
  exists v, evaluation !! key = Some v
            /\ ev' = <[key := expected_score (Some v)]> evaluation.
Proof.
  unfold normalize_score, expected_score.
  destruct (evaluation !! key) as [v|]; [|discriminate].
  destruct (py_float v) as [score|[]] eqn:Hfloat; intros [= <-];
    exists v; by rewrite Hfloat.
Qed.

Lemma normalize_score_total (evaluation : Dict) key v :
  evaluation !! key = Some v ->
  (forall z, v = JInt z -> Z.abs z < float_int_bound) ->
  exists ev', normalize_score evaluation key = Ok ev'.
Proof.
  intros Hv Hz. unfold normalize_score. rewrite Hv.
  destruct v as [|b|z|f|s|l|d]; simpl; eauto.
  - rewrite float_of_int_small by eauto. eauto.
  - destruct (float_of_str s); eauto.
Qed.

Lemma expected_score_default field :
  expected_score (Some (default (JFloat (Fin 50)) field)) = expected_score field.
Proof. destruct field; reflexivity. Qed.

(** What a successful normalisation leaves in the four score fields. *)
Lemma normalize_evaluation_inv (evaluation ev' : Dict) :
  _normalize_evaluation evaluation = Ok ev' ->
  forall key, key ∈ SCORE_KEYS ->
    ev' !! key = Some (expected_score (evaluation !! key)).
Proof.
  unfold _normalize_evaluation, SCORE_KEYS. cbn [foldl mbind Result_bind].
  intros Hn.
  destruct (normalize_score _ "relevance_score") as [ev1|] eqn:H1;
    [cbn [mbind Result_bind] in Hn|discriminate].
  destruct (normalize_score _ "confidence_score") as [ev2|] eqn:H2;
    [cbn [mbind Result_bind] in Hn|discriminate].
  destruct (normalize_score _ "technical_depth_score") as [ev3|] eqn:H3;
    [cbn [mbind Result_bind] in Hn|discriminate].
  apply normalize_score_inv in H1 as (v1 & Hv1 & ->).
  apply normalize_score_inv in H2 as (v2 & Hv2 & ->).
  apply normalize_score_inv in H3 as (v3 & Hv3 & ->).
  apply normalize_score_inv in Hn as (v4 & Hv4 & ->).
  rewrite !lookup_insert_ne in Hv2 by done.
  rewrite !lookup_insert_ne in Hv3 by done.
  rewrite !lookup_insert_ne in Hv4 by done.
  rewrite merge_defaults_score in Hv1 by (unfold SCORE_KEYS; in_list).
  rewrite merge_defaults_score in Hv2 by (unfold SCORE_KEYS; in_list).
  rewrite merge_defaults_score in Hv3 by (unfold SCORE_KEYS; in_list).
  rewrite merge_defaults_score in Hv4 by (unfold SCORE_KEYS; in_list).
  injection Hv1 as <-. injection Hv2 as <-.
  injection Hv3 as <-. injection Hv4 as <-.
  rewrite !expected_score_default.
  intros key Hkey. cases_in_list Hkey.
  - by rewrite !lookup_insert_ne, lookup_insert_eq by done.
  - by rewrite !lookup_insert_ne, lookup_insert_eq by done.
  - by rewrite !lookup_insert_ne, lookup_insert_eq by done.
  - by rewrite lookup_insert_eq.
Qed.

(** The normalisation returns unless a score field overflows. *)
Lemma normalize_evaluation_total (evaluation : Dict) :
  no_overflow evaluation -> exists ev', _normalize_evaluation evaluation = Ok ev'.
Proof.
  intros Hno.
  assert (Hstep : forall (ev : Dict) key,
             key ∈ SCORE_KEYS ->
             ev !! key = Some (default (JFloat (Fin 50)) (evaluation !! key)) ->
             exists ev', normalize_score ev key = Ok ev'
                         /\ forall k, k <> key -> ev' !! k = ev !! k).
  { intros ev key Hkey Hlook.
    destruct (normalize_score_total ev key _ Hlook) as [ev' Hev'].
    - intros z Hz. destruct (evaluation !! key) as [v|] eqn:Hv; simpl in Hz.
      + subst v. eauto.
      + discriminate.
    - exists ev'. split; [done|]. intros k Hk.
      apply normalize_score_inv in Hev' as (? & _ & ->).
      by rewrite lookup_insert_ne. }
  unfold _normalize_evaluation, SCORE_KEYS. cbn [foldl mbind Result_bind].
  destruct (Hstep (merge_defaults evaluation) "relevance_score")
    as (ev1 & -> & Hf1);
    [in_list | apply merge_defaults_score; unfold SCORE_KEYS; in_list |].
  cbn [mbind Result_bind].
  destruct (Hstep ev1 "confidence_score") as (ev2 & -> & Hf2);
    [in_list
    | rewrite Hf1 by done; apply merge_defaults_score; unfold SCORE_KEYS; in_list |].
  cbn [mbind Result_bind].
  destruct (Hstep ev2 "technical_depth_score") as (ev3 & -> & Hf3);
    [in_list
    | rewrite Hf2, Hf1 by done; apply merge_defaults_score; unfold SCORE_KEYS; in_list |].
  cbn [mbind Result_bind].
  destruct (Hstep ev3 "clarity_score") as (ev4 & -> & Hf4);
    [in_list
    | rewrite Hf3, Hf2, Hf1 by done; apply merge_defaults_score;
      unfold SCORE_KEYS; in_list |].
  eauto.
Qed.

(** In the absence of an overflowing [int] the normalisation returns, and
    each of the four score fields then holds a float in [0,100]: 50.0 for a
    missing field, the clamped value of a field that coerces, 50.0 for a
    field that does not. *)
Lemma normalize_evaluation_scores (evaluation : Dict) :
  no_overflow evaluation ->
  exists ev', _normalize_evaluation evaluation = Ok ev'
    /\ forall key, key ∈ SCORE_KEYS ->
         ev' !! key = Some (expected_score (evaluation !! key))
         /\ exists x, ev' !! key = Some (JFloat x) /\ in_0_100 (PFlt x).
Proof.
  intros Hno. destruct (normalize_evaluation_total evaluation Hno) as [ev' Hev'].
  exists ev'. split; [done|]. intros key Hkey.
  rewrite (normalize_evaluation_inv _ _ Hev' key Hkey). split; [done|].
  destruct (expected_score_in_range (evaluation !! key)) as (x & -> & Hx). eauto.
Qed.

(** Whatever the backend produced, the evaluation that [evaluate] returns
    holds a float in [0,100] in each of the four score fields. *)
Lemma evaluate_scores_in_range reply key :
  key ∈ SCORE_KEYS ->
  exists x, evaluate reply !! key = Some (JFloat x) /\ in_0_100 (PFlt x).
Proof.
  intros Hkey.
  assert (Hfallback : exists x, _get_fallback_evaluation !! key = Some (JFloat x)
                                /\ in_0_100 (PFlt x)).
  { exists (Fin 50). split.
    - unfold SCORE_KEYS in Hkey. cases_in_list Hkey; reflexivity.
    - unfold in_0_100; simpl. split; lra. }
  unfold evaluate. destruct reply as [[| | | | | |evaluation]|]; try done.
  destruct (_normalize_evaluation evaluation) as [ev'|e] eqn:Hn; simpl; [|done].
  rewrite (normalize_evaluation_inv _ _ Hn key Hkey).
  destruct (expected_score_in_range (evaluation !! key)) as (x & -> & Hx). eauto.
Qed.

(** C6, at the failing input.  A parsed evaluation whose relevance score
    is the integer [10^400] makes [float] raise [OverflowError], which the
    handler for [ValueError] and [TypeError] lets through: the
    normalisation returns no evaluation at all, and [evaluate] drops the
    parsed object for the fallback. *)
Theorem normalize_evaluation_overflow :
  let evaluation : Dict := {[ "relevance_score" := JInt (10 ^ 400) ]} in
  _normalize_evaluation evaluation = Raise OverflowError
  /\ evaluate (Some (JObj evaluation)) = _get_fallback_evaluation.
Proof.
  assert (Hraise : _normalize_evaluation {[ "relevance_score" := JInt (10 ^ 400) ]}
                   = Raise OverflowError) by (vm_compute; reflexivity).
  split; [exact Hraise|]. unfold evaluate. by rewrite Hraise.
Qed.

End EvaluatorFacts.

(** ** Follow-up engine *)

Section FollowUpFacts.
Import FollowUpEngine.

(** With numeric scores the type selection never raises and follows the
    rule list. *)
Lemma determine_type_first_rule evaluation persona relevance confidence depth :
  score evaluation "relevance_score" = Ok relevance ->
  score evaluation "confidence_score" = Ok confidence ->
  score evaluation "technical_depth_score" = Ok depth ->
  _determine_follow_up_type evaluation persona
  = Ok (first_matching_rule (is_on_topic evaluation)
          relevance confidence depth persona).
Proof.
  intros Hr Hc Hd.
  unfold _determine_follow_up_type, first_matching_rule, is_on_topic.
  unfold score in Hr, Hc, Hd. rewrite Hr, Hc, Hd. cbn [mbind Result_bind].
  destruct (py_truthy _); [|done]. cbn [negb].
  destruct (py_lt relevance _); [done|].
  destruct (bool_decide _); [done|].
  destruct (py_gt confidence _); [done|].
  by destruct (py_lt depth _).
Qed.

(** The rule list yields one of the four follow-up types. *)
Lemma first_matching_rule_type on_topic relevance confidence depth persona :
  first_matching_rule on_topic relevance confidence depth persona
  ∈ ["redirect"; "probe"; "hint"; "challenge"].
Proof.
  unfold first_matching_rule.
  destruct on_topic; cbn [negb]; [|in_list].
  destruct (py_lt relevance _); [in_list|].
  destruct (bool_decide _); [in_list|].
  destruct (py_gt confidence _); [in_list|].
  destruct (py_lt depth _); in_list.
Qed.

(** C7.  The follow-up decision returns none whenever
    [needs_follow_up] is false.  Otherwise the follow-up type is the one
    of the first matching rule, in the order: off topic, redirect;
    relevance below 60, probe; confused persona, hint; confidence above
    80, challenge; technical depth below 60, probe; else probe.  The
    follow-up returned carries that type (none is returned only for an
    empty follow-up text). *)
Theorem follow_up_decision response evaluation persona :
  (needs_follow_up evaluation = false ->
   generate_follow_up response evaluation persona = Ok None)
  /\ (forall relevance confidence depth,
        score evaluation "relevance_score" = Ok relevance ->
        score evaluation "confidence_score" = Ok confidence ->
        score evaluation "technical_depth_score" = Ok depth ->
        let rule :=
          first_matching_rule (is_on_topic evaluation)
            relevance confidence depth persona in
        _determine_follow_up_type evaluation persona = Ok rule
        /\ (needs_follow_up evaluation = true ->
            generate_follow_up response evaluation persona =
              let text := _generate_follow_up_text response rule in
              if String.eqb text "" then Ok None
              else
                reason ← validate_str
                  (dict_get evaluation "follow_up_reason"
                     (JStr "Seeking clarification"));
                Ok (Some {| followup_text := text;
                            followup_reason := reason;
                            followup_type := rule |}))).
Proof.
  split.
  - unfold needs_follow_up, generate_follow_up. by intros ->.
  - intros relevance confidence depth Hr Hc Hd rule.
    assert (Htype : _determine_follow_up_type evaluation persona = Ok rule)
      by (by apply determine_type_first_rule).
    split; [exact Htype|].
    unfold needs_follow_up, generate_follow_up. intros ->. cbn [negb].
    rewrite Htype. reflexivity.
Qed.

(** The theorem at the example of the specification: no rule before
    the default matches and the type is [probe]; for a confused persona
    rule 3 gives [hint]. *)
Lemma follow_up_decision_witness :
  generate_follow_up (Some "Why?") ResponseEvaluator._get_fallback_evaluation NORMAL
    = Ok None
  /\ _determine_follow_up_type example_evaluation NORMAL = Ok "probe"
  /\ _determine_follow_up_type example_evaluation CONFUSED = Ok "hint"
  /\ generate_follow_up (Some "Why?") example_evaluation NORMAL
     = Ok (Some {| followup_text := "Why?"; followup_reason := "depth";
                   followup_type := "probe" |}).
Proof.
  split; [|split; [|split]].
  - apply (proj1 (follow_up_decision (Some "Why?")
                    ResponseEvaluator._get_fallback_evaluation NORMAL)).
    reflexivity.
  - destruct (proj2 (follow_up_decision None example_evaluation NORMAL)
                (PFlt (Fin 90)) (PFlt (Fin 40)) (PFlt (Fin 85)))
      as [Htype _]; [reflexivity..|]. exact Htype.
  - destruct (proj2 (follow_up_decision None example_evaluation CONFUSED)
                (PFlt (Fin 90)) (PFlt (Fin 40)) (PFlt (Fin 85)))
      as [Htype _]; [reflexivity..|]. exact Htype.
  - destruct (proj2 (follow_up_decision (Some "Why?") example_evaluation NORMAL)
                (PFlt (Fin 90)) (PFlt (Fin 40)) (PFlt (Fin 85)))
      as [_ Hgen]; [reflexivity..|].
    rewrite Hgen by reflexivity. reflexivity.
Defined.

End FollowUpFacts.

(** ** Persona detector *)

Section PersonaFacts.
Import PersonaDetector.





End PersonaFacts.

(** ** Question generator *)

Section QuestionFacts.
Import QuestionGenerator.

Lemma pad_length missing target_role questions :
  length (pad missing target_role questions) = (length questions + missing)%nat.
Proof.
  revert questions. induction missing as [|k IH]; intros questions; simpl.
  - lia.
  - rewrite IH, length_app. simpl. lia.
Qed.

Lemma py_slice_to_length {A} (l : list A) n :
  0 <= n -> n <= Z.of_nat (length l) ->
  length (py_slice_to l n) = Z.to_nat n.
Proof.
  intros Hn Hl. unfold py_slice_to.
  rewrite (proj2 (Z.leb_le _ _) Hn), length_take. lia.
Qed.

(** With a non-negative [TOTAL_QUESTIONS] the main path returns exactly
    that many questions; the fallback returns five. *)
Lemma generate_questions_length settings reply target_role :
  0 <= TOTAL_QUESTIONS settings ->
  length (generate_questions settings reply target_role)
  = Z.to_nat (TOTAL_QUESTIONS settings)
  \/ generate_questions settings reply target_role
     = _get_fallback_questions target_role.
Proof.
  intros Hn. unfold generate_questions.
  destruct reply as [questions_data|]; [|by right].
  destruct (question_entries settings questions_data) as [entries|e];
    simpl; [left|by right].
  apply py_slice_to_length; [done|]. rewrite pad_length. lia.
Qed.

(** Under the declared settings every outcome of the backend yields five
    questions. *)
Lemma generate_questions_length_default reply target_role :
  length (generate_questions default_settings reply target_role) = 5%nat.
Proof.
  destruct (generate_questions_length default_settings reply target_role)
    as [->| ->]; [done|reflexivity..].
Qed.

(** The conversion of an entry depends on the identifier only through
    the identifier field of the question. *)
Lemma make_question_id id id' q_data q :
  make_question id q_data = Ok q ->
  question_id q = id /\ exists q', make_question id' q_data = Ok q'.
Proof.
  unfold make_question. destruct q_data as [| | | | | |d]; try discriminate.
  destruct (d !! "question_text") as [text|]; [|discriminate].
  cbn [mbind Result_bind].
  destruct (question_type_of _) as [qtype|]; [|discriminate].
  cbn [mbind Result_bind].
  destruct (validate_str text) as [text'|]; [|discriminate].
  cbn [mbind Result_bind].
  destruct (validate_opt_str _) as [related|]; [|discriminate].
  cbn [mbind Result_bind].
  destruct (validate_str_list _) as [expected|]; [|discriminate].
  cbn [mbind Result_bind].
  destruct (validate_str _) as [level|]; [|discriminate].
  cbn [mbind Result_bind].
  intros [= <-]. split; [reflexivity|eauto].
Qed.

Lemma convert_from_ids entries i questions :
  Forall convertible entries ->
  map question_id (convert_from i entries questions)
  = map question_id questions ++ seqZ (i + 1) (Z.of_nat (length entries)).
Proof.
  intros Hall. revert i questions.
  induction Hall as [|q_data entries [q0 Hq0] _ IH]; intros i questions.
  - simpl. by rewrite seqZ_nil, app_nil_r.
  - cbn [convert_from].
    destruct (make_question_id 0 (i + 1) q_data q0 Hq0) as [_ [q Hq]].
    rewrite Hq, IH, map_app. cbn [map length].
    destruct (make_question_id (i + 1) 0 q_data q Hq) as [-> _].
    rewrite (seqZ_cons (i + 1)) by lia.
    rewrite <- app_assoc. cbn [app]. do 3 f_equal; lia.
Qed.

Lemma convert_from_length entries i questions :
  Forall convertible entries ->
  length (convert_from i entries questions)
  = (length questions + length entries)%nat.
Proof.
  intros Hall.
  rewrite <- (length_map question_id), convert_from_ids by done.
  rewrite length_app, length_map, length_seqZ. lia.
Qed.

Lemma pad_ids missing target_role questions :
  map question_id questions = seqZ 1 (Z.of_nat (length questions)) ->
  map question_id (pad missing target_role questions)
  = seqZ 1 (Z.of_nat (length questions + missing)).
Proof.
  revert questions. induction missing as [|k IH]; intros questions Hids.
  - simpl. by rewrite Nat.add_0_r.
  - cbn [pad]. rewrite IH.
    + rewrite length_app. cbn [length]. f_equal. lia.
    + rewrite map_app, length_app, Hids. cbn [map length].
      rewrite Nat.add_1_r, seqZ_S. do 2 f_equal.
      unfold _create_generic_question. cbn [question_id]. lia.
Qed.

Lemma take_seqZ n m : 0 <= n <= m -> take (Z.to_nat n) (seqZ 1 m) = seqZ 1 n.
Proof.
  intros Hn. replace m with (n + (m - n)) by lia.
  rewrite seqZ_app by lia. apply take_app_length'. by rewrite length_seqZ.
Qed.

(** When every entry the loop visits converts, the identifiers are
    exactly 1..N in order. *)
Lemma generate_questions_ids_convertible settings d l target_role :
  0 <= TOTAL_QUESTIONS settings ->
  dict_get d "questions" (JList []) = JList l ->
  Forall convertible (py_slice_to l (TOTAL_QUESTIONS settings)) ->
  map question_id (generate_questions settings (Some (JObj d)) target_role)
  = seqZ 1 (TOTAL_QUESTIONS settings).
Proof.
  intros Hn Hl Hall. unfold generate_questions, question_entries. rewrite Hl.
  cbn [mbind Result_bind try_except].
  set (entries := py_slice_to l (TOTAL_QUESTIONS settings)) in *.
  set (questions := convert_from 0 entries []).
  assert (Hids : map question_id questions
                 = seqZ 1 (Z.of_nat (length questions))).
  { unfold questions. rewrite convert_from_ids, convert_from_length by done.
    reflexivity. }
  unfold py_slice_to at 1. rewrite (proj2 (Z.leb_le _ _) Hn).
  rewrite <- firstn_map, pad_ids by done.
  apply take_seqZ. lia.
Qed.

(** The fallback questions are numbered 1..5. *)
Lemma fallback_questions_ids target_role :
  map question_id (_get_fallback_questions target_role) = [1; 2; 3; 4; 5].
Proof. reflexivity. Qed.

(** C9, at the failing input.  When the first of five entries cannot be
    converted, the entries that follow keep the identifiers of their
    positions, 2 to 5, and the padding question is numbered after the
    length of the list, 5 again: the identifiers are not 1..5. *)
Theorem generate_questions_malformed_entry :
  map question_id
      (generate_questions default_settings (Some malformed_reply) "chef")
  = [2; 3; 4; 5; 5].
Proof. vm_compute. reflexivity. Qed.

End QuestionFacts.

(** ** Report generator *)

Section ReportFacts.
Import ReportGenerator.

(** C1, as the code has it.  Aggregation over an empty evaluation list
    returns, without raising, the fixed default scores: confidence,
    communication, technical depth and behavioural clarity 50, narrative
    usage 0, and overall 50. *)
Theorem calculate_scores_empty :
  _calculate_scores []
  = Ok {| confidence := Fin 50; communication := Fin 50;
          technical_depth := Fin 50; star_method_usage := Fin 0;
          behavioral_clarity := Fin 50; overall := Fin 50 |}.
Proof. reflexivity. Qed.

(** C1 as stated fails: the weighted combination of the default scores
    is 42.5, and the overall score of the default object is 50. *)
Lemma calculate_scores_empty_not_weighted :
  exists scores,
    _calculate_scores [] = Ok scores
    /\ weighted_overall
         (PFlt (confidence scores)) (PFlt (technical_depth scores))
         (PFlt (communication scores)) (PFlt (star_method_usage scores))
         (PFlt (behavioral_clarity scores))
       = Ok (PFlt (Fin (85 # 2)))
    /\ overall scores <> Fin (85 # 2).
Proof.
  eexists. split; [reflexivity|]. split; [reflexivity|]. discriminate.
Qed.

End ReportFacts.

(** ** Session state machine *)

Section ServiceFacts.
Import InterviewService.
Context `{Builtins}.

Lemma started_consistent s : started s -> consistent s.
Proof.
  intros (Hi & Hs & He & Hq). left. repeat split; try done.
  rewrite Hi. destruct (questions s); [done|simpl; lia].
Qed.

Lemma set_slot_length session q_session :
  length (questions (set_slot session q_session)) = length (questions session).
Proof. unfold set_slot. simpl. apply length_insert. Qed.

Lemma advance_sessions svc now session_id session done_message next_message :
  (current_question_index session < length (questions session))%nat ->
  exists s',
    sessions (advance svc now session_id session done_message next_message).1
    = <[session_id := s']> (sessions svc)
    /\ questions s' = questions session
    /\ current_question_index s' = S (current_question_index session)
    /\ ((S (current_question_index session) = length (questions session)
         /\ status s' = completed /\ end_time s' = Some now)
        \/ ((S (current_question_index session) < length (questions session))%nat
            /\ status s' = status session /\ end_time s' = end_time session)).
Proof.
  intros Hlt. unfold advance. cbn [current_question_index questions
    set_current_question_index].
  destruct (Nat.leb_spec (length (questions session))
              (current_question_index session + 1)) as [Hle|Hgt].
  - eexists. split; [reflexivity|]. cbn. repeat split; try lia.
    left. repeat split; lia.
  - destruct (questions session !! (current_question_index session + 1)%nat)
      eqn:Hnext; (eexists; split; [reflexivity|]); cbn;
      (repeat split; try lia; right; repeat split; lia).
Qed.

(** The evaluation [submit_answer] hands to the follow-up engine: the
    normalised or fallback evaluation with three more keys.  Its scores are
    floats in [0,100], so the type selection does not raise on it. *)
Lemma pipeline_evaluation_scores reply (star_analysis : Dict) word_count persona key :
  key ∈ ResponseEvaluator.SCORE_KEYS ->
  exists x,
    FollowUpEngine.score
      (<["persona" := JStr (persona_value persona)]>
         (<["word_count" := JInt word_count]>
            (<["star_analysis" := JObj star_analysis]>
               (ResponseEvaluator.evaluate reply)))) key
    = Ok (PFlt x)
    /\ in_0_100 (PFlt x).
Proof.
  intros Hkey.
  destruct (evaluate_scores_in_range reply key Hkey) as (x & Hx & Hrange).
  exists x. split; [|done].
  unfold FollowUpEngine.score, dict_get.
  unfold ResponseEvaluator.SCORE_KEYS in Hkey.
  cases_in_list Hkey; rewrite !lookup_insert_ne by done; by rewrite Hx.
Qed.

Lemma pipeline_follow_up_type reply (star_analysis : Dict) word_count persona :
  exists follow_up_type,
    FollowUpEngine._determine_follow_up_type
      (<["persona" := JStr (persona_value persona)]>
         (<["word_count" := JInt word_count]>
            (<["star_analysis" := JObj star_analysis]>
               (ResponseEvaluator.evaluate reply)))) persona
    = Ok follow_up_type
    /\ follow_up_type ∈ ["redirect"; "probe"; "hint"; "challenge"].
Proof.
  destruct (pipeline_evaluation_scores reply star_analysis word_count persona
              "relevance_score") as (r & Hr & _);
    [unfold ResponseEvaluator.SCORE_KEYS; in_list|].
  destruct (pipeline_evaluation_scores reply star_analysis word_count persona
              "confidence_score") as (c & Hc & _);
    [unfold ResponseEvaluator.SCORE_KEYS; in_list|].
  destruct (pipeline_evaluation_scores reply star_analysis word_count persona
              "technical_depth_score") as (d & Hd & _);
    [unfold ResponseEvaluator.SCORE_KEYS; in_list|].
  eexists. split.
  - by apply determine_type_first_rule.
  - apply first_matching_rule_type.
Qed.

(** The effect of [submit_answer] on the session store. *)
Lemma submit_answer_sessions settings svc backend now session_id question_id
    answer_text duration is_voice :
  let svc' := (submit_answer settings svc backend now session_id question_id
                 answer_text duration is_voice).1 in
  sessions svc' = sessions svc
  \/ exists s s',
       sessions svc !! session_id = Some s
       /\ sessions svc' = <[session_id := s']> (sessions svc)
       /\ session_trans now s s'.
Proof.
  unfold submit_answer.
  destruct (sessions svc !! session_id) as [session|] eqn:Hs; [|by left].
  destruct (fgt duration _); [by left|].
  destruct (questions session !! current_question_index session)
    as [q_session|] eqn:Hq; [|by left].
  apply lookup_lt_Some in Hq. cbv zeta.
  cbn [session_evaluations set_persona_history set_sessions
       set_session_evaluations sessions].
  right. exists session.
  destruct (session_evaluations svc !! session_id) as [evaluations|].
  - destruct (FollowUpEngine.generate_follow_up _ _ _) as [[follow_up|]|e].
    + eexists. split; [done|]. cbn [fst sessions set_sessions].
      split; [apply insert_insert_eq|].
      apply trans_slot; try done. by rewrite !set_slot_length.
    + match goal with
      | |- context [advance ?svc2 now session_id ?session1 ?m1 ?m2] =>
          destruct (advance_sessions svc2 now session_id session1 m1 m2)
            as (s' & Hs' & Hqs & Hidx & Hcase)
      end.
      { by rewrite set_slot_length. }
      exists s'. split; [done|]. rewrite Hs'.
      cbn [sessions set_session_evaluations set_persona_history set_sessions].
      split; [apply insert_insert_eq|].
      rewrite set_slot_length in Hcase. cbn in Hcase, Hidx.
      assert (Hlen : length (questions s') = length (questions session))
        by (by rewrite Hqs, set_slot_length).
      destruct Hcase as [(? & ? & ?)|(? & ? & ?)].
      * by apply trans_complete.
      * by apply trans_next.
    + eexists. split; [done|]. cbn [fst sessions set_session_evaluations
        set_persona_history set_sessions].
      split; [done|]. apply trans_slot; try done. by rewrite set_slot_length.
  - eexists. split; [done|]. cbn [fst sessions set_persona_history set_sessions].
    split; [done|]. apply trans_slot; try done. by rewrite set_slot_length.
Qed.

(** The effect of [submit_followup_answer] on the session store. *)
Lemma submit_followup_answer_sessions svc now session_id answer_text duration :
  let svc' := (submit_followup_answer svc now session_id answer_text duration).1 in
  sessions svc' = sessions svc
  \/ exists s s',
       sessions svc !! session_id = Some s
       /\ sessions svc' = <[session_id := s']> (sessions svc)
       /\ session_trans now s s'.
Proof.
  unfold submit_followup_answer.
  destruct (sessions svc !! session_id) as [session|] eqn:Hs; [|by left].
  destruct (questions session !! current_question_index session)
    as [q_session|] eqn:Hq; [|by left].
  apply lookup_lt_Some in Hq. cbv zeta. right. exists session.
  match goal with
  | |- context [advance svc now session_id ?session1 ?m1 ?m2] =>
      destruct (advance_sessions svc now session_id session1 m1 m2)
        as (s' & Hs' & Hqs & Hidx & Hcase)
  end.
  { by rewrite set_slot_length. }
  exists s'. split; [done|]. split; [done|].
  rewrite set_slot_length in Hcase. cbn in Hcase, Hidx.
  assert (Hlen : length (questions s') = length (questions session))
    by (by rewrite Hqs, set_slot_length).
  destruct Hcase as [(? & ? & ?)|(? & ? & ?)].
  - by apply trans_complete.
  - by apply trans_next.
Qed.

Lemma step_sessions settings svc c :
  let svc' := (step settings svc c).1 in
  sessions svc' = sessions svc
  \/ exists session_id s s',
       sessions svc !! session_id = Some s
       /\ sessions svc' = <[session_id := s']> (sessions svc)
       /\ session_trans (call_time c) s s'.
Proof.
  destruct c as [backend now sid qid text duration voice|now sid text duration];
    cbn [step call_time].
  - destruct (submit_answer_sessions settings svc backend now sid qid text
                duration voice) as [Heq|(s & s' & ?)]; [by left|right; eauto].
  - destruct (submit_followup_answer_sessions svc now sid text duration)
      as [Heq|(s & s' & ?)]; [by left|right; eauto].
Qed.

Lemma session_trans_consistent now s s' :
  consistent s -> session_trans now s s' -> consistent s'.
Proof.
  intros [(Hst & Hlt & Het)|(Hst & Heq & Het)] Htrans.
  - destruct Htrans as [? Hl Hi Hs He|? Hl Hi Hs He|? Hl Hi Hs He].
    + left. rewrite Hs, Hi, Hl, He. done.
    + left. rewrite Hs, Hi, Hl, He. done.
    + right. rewrite Hs, Hi, Hl, He. repeat split; eauto.
  - destruct Htrans; lia.
Qed.

Lemma step_consistent settings svc c :
  store_consistent svc -> store_consistent (step settings svc c).1.
Proof.
  intros Hinv sid s' Hs'.
  destruct (step_sessions settings svc c) as [Heq|(sid0 & s0 & s1 & Hs0 & Heq & Htr)];
    rewrite Heq in Hs'.
  - eauto.
  - destruct (decide (sid0 = sid)) as [->|Hne].
    + rewrite lookup_insert_eq in Hs'. injection Hs' as <-.
      eapply session_trans_consistent; eauto.
    + rewrite lookup_insert_ne in Hs' by done. eauto.
Qed.

Lemma run_consistent settings calls svc :
  store_consistent svc -> store_consistent (run settings svc calls).
Proof.
  revert svc. induction calls as [|c calls IH]; intros svc Hinv; [done|].
  apply IH, step_consistent, Hinv.
Qed.

(** One more call on a consistent store: a completed session is left as
    it is, and a session that becomes completed receives the clock
    reading of the call as its end time. *)
Lemma step_completion settings svc c session_id s s' :
  store_consistent svc ->
  sessions svc !! session_id = Some s ->
  sessions (step settings svc c).1 !! session_id = Some s' ->
  (status s = completed -> s' = s)
  /\ (status s <> completed -> status s' = completed ->
      end_time s' = Some (call_time c)).
Proof.
  intros Hinv Hs Hs'.
  destruct (step_sessions settings svc c) as [Heq|(sid0 & s0 & s1 & Hs0 & Heq & Htr)];
    rewrite Heq in Hs'.
  - split; [congruence|]. intros Hn Hc. congruence.
  - destruct (decide (sid0 = session_id)) as [->|Hne].
    + rewrite lookup_insert_eq in Hs'. injection Hs' as <-.
      assert (s0 = s) as -> by congruence.
      split.
      * intros Hc. destruct (Hinv _ _ Hs) as [(? & _)|(_ & Hfull & _)];
          [congruence|]. destruct Htr; lia.
      * intros Hn Hc. destruct Htr as [? ? ? Hst ?|? ? ? Hst ?|]; congruence.
    + rewrite lookup_insert_ne in Hs' by done.
      split; [congruence|]. intros Hn Hc. congruence.
Qed.

(** A session of the store stays in the store. *)
Lemma step_keeps_session settings svc c session_id :
  is_Some (sessions svc !! session_id) ->
  is_Some (sessions (step settings svc c).1 !! session_id).
Proof.
  intros Hs.
  destruct (step_sessions settings svc c) as [->|(sid0 & s0 & s1 & _ & -> & _)];
    [done|].
  destruct (decide (sid0 = session_id)) as [->|Hne].
  - rewrite lookup_insert_eq. eauto.
  - by rewrite lookup_insert_ne.
Qed.

(** C2.  In every state reached from started sessions by a sequence of
    [submit_answer] and [submit_followup_answer] calls, a session is
    completed if and only if its cursor has reached the question count, and
    its end time is set if and only if it is completed.  The end time is
    set once: the call that completes the session stores its clock reading,
    and no later call changes a completed session. *)
Theorem session_completion settings (svc0 : Service) (calls : list Call) :
  map_Forall (fun _ s => started s) (sessions svc0) ->
  forall session_id s,
    sessions (run settings svc0 calls) !! session_id = Some s ->
    (status s = completed <->
     current_question_index s = length (questions s))
    /\ (is_Some (end_time s) <-> status s = completed)
    /\ forall c,
         exists s',
           sessions (step settings (run settings svc0 calls) c).1 !! session_id
           = Some s'
           /\ (status s = completed -> s' = s)
           /\ (status s <> completed -> status s' = completed ->
               end_time s' = Some (call_time c)).
Proof.
  intros Hstart sid s Hs.
  assert (Hinv : store_consistent (run settings svc0 calls)).
  { apply run_consistent. intros sid0 s0 Hs0.
    apply started_consistent. exact (Hstart sid0 s0 Hs0). }
  split; [|split].
  - destruct (Hinv _ _ Hs) as [(Hst & Hlt & _)|(Hst & Heq & _)]; split;
      intros; try done; try congruence; lia.
  - destruct (Hinv _ _ Hs) as [(Hst & _ & He)|(Hst & _ & He)]; split;
      intros Hx; try done; try congruence.
    rewrite He in Hx. by destruct Hx.
  - intros c.
    destruct (step_keeps_session settings (run settings svc0 calls) c sid)
      as [s' Hs']; [eauto|].
    exists s'. split; [done|]. by eapply step_completion.
Qed.

(** [start_interview] stores a started session whenever the configured
    question count is positive. *)
Lemma start_interview_started settings svc reply now session_id resume_data
    target_role :
  0 < TOTAL_QUESTIONS settings ->
  let result := start_interview settings svc reply now session_id resume_data
                  target_role in
  started result.2
  /\ sessions result.1 = <[session_id := result.2]> (sessions svc)
  /\ session_evaluations result.1 !! session_id = Some [].
Proof.
  intros Hn. cbn. split; [|split; [done|by rewrite lookup_insert_eq]].
  repeat split.
  intros Hempty. apply (f_equal length) in Hempty.
  cbn [questions] in Hempty. rewrite length_map in Hempty. cbn [length] in Hempty.
  destruct (generate_questions_length settings reply target_role)
    as [Hlen|Hfallback]; [lia|..].
  - rewrite Hlen in Hempty. lia.
  - rewrite Hfallback in Hempty. discriminate.
Qed.

(** C3.  For an existing session, [submit_answer] with a duration above
    the configured limit returns a response with [success = false] and
    leaves the whole service state as it was: the session (cursor, slots,
    status, end time) and its evaluation list are unchanged. *)
Theorem submit_answer_over_limit settings svc backend now session_id
    question_id answer_text duration is_voice session :
  sessions svc !! session_id = Some session ->
  fgt duration (Fin (inject_Z (ANSWER_TIME_SECONDS settings))) = true ->
  let result := submit_answer settings svc backend now session_id question_id
                  answer_text duration is_voice in
  result.1 = svc
  /\ (exists response,
        result.2 = Ok response /\ success response = false
        /\ is_interview_complete response = false)
  /\ sessions result.1 !! session_id = Some session
  /\ session_evaluations result.1 !! session_id
     = session_evaluations svc !! session_id.
Proof.
  intros Hs Hover. unfold submit_answer. rewrite Hs, Hover. cbn [fst snd].
  repeat split; try done. by exists rejection.
Qed.

(** C10.  On a session whose cursor equals the question count, fetching
    the current slot is out of bounds: [submit_answer] within the time
    limit and [submit_followup_answer] raise [IndexError] instead of
    returning a response, and leave the state as it was. *)
Theorem submit_on_finished_session settings svc backend now session_id
    question_id answer_text duration is_voice session :
  sessions svc !! session_id = Some session ->
  current_question_index session = length (questions session) ->
  (fgt duration (Fin (inject_Z (ANSWER_TIME_SECONDS settings))) = false ->
   submit_answer settings svc backend now session_id question_id
     answer_text duration is_voice = (svc, Raise IndexError))
  /\ submit_followup_answer svc now session_id answer_text duration
     = (svc, Raise IndexError).
Proof.
  intros Hs Hidx.
  assert (Hq : questions session !! current_question_index session = None)
    by (apply lookup_ge_None; lia).
  split.
  - intros Hlimit. unfold submit_answer. by rewrite Hs, Hlimit, Hq.
  - unfold submit_followup_answer. by rewrite Hs, Hq.
Qed.

Lemma run_keeps_session settings calls svc session_id :
  is_Some (sessions svc !! session_id) ->
  is_Some (sessions (run settings svc calls) !! session_id).
Proof.
  revert svc. induction calls as [|c calls IH]; intros svc Hs; [done|].
  apply IH, step_keeps_session, Hs.
Qed.

End ServiceFacts.

(** ** The theorems at a concrete interview *)

Section Examples.
Import InterviewService.

Lemma started_service_started :
  map_Forall (fun _ s => started s) (sessions started_service).
Proof.
  apply map_Forall_insert_2; [|apply map_Forall_empty].
  repeat split; discriminate.
Qed.

Lemma started_service_lookup :
  sessions started_service !! "s1" = Some started_session.
Proof. apply lookup_insert_eq. Qed.

Lemma finished_service_session :
  exists s, sessions finished_service !! "s1" = Some s
            /\ current_question_index s = 5%nat
            /\ length (questions s) = 5%nat
            /\ status s = completed /\ end_time s = Some 5.
Proof.
  assert (Hsummary :
    (fun s => (current_question_index s, length (questions s), status s, end_time s))
      <$> sessions finished_service !! "s1"
    = Some (5%nat, 5%nat, completed, Some 5)) by (vm_compute; reflexivity).
  destruct (sessions finished_service !! "s1") as [s|]; [|discriminate].
  exists s. split; [done|]. cbn in Hsummary.
  injection Hsummary as -> -> -> ->. done.
Qed.

(** C2 at the interview of five answered questions. *)
Lemma session_completion_witness :
  exists s, sessions finished_service !! "s1" = Some s
    /\ (status s = completed <->
        current_question_index s = length (questions s))
    /\ (is_Some (end_time s) <-> status s = completed)
    /\ forall c,
         exists s',
           sessions (@step example_builtins default_settings finished_service c).1
             !! "s1" = Some s'
           /\ (status s = completed -> s' = s)
           /\ (status s <> completed -> status s' = completed ->
               end_time s' = Some (call_time c)).
Proof.
  destruct finished_service_session as (s & Hs & _).
  exists s. split; [exact Hs|].
  exact (@session_completion example_builtins default_settings started_service
           five_answers started_service_started "s1" s Hs).
Defined.

(** C3 at a first answer of 181 seconds. *)
Lemma submit_answer_over_limit_witness :
  exists session,
    sessions started_service !! "s1" = Some session
    /\ (@submit_answer example_builtins default_settings started_service
          silent_backend 1 "s1" 1 "I fixed the cache" (Fin 181) false).1
       = started_service
    /\ exists response,
         (@submit_answer example_builtins default_settings started_service
            silent_backend 1 "s1" 1 "I fixed the cache" (Fin 181) false).2
         = Ok response
         /\ success response = false.
Proof.
  assert (Hs : is_Some (sessions started_service !! "s1")).
  { unfold started_service, start_interview. cbn [fst sessions].
    rewrite lookup_insert_eq. eauto. }
  destruct Hs as [session Hs]. exists session. split; [exact Hs|].
  destruct (@submit_answer_over_limit example_builtins default_settings
              started_service silent_backend 1 "s1" 1 "I fixed the cache"
              (Fin 181) false session Hs eq_refl)
    as (Hstate & (response & Hr & Hsucc & _) & _).
  split; [exact Hstate|]. exists response. by split.
Defined.

(** C10 at the completed interview. *)
Lemma submit_on_finished_session_witness :
  @submit_answer example_builtins default_settings finished_service
    silent_backend 6 "s1" 1 "one more" (Fin 30) false
  = (finished_service, Raise IndexError)
  /\ submit_followup_answer finished_service 6 "s1" "one more" (Fin 30)
     = (finished_service, Raise IndexError).
Proof.
  destruct finished_service_session as (s & Hs & Hidx & Hlen & _).
  destruct (@submit_on_finished_session example_builtins default_settings
              finished_service silent_backend 6 "s1" 1 "one more" (Fin 30)
              false s Hs ltac:(by rewrite Hidx, Hlen))
    as [Hanswer Hfollowup].
  split; [apply Hanswer; reflexivity|exact Hfollowup].
Defined.

End Examples.

(** * Further properties *)

(** ** Session state machine: the shape of a submission *)

Section SubmissionFacts.
Import InterviewService.
Context `{Builtins}.

Lemma advance_state svc now session_id session done_message next_message :
  (advance svc now session_id session done_message next_message).1
  = set_sessions svc (<[session_id := advanced session now]> (sessions svc)).
Proof.
  unfold advance, advanced. cbv zeta.
  destruct (_ <=? _)%nat; [reflexivity|].
  by destruct (_ !! _).
Qed.

Lemma advance_response svc now session_id session done_message next_message :
  (current_question_index session < length (questions session))%nat ->
  (S (current_question_index session) = length (questions session)
   /\ status (advanced session now) = completed
   /\ (advance svc now session_id session done_message next_message).2
      = Ok {| success := true; follow_up_question := None;
              next_question := None; is_interview_complete := true;
              message := done_message |})
  \/ (exists next,
        questions session !! S (current_question_index session) = Some next
        /\ status (advanced session now) = status session
        /\ (advance svc now session_id session done_message next_message).2
           = Ok {| success := true; follow_up_question := None;
                   next_question := Some (question next);
                   is_interview_complete := false;
                   message := next_message |}).
Proof.
  intros Hlt. unfold advance, advanced. cbv zeta.
  cbn [current_question_index questions set_current_question_index].
  rewrite Nat.add_1_r.
  destruct (Nat.leb_spec (length (questions session))
              (S (current_question_index session))) as [Hle|Hgt].
  - left. split; [lia|]. by split.
  - right. destruct (lookup_lt_is_Some_2 (questions session)
                       (S (current_question_index session)) Hgt) as [next Hnext].
    exists next. rewrite Hnext. by repeat split.
Qed.

(** [submit_answer] on an answer it accepts: the slot, the evaluation list
    and the persona history are written, and the follow-up decision picks
    one of three ends. *)
Lemma submit_answer_accepted settings svc backend now session_id question_id
    text duration is_voice session q_session evaluations :
  sessions svc !! session_id = Some session ->
  fgt duration (Fin (inject_Z (ANSWER_TIME_SECONDS settings))) = false ->
  questions session !! current_question_index session = Some q_session ->
  session_evaluations svc !! session_id = Some evaluations ->
  let words := Z.of_nat (length (PyStr.split text)) in
  let persona := detected_persona svc backend text duration in
  let evaluation_data := built_evaluation backend persona words in
  let slot :=
    answered_slot q_session
      {| answer_question_id := question_id; answer_text := text;
         duration_seconds := duration; word_count := words |}
      persona evaluation_data in
  let session1 := set_slot session slot in
  let svc1 :=
    {| sessions := <[session_id := session1]> (sessions svc);
       session_evaluations :=
         <[session_id := evaluations ++ [evaluation_data]]> (session_evaluations svc);
       persona_history := persona_history svc ++ [persona] |} in
  submit_answer settings svc backend now session_id question_id
    text duration is_voice
  = match FollowUpEngine.generate_follow_up (followup_reply backend)
            evaluation_data persona with
    | Raise e => (svc1, Raise e)
    | Ok (Some follow_up) =>
        (set_sessions svc1
           (<[session_id := set_slot session1 (slot_with_follow_up slot follow_up)]>
              (sessions svc1)),
         Ok {| success := true; follow_up_question := Some follow_up;
               next_question := None; is_interview_complete := false;
               message := "Follow-up question generated" |})
    | Ok None =>
        advance svc1 now session_id session1
          "Interview completed!" "Answer submitted successfully"
    end.
Proof.
  intros Hs Hlimit Hq Hev. cbv zeta.
  unfold submit_answer. rewrite Hs, Hlimit, Hq. cbv zeta.
  cbn [session_evaluations set_persona_history set_sessions sessions].
  rewrite Hev. reflexivity.
Qed.

Lemma set_slot_set_slot session slot slot' :
  set_slot (set_slot session slot) slot' = set_slot session slot'.
Proof.
  unfold set_slot, set_questions. cbn. by rewrite list_insert_insert_eq.
Qed.

(** What one call does to the service: nothing, or it rewrites the current
    slot of the addressed session (keeping the question of the slot),
    possibly advances that session, extends the persona history by at most
    one label and the evaluation list of the session by at most one
    evaluation. *)
Lemma step_effect settings svc c :
  let svc' := (step settings svc c).1 in
  svc' = svc
  \/ exists session q_session slot s',
       sessions svc !! call_session c = Some session
       /\ questions session !! current_question_index session = Some q_session
       /\ question slot = question q_session
       /\ (s' = set_slot session slot
           \/ s' = advanced (set_slot session slot) (call_time c))
       /\ sessions svc' = <[call_session c := s']> (sessions svc)
       /\ (exists extra, persona_history svc' = persona_history svc ++ extra
                         /\ (length extra <= 1)%nat)
       /\ (session_evaluations svc' = session_evaluations svc
           \/ exists evaluations evaluation_data,
                session_evaluations svc !! call_session c = Some evaluations
                /\ session_evaluations svc'
                   = <[call_session c := evaluations ++ [evaluation_data]]>
                       (session_evaluations svc)).
Proof.
  destruct c as [backend now sid qid text duration voice|now sid text duration];
    cbn [step call_session call_time].
  - destruct (sessions svc !! sid) as [session|] eqn:Hs;
      [|left; unfold submit_answer; by rewrite Hs].
    destruct (fgt duration (Fin (inject_Z (ANSWER_TIME_SECONDS settings))))
      eqn:Hlimit; [left; unfold submit_answer; by rewrite Hs, Hlimit|].
    destruct (questions session !! current_question_index session)
      as [q_session|] eqn:Hq;
      [|left; unfold submit_answer; by rewrite Hs, Hlimit, Hq].
    right. exists session, q_session.
    destruct (session_evaluations svc !! sid) as [evaluations|] eqn:Hev.
    + rewrite (submit_answer_accepted settings svc backend now sid qid text
                 duration voice session q_session evaluations Hs Hlimit Hq Hev).
      cbv zeta.
      destruct (FollowUpEngine.generate_follow_up _ _ _) as [[follow_up|]|e].
      * match goal with
        | |- context [slot_with_follow_up ?slot follow_up] =>
            exists (slot_with_follow_up slot follow_up),
                   (set_slot session (slot_with_follow_up slot follow_up))
        end.
        split; [done|]. split; [done|]. split; [reflexivity|].
        split; [by left|]. rewrite set_slot_set_slot.
        cbn [fst sessions set_sessions persona_history session_evaluations].
        split; [apply insert_insert_eq|].
        split; [exists [detected_persona svc backend text duration]; by split|].
        right. eauto.
      * rewrite advance_state.
        match goal with
        | |- context [answered_slot q_session ?a ?p ?e] =>
            exists (answered_slot q_session a p e),
                   (advanced (set_slot session (answered_slot q_session a p e)) now)
        end.
        split; [done|]. split; [done|].
        split; [|split; [by right|]]; [reflexivity|].
        cbn [fst sessions set_sessions persona_history session_evaluations].
        split; [apply insert_insert_eq|].
        split; [exists [detected_persona svc backend text duration]; by split|].
        right. eauto.
      * match goal with
        | |- context [answered_slot q_session ?a ?p ?e] =>
            exists (answered_slot q_session a p e),
                   (set_slot session (answered_slot q_session a p e))
        end.
        split; [done|]. split; [done|].
        split; [|split; [by left|]]; [reflexivity|].
        cbn [fst sessions set_sessions persona_history session_evaluations].
        split; [done|].
        split; [exists [detected_persona svc backend text duration]; by split|].
        right. eauto.
    + unfold submit_answer. rewrite Hs, Hlimit, Hq. cbv zeta.
      cbn [session_evaluations set_persona_history set_sessions sessions].
      rewrite Hev.
      match goal with
      | |- context [set_slot session ?slot] =>
          exists slot, (set_slot session slot)
      end.
      split; [done|]. split; [done|].
      split; [|split; [by left|]]; [reflexivity|].
      cbn [fst sessions set_sessions set_persona_history persona_history
           session_evaluations].
      split; [done|].
      split; [|by left].
      eexists [_]. split; [reflexivity|done].
  - unfold submit_followup_answer.
    destruct (sessions svc !! sid) as [session|] eqn:Hs; [|by left].
    destruct (questions session !! current_question_index session)
      as [q_session|] eqn:Hq; [|by left].
    right. exists session, q_session. cbv zeta. rewrite advance_state.
    exists (slot_with_follow_up_answer q_session text),
           (advanced (set_slot session (slot_with_follow_up_answer q_session text)) now).
    split; [done|]. split; [done|]. split; [reflexivity|].
    split; [by right|].
    cbn [fst sessions set_sessions persona_history session_evaluations].
    split; [done|]. split; [|by left].
    exists []. split; [by rewrite app_nil_r|simpl; lia].
Qed.

End SubmissionFacts.

(** ** Session state machine: what runs preserve *)

Section RunFacts.
Import InterviewService.
Context `{Builtins}.
Variable settings : Settings.

Lemma same_interview_refl s : same_interview s s.
Proof. by repeat split. Qed.

Lemma same_interview_trans s1 s2 s3 :
  same_interview s1 s2 -> same_interview s2 s3 -> same_interview s1 s3.
Proof.
  intros (? & ? & ? & ? & ? & ?) (? & ? & ? & ? & ? & ?).
  repeat split; congruence.
Qed.

Lemma set_slot_same_interview session q_session slot :
  questions session !! current_question_index session = Some q_session ->
  question slot = question q_session ->
  same_interview session (set_slot session slot).
Proof.
  intros Hq Hslot. unfold same_interview, set_slot. cbn.
  repeat split. rewrite list_fmap_insert, Hslot.
  apply list_insert_id. by rewrite list_lookup_fmap, Hq.
Qed.

Lemma advanced_same_interview s now :
  same_interview s (advanced s now)
  /\ current_question_index (advanced s now) = S (current_question_index s).
Proof.
  unfold advanced. cbv zeta. destruct (_ <=? _)%nat; cbn;
    rewrite Nat.add_1_r; by repeat split.
Qed.

(** One call and one session of the store. *)
Lemma step_session svc c session_id s :
  sessions svc !! session_id = Some s ->
  exists s',
    sessions (step settings svc c).1 !! session_id = Some s'
    /\ same_interview s s'
    /\ (current_question_index s <= current_question_index s'
        <= S (current_question_index s))%nat
    /\ (session_id <> call_session c -> s' = s).
Proof.
  intros Hs.
  destruct (step_effect settings svc c)
    as [->|(session & q & slot & s' & Hsession & Hq & Hslot & Hs' & -> & _)].
  { exists s. split; [done|]. split; [apply same_interview_refl|].
    split; [lia|done]. }
  destruct (decide (session_id = call_session c)) as [->|Hne].
  - rewrite lookup_insert_eq. exists s'. split; [done|].
    assert (session = s) as -> by congruence.
    pose proof (set_slot_same_interview s q slot Hq Hslot) as Hkept.
    destruct Hs' as [->| ->].
    + split; [done|]. split; [cbn; lia|done].
    + destruct (advanced_same_interview (set_slot s slot) (call_time c))
        as [Hadv Hidx].
      split; [by eapply same_interview_trans|].
      split; [rewrite Hidx; cbn; lia|done].
  - rewrite lookup_insert_ne by done. exists s. split; [done|].
    split; [apply same_interview_refl|]. split; [lia|done].
Qed.

Lemma run_session calls svc session_id s :
  sessions svc !! session_id = Some s ->
  exists s',
    sessions (run settings svc calls) !! session_id = Some s'
    /\ same_interview s s'
    /\ (current_question_index s <= current_question_index s'
        <= current_question_index s + length calls)%nat.
Proof.
  revert svc s. induction calls as [|c calls IH]; intros svc s Hs.
  - exists s. split; [done|]. split; [apply same_interview_refl|simpl; lia].
  - destruct (step_session svc c session_id s Hs) as (s1 & Hs1 & Hkept & Hidx & _).
    destruct (IH _ _ Hs1) as (s' & Hs' & Hkept' & Hidx').
    exists s'. split; [done|]. split; [by eapply same_interview_trans|].
    simpl. lia.
Qed.

End RunFacts.

(** ** Session state machine: invariants of every run *)

Section RunTheorems.
Import InterviewService.

(** X1.  No sequence of submissions creates or removes a session: the set
    of session ids of the store is the same after every run.  A submission
    that addresses an unknown session raises [ValueError] and leaves the
    service as it was. *)
Theorem run_keeps_session_ids `{Builtins} settings svc calls :
  dom (sessions (run settings svc calls)) = dom (sessions svc)
  /\ forall c, sessions svc !! call_session c = None ->
               step settings svc c = (svc, Raise ValueError).
Proof.
  split.
  - revert svc. induction calls as [|c calls IH]; intros svc; [done|].
    cbn [run foldl]. change (foldl _ ?a calls) with (run settings a calls).
    rewrite IH.
    destruct (step_effect settings svc c)
      as [->|(session & _ & _ & s' & Hsession & _ & _ & _ & -> & _)]; [done|].
    rewrite dom_insert_L.
    apply elem_of_dom_2 in Hsession.
    apply subseteq_union_1_L. by apply singleton_subseteq_l.
  - intros [backend now sid qid text duration voice|now sid text duration] Hs;
      cbn [step call_session] in *.
    + unfold submit_answer. by rewrite Hs.
    + unfold submit_followup_answer. by rewrite Hs.
Qed.

(** X1 at the store of one session and a call for another id. *)
Lemma run_keeps_session_ids_witness :
  dom (sessions (@run example_builtins default_settings started_service five_answers))
  = dom (sessions started_service)
  /\ @step example_builtins default_settings started_service
       (SubmitFollowup 1 "nobody" "text" (Fin 1))
     = (started_service, Raise ValueError).
Proof.
  destruct (@run_keeps_session_ids example_builtins default_settings
              started_service five_answers) as [Hdom Hunknown].
  split; [exact Hdom|]. apply Hunknown. reflexivity.
Defined.

(** X2.  Sessions are isolated: a run none of whose calls addresses a
    session leaves that session and its evaluation list unchanged. *)
Theorem run_isolation `{Builtins} settings svc calls sid :
  Forall (fun c => call_session c <> sid) calls ->
  sessions (run settings svc calls) !! sid = sessions svc !! sid
  /\ session_evaluations (run settings svc calls) !! sid
     = session_evaluations svc !! sid.
Proof.
  intros Hcalls. revert svc.
  induction Hcalls as [|c calls Hc _ IH]; intros svc; [done|].
  cbn [run foldl]. change (foldl _ ?a calls) with (run settings a calls).
  destruct (IH (step settings svc c).1) as [-> ->].
  destruct (step_effect settings svc c)
    as [->|(_ & _ & _ & s' & _ & _ & _ & _ & -> & _ & Hev)]; [done|].
  rewrite lookup_insert_ne by done. split; [done|].
  destruct Hev as [->|(evs & ev & _ & ->)]; [done|].
  by rewrite lookup_insert_ne.
Qed.

(** X2 at the store of two sessions: five answers for the first session
    leave the second as it was. *)
Lemma run_isolation_witness :
  sessions (@run example_builtins default_settings two_sessions_service five_answers)
    !! "s2"
  = sessions two_sessions_service !! "s2"
  /\ session_evaluations
       (@run example_builtins default_settings two_sessions_service five_answers)
       !! "s2"
     = session_evaluations two_sessions_service !! "s2".
Proof.
  apply (@run_isolation example_builtins default_settings two_sessions_service
           five_answers "s2").
  unfold five_answers. repeat constructor; discriminate.
Defined.

(** X3.  The questions of a session are fixed when it is started: after
    every run each slot holds the question it held before, in the same
    order, and the session keeps its id, user name, target role, resume
    summary and start time. *)
Theorem run_same_interview `{Builtins} settings svc calls sid s :
  sessions svc !! sid = Some s ->
  exists s',
    sessions (run settings svc calls) !! sid = Some s'
    /\ question <$> questions s' = question <$> questions s
    /\ length (questions s') = length (questions s)
    /\ session_id s' = session_id s /\ user_name s' = user_name s
    /\ target_role s' = target_role s /\ resume_summary s' = resume_summary s
    /\ start_time s' = start_time s.
Proof.
  intros Hs.
  destruct (run_session settings calls svc sid s Hs)
    as (s' & Hs' & (Hq & Hrest) & _).
  exists s'. split; [done|]. split; [done|]. split; [|done].
  apply (f_equal length) in Hq. by rewrite !length_fmap in Hq.
Qed.

(** X4.  The cursor of a session never moves back, and a run of [n] calls
    advances it by at most [n]. *)
Theorem run_cursor_monotone `{Builtins} settings svc calls sid s :
  sessions svc !! sid = Some s ->
  exists s',
    sessions (run settings svc calls) !! sid = Some s'
    /\ (current_question_index s <= current_question_index s'
        <= current_question_index s + length calls)%nat.
Proof.
  intros Hs.
  destruct (run_session settings calls svc sid s Hs)
    as (s' & Hs' & _ & Hidx).
  eauto.
Qed.

(** X3 at the interview of five answered questions. *)
Lemma run_same_interview_witness :
  exists s',
    sessions finished_service !! "s1" = Some s'
    /\ question <$> questions s' = question <$> questions started_session
    /\ length (questions s') = length (questions started_session)
    /\ session_id s' = session_id started_session
    /\ user_name s' = user_name started_session
    /\ target_role s' = target_role started_session
    /\ resume_summary s' = resume_summary started_session
    /\ start_time s' = start_time started_session.
Proof.
  exact (@run_same_interview example_builtins default_settings started_service
           five_answers "s1" started_session started_service_lookup).
Defined.

(** X4 at the interview of five answered questions. *)
Lemma run_cursor_monotone_witness :
  exists s',
    sessions finished_service !! "s1" = Some s'
    /\ (current_question_index started_session <= current_question_index s'
        <= current_question_index started_session + length five_answers)%nat.
Proof.
  exact (@run_cursor_monotone example_builtins default_settings started_service
           five_answers "s1" started_session started_service_lookup).
Defined.

Lemma submit_followup_answer_frame svc now sid text duration :
  session_evaluations (submit_followup_answer svc now sid text duration).1
  = session_evaluations svc
  /\ persona_history (submit_followup_answer svc now sid text duration).1
     = persona_history svc.
Proof.
  unfold submit_followup_answer.
  destruct (sessions svc !! sid) as [session|]; [|done].
  destruct (questions session !! current_question_index session); [|done].
  cbv zeta. by rewrite advance_state.
Qed.

(** One call and the evaluation list of one session: an accepted answer
    for the session appends one evaluation, nothing else touches it. *)
Lemma step_evaluations `{Builtins} settings svc c sid evaluations :
  session_evaluations svc !! sid = Some evaluations ->
  exists added,
    session_evaluations (step settings svc c).1 !! sid = Some (evaluations ++ added)
    /\ (length added <= if is_answer_for sid c then 1 else 0)%nat.
Proof.
  intros Hev.
  assert (Hsame : session_evaluations (step settings svc c).1
                  = session_evaluations svc ->
                  exists added,
                    session_evaluations (step settings svc c).1 !! sid
                    = Some (evaluations ++ added)
                    /\ (length added <= if is_answer_for sid c then 1 else 0)%nat).
  { intros ->. exists []. rewrite app_nil_r. split; [done|simpl; lia]. }
  destruct c as [backend now sid' qid text duration voice|now sid' text duration].
  - destruct (step_effect settings svc
                (SubmitAnswer backend now sid' qid text duration voice))
      as [Heq|(_ & _ & _ & _ & _ & _ & _ & _ & _ & _ & [Heq|(evs & ev & Hevs & Heq)])];
      [apply Hsame; by rewrite Heq|by apply Hsame|].
    rewrite Heq. cbn [call_session is_answer_for] in *.
    destruct (String.eqb_spec sid' sid) as [->|Hne].
    + rewrite lookup_insert_eq. exists [ev]. split; [congruence|done].
    + rewrite lookup_insert_ne by done. exists []. rewrite app_nil_r.
      split; [done|simpl; lia].
  - apply Hsame. apply submit_followup_answer_frame.
Qed.

Lemma step_persona_history `{Builtins} settings svc c :
  exists extra,
    persona_history (step settings svc c).1 = persona_history svc ++ extra
    /\ (length extra <= if is_answer c then 1 else 0)%nat.
Proof.
  destruct c as [backend now sid' qid text duration voice|now sid' text duration].
  - destruct (step_effect settings svc
                (SubmitAnswer backend now sid' qid text duration voice))
      as [Heq|(_ & _ & _ & _ & _ & _ & _ & _ & _ & Hext & _)]; [|done].
    rewrite Heq. exists []. rewrite app_nil_r. split; [done|simpl; lia].
  - exists []. rewrite app_nil_r. split; [|done].
    apply submit_followup_answer_frame.
Qed.

(** X5.  The evaluation list of a session only grows: after every run the
    list it held before is a prefix of the list it holds, and the run has
    added at most one evaluation per [submit_answer] call that addresses
    the session; [submit_followup_answer] adds none.  The persona history,
    one list for all sessions, grows in the same way by at most one label
    per [submit_answer] call of the run. *)
Theorem run_evaluations_grow `{Builtins} settings svc calls sid evaluations :
  session_evaluations svc !! sid = Some evaluations ->
  (exists added,
     get_session_evaluations (run settings svc calls) sid = evaluations ++ added
     /\ (length added <= length (answers_for sid calls))%nat)
  /\ (exists extra,
        persona_history (run settings svc calls) = persona_history svc ++ extra
        /\ (length extra <= length (List.filter is_answer calls))%nat).
Proof.
  intros Hev. split.
  - unfold get_session_evaluations.
    revert svc evaluations Hev.
    induction calls as [|c calls IH]; intros svc evaluations Hev.
    { exists []. cbn. rewrite Hev, app_nil_r. done. }
    cbn [run foldl]. change (foldl _ ?a calls) with (run settings a calls).
    destruct (step_evaluations settings svc c sid evaluations Hev)
      as (added1 & Hev1 & Hlen1).
    destruct (IH _ _ Hev1) as (added & -> & Hlen).
    exists (added1 ++ added). rewrite app_assoc. split; [done|].
    rewrite length_app. unfold answers_for in *. cbn [List.filter].
    destruct (is_answer_for sid c); cbn [length]; lia.
  - clear Hev. revert svc.
    induction calls as [|c calls IH]; intros svc.
    { exists []. cbn. by rewrite app_nil_r. }
    cbn [run foldl]. change (foldl _ ?a calls) with (run settings a calls).
    destruct (step_persona_history settings svc c) as (extra1 & Hh1 & Hlen1).
    destruct (IH (step settings svc c).1) as (extra & -> & Hlen).
    exists (extra1 ++ extra). rewrite Hh1, app_assoc. split; [done|].
    rewrite length_app. cbn [List.filter].
    destruct (is_answer c); cbn [length]; lia.
Qed.

(** X5 at the interview of five answered questions. *)
Lemma run_evaluations_grow_witness :
  (exists added,
     get_session_evaluations finished_service "s1" = [] ++ added
     /\ (length added <= length (answers_for "s1" five_answers))%nat)
  /\ (exists extra,
        persona_history finished_service = persona_history started_service ++ extra
        /\ (length extra <= length (List.filter is_answer five_answers))%nat).
Proof.
  apply (@run_evaluations_grow example_builtins default_settings started_service
           five_answers "s1" []).
  apply lookup_insert_eq.
Defined.

End RunTheorems.

(** ** Session state machine: responses and what they report *)

Section ResponseFacts.
Import InterviewService.

Lemma advanced_questions s now : questions (advanced s now) = questions s.
Proof. unfold advanced. cbv zeta. by destruct (_ <=? _)%nat. Qed.

Lemma advanced_completed s now :
  S (current_question_index s) = length (questions s) ->
  status (advanced s now) = completed /\ end_time (advanced s now) = Some now.
Proof.
  intros Heq. unfold advanced. cbv zeta.
  cbn [questions current_question_index set_current_question_index].
  by rewrite Nat.add_1_r, Heq, Nat.leb_refl.
Qed.

(** [advance] on a session whose cursor is on a slot. *)
Lemma advance_result svc now sid session done_message next_message :
  (current_question_index session < length (questions session))%nat ->
  let svc' := set_sessions svc (<[sid := advanced session now]> (sessions svc)) in
  (S (current_question_index session) = length (questions session)
   /\ advance svc now sid session done_message next_message
      = (svc', Ok {| success := true; follow_up_question := None;
                     next_question := None; is_interview_complete := true;
                     message := done_message |}))
  \/ (exists next,
        questions session !! S (current_question_index session) = Some next
        /\ advance svc now sid session done_message next_message
           = (svc', Ok {| success := true; follow_up_question := None;
                          next_question := Some (question next);
                          is_interview_complete := false;
                          message := next_message |})).
Proof.
  intros Hlt svc'.
  rewrite (surjective_pairing (advance svc now sid session done_message next_message)).
  rewrite advance_state.
  destruct (advance_response svc now sid session done_message next_message Hlt)
    as [(Heq & _ & ->)|(next & Hnext & _ & ->)]; [left|right]; eauto.
Qed.

Lemma get_current_question_advanced svc now sid session :
  get_current_question
    (set_sessions svc (<[sid := advanced session now]> (sessions svc))) sid
  = match questions session !! S (current_question_index session) with
    | Some next => Ok (Some (question next))
    | None => Ok None
    end.
Proof.
  unfold get_current_question. cbn [sessions set_sessions].
  rewrite lookup_insert_eq, advanced_questions.
  rewrite (proj2 (advanced_same_interview session now)).
  destruct (Nat.leb_spec (length (questions session))
              (S (current_question_index session))) as [Hle|Hgt].
  - by rewrite (lookup_ge_None_2 _ _ Hle).
  - destruct (lookup_lt_is_Some_2 _ _ Hgt) as [next Hnext]. by rewrite Hnext.
Qed.

Lemma get_current_question_set_slot svc svc' sid session q_session slot :
  sessions svc !! sid = Some session ->
  questions session !! current_question_index session = Some q_session ->
  question slot = question q_session ->
  sessions svc' = <[sid := set_slot session slot]> (sessions svc) ->
  get_current_question svc' sid = get_current_question svc sid.
Proof.
  intros Hs Hq Hslot Hsvc'. unfold get_current_question.
  rewrite Hsvc', lookup_insert_eq, Hs, set_slot_length.
  cbn [set_slot set_questions questions current_question_index].
  pose proof (lookup_lt_Some _ _ _ Hq) as Hlt.
  rewrite list_lookup_insert_eq by done. rewrite Hq, Hslot.
  done.
Qed.

Section Inversion.
Context `{Builtins}.

(** The ways [submit_answer] returns a response. *)
Lemma submit_answer_inv settings svc backend now sid qid text duration voice
    svc' response :
  submit_answer settings svc backend now sid qid text duration voice
  = (svc', Ok response) ->
  (svc' = svc /\ response = rejection)
  \/ exists session q_session evaluations,
       sessions svc !! sid = Some session
       /\ questions session !! current_question_index session = Some q_session
       /\ session_evaluations svc !! sid = Some evaluations
       /\ let words := Z.of_nat (length (PyStr.split text)) in
          let persona := detected_persona svc backend text duration in
          let evaluation_data := built_evaluation backend persona words in
          let slot :=
            answered_slot q_session
              {| answer_question_id := qid; answer_text := text;
                 duration_seconds := duration; word_count := words |}
              persona evaluation_data in
          let session1 := set_slot session slot in
          let svc1 :=
            {| sessions := <[sid := session1]> (sessions svc);
               session_evaluations :=
                 <[sid := evaluations ++ [evaluation_data]]> (session_evaluations svc);
               persona_history := persona_history svc ++ [persona] |} in
          (exists follow_up,
             svc' = set_sessions svc1
                      (<[sid := set_slot session (slot_with_follow_up slot follow_up)]>
                         (sessions svc))
             /\ response = {| success := true; follow_up_question := Some follow_up;
                              next_question := None; is_interview_complete := false;
                              message := "Follow-up question generated" |})
          \/ advance svc1 now sid session1
               "Interview completed!" "Answer submitted successfully"
             = (svc', Ok response).
Proof.
  intros Hcall.
  destruct (sessions svc !! sid) as [session|] eqn:Hs;
    [|unfold submit_answer in Hcall; by rewrite Hs in Hcall].
  destruct (fgt duration (Fin (inject_Z (ANSWER_TIME_SECONDS settings))))
    eqn:Hlimit.
  { unfold submit_answer in Hcall. rewrite Hs, Hlimit in Hcall.
    left. by injection Hcall as <- <-. }
  destruct (questions session !! current_question_index session)
    as [q_session|] eqn:Hq;
    [|unfold submit_answer in Hcall; by rewrite Hs, Hlimit, Hq in Hcall].
  destruct (session_evaluations svc !! sid) as [evaluations|] eqn:Hev.
  2:{ unfold submit_answer in Hcall. rewrite Hs, Hlimit, Hq in Hcall.
      cbv zeta in Hcall.
      cbn [session_evaluations set_persona_history set_sessions sessions] in Hcall.
      by rewrite Hev in Hcall. }
  rewrite (submit_answer_accepted settings svc backend now sid qid text
             duration voice session q_session evaluations Hs Hlimit Hq Hev) in Hcall.
  cbv zeta in Hcall.
  right. exists session, q_session, evaluations.
  split; [done|]. split; [done|]. split; [done|]. cbv zeta.
  destruct (FollowUpEngine.generate_follow_up _ _ _) as [[follow_up|]|e];
    [left|right|discriminate].
  - exists follow_up. rewrite set_slot_set_slot in Hcall.
    cbn [sessions set_sessions] in Hcall. rewrite insert_insert_eq in Hcall.
    by injection Hcall as <- <-.
  - exact Hcall.
Qed.

End Inversion.

(** X6.  A response tells what happened to the session.  Every response a
    submission returns has one of four shapes: a rejection (no success, the
    service unchanged); a follow-up (the current question stays); a next
    question, which is the question [get_current_question] returns
    afterwards; or completion, after which [get_current_question] returns
    nothing and the session is completed with the clock reading of the call
    as its end time. *)
Theorem response_shape `{Builtins} settings svc c svc' response :
  step settings svc c = (svc', Ok response) ->
  let sid := call_session c in
  (success response = false /\ follow_up_question response = None
   /\ next_question response = None /\ is_interview_complete response = false
   /\ svc' = svc)
  \/ (success response = true /\ is_Some (follow_up_question response)
      /\ next_question response = None /\ is_interview_complete response = false
      /\ get_current_question svc' sid = get_current_question svc sid)
  \/ (success response = true /\ follow_up_question response = None
      /\ is_interview_complete response = false
      /\ exists q, next_question response = Some q
                   /\ get_current_question svc' sid = Ok (Some q))
  \/ (success response = true /\ follow_up_question response = None
      /\ next_question response = None /\ is_interview_complete response = true
      /\ get_current_question svc' sid = Ok None
      /\ exists s', sessions svc' !! sid = Some s'
                    /\ status s' = completed
                    /\ end_time s' = Some (call_time c)).
Proof.
  intros Hstep sid.
  assert (Hadvance : forall svc1 session done_message next_message,
    (current_question_index session < length (questions session))%nat ->
    advance svc1 (call_time c) sid session done_message next_message
    = (svc', Ok response) ->
    (success response = true /\ follow_up_question response = None
      /\ is_interview_complete response = false
      /\ exists q, next_question response = Some q
                   /\ get_current_question svc' sid = Ok (Some q))
    \/ (success response = true /\ follow_up_question response = None
      /\ next_question response = None /\ is_interview_complete response = true
      /\ get_current_question svc' sid = Ok None
      /\ exists s', sessions svc' !! sid = Some s'
                    /\ status s' = completed
                    /\ end_time s' = Some (call_time c))).
  { intros svc1 session dm nm Hlt Hadv.
    destruct (advance_result svc1 (call_time c) sid session dm nm Hlt)
      as [(Heq & Hres)|(next & Hnext & Hres)];
      rewrite Hres in Hadv; injection Hadv as <- <-.
    - right. repeat split.
      + rewrite get_current_question_advanced.
        by rewrite (lookup_ge_None_2 (questions session)) by lia.
      + exists (advanced session (call_time c)).
        cbn [sessions set_sessions]. rewrite lookup_insert_eq.
        split; [done|]. by apply advanced_completed.
    - left. repeat split. exists (question next). split; [done|].
      by rewrite get_current_question_advanced, Hnext. }
  destruct c as [backend now sid' qid text duration voice|now sid' text duration];
    cbn [step call_session call_time] in *; subst sid.
  - destruct (submit_answer_inv _ _ _ _ _ _ _ _ _ _ _ Hstep)
      as [[-> ->]|(session & q_session & evaluations & Hs & Hq & Hev & Hcase)].
    { by left. }
    cbv zeta in Hcase. right.
    destruct Hcase as [(follow_up & -> & ->)|Hadv].
    + left. repeat split; [by eexists|].
      eapply get_current_question_set_slot; [exact Hs|exact Hq| |].
      2:{ cbn [sessions set_sessions]. reflexivity. }
      reflexivity.
    + right. eapply Hadvance; [|exact Hadv].
      rewrite set_slot_length. cbn. by eapply lookup_lt_Some.
  - unfold submit_followup_answer in Hstep.
    destruct (sessions svc !! sid') as [session|] eqn:Hs; [|discriminate].
    destruct (questions session !! current_question_index session)
      as [q_session|] eqn:Hq; [|discriminate].
    cbv zeta in Hstep. right. right. eapply Hadvance; [|exact Hstep].
    rewrite set_slot_length. cbn. by eapply lookup_lt_Some.
Qed.

Lemma first_answer_ok :
  exists response,
    @step example_builtins default_settings started_service (answer_at 1 (Fin 30))
    = ((@step example_builtins default_settings started_service
          (answer_at 1 (Fin 30))).1, Ok response)
    /\ success response = true.
Proof.
  assert (Hok : match (@step example_builtins default_settings started_service
                         (answer_at 1 (Fin 30))).2 with
                | Ok response => success response
                | Raise _ => false
                end = true) by (vm_compute; reflexivity).
  destruct (step _ _ _) as [svc' [response|e]]; [by exists response|discriminate].
Qed.

(** X6 at the first answer of the interview. *)
Lemma response_shape_witness :
  let c := answer_at 1 (Fin 30) in
  let svc := started_service in
  let svc' := (@step example_builtins default_settings svc c).1 in
  let sid := call_session c in
  exists response,
    @step example_builtins default_settings svc c = (svc', Ok response)
    /\ ((success response = false /\ follow_up_question response = None
         /\ next_question response = None /\ is_interview_complete response = false
         /\ svc' = svc)
        \/ (success response = true /\ is_Some (follow_up_question response)
            /\ next_question response = None
            /\ is_interview_complete response = false
            /\ get_current_question svc' sid = get_current_question svc sid)
        \/ (success response = true /\ follow_up_question response = None
            /\ is_interview_complete response = false
            /\ exists q, next_question response = Some q
                         /\ get_current_question svc' sid = Ok (Some q))
        \/ (success response = true /\ follow_up_question response = None
            /\ next_question response = None
            /\ is_interview_complete response = true
            /\ get_current_question svc' sid = Ok None
            /\ exists s', sessions svc' !! sid = Some s'
                          /\ status s' = completed
                          /\ end_time s' = Some (call_time c))).
Proof.
  intros c svc svc' sid.
  destruct first_answer_ok as (response & Hstep & _).
  exists response. split; [exact Hstep|].
  exact (@response_shape example_builtins default_settings svc c svc' response Hstep).
Defined.

Lemma built_evaluation_keys `{Builtins} backend persona words :
  built_evaluation backend persona words !! "persona"
  = Some (JStr (persona_value persona))
  /\ built_evaluation backend persona words !! "word_count" = Some (JInt words)
  /\ built_evaluation backend persona words !! "star_analysis"
     = Some (JObj (STARChecker.check_star_pattern (star_reply backend))).
Proof.
  unfold built_evaluation. split; [apply lookup_insert_eq|].
  split.
  - rewrite lookup_insert_ne by done. apply lookup_insert_eq.
  - rewrite !lookup_insert_ne by done. apply lookup_insert_eq.
Qed.

(** X7.  An accepted answer is recorded in three places that agree.  When
    [submit_answer] returns a successful response, the slot at the cursor
    holds the answer as submitted (the question id as passed, unchecked,
    and the number of whitespace-separated words as its word count), the
    evaluation stored on the slot is the last entry of the evaluation list
    of the session, the persona stored on the slot is the last label of the
    persona history, and the evaluation carries that persona, the word
    count and the narrative analysis under its keys. *)
Theorem accepted_answer_recorded `{Builtins} settings svc backend now sid qid
    text duration voice svc' response session :
  sessions svc !! sid = Some session ->
  submit_answer settings svc backend now sid qid text duration voice
  = (svc', Ok response) ->
  success response = true ->
  exists s' slot evaluation_data,
    sessions svc' !! sid = Some s'
    /\ questions s' !! current_question_index session = Some slot
    /\ initial_answer slot
       = Some {| answer_question_id := qid; answer_text := text;
                 duration_seconds := duration;
                 word_count := Z.of_nat (length (PyStr.split text)) |}
    /\ evaluation slot = Some evaluation_data
    /\ last (get_session_evaluations svc' sid) = Some evaluation_data
    /\ last (persona_history svc') = Some (persona_detected slot)
    /\ evaluation_data !! "persona"
       = Some (JStr (persona_value (persona_detected slot)))
    /\ evaluation_data !! "word_count"
       = Some (JInt (Z.of_nat (length (PyStr.split text))))
    /\ evaluation_data !! "star_analysis"
       = Some (JObj (STARChecker.check_star_pattern (star_reply backend))).
Proof.
  intros Hs Hcall Hsuccess.
  destruct (submit_answer_inv _ _ _ _ _ _ _ _ _ _ _ Hcall)
    as [[_ ->]|(session0 & q_session & evaluations & Hs0 & Hq & Hev & Hcase)];
    [discriminate|].
  assert (session0 = session) as -> by congruence.
  pose proof (lookup_lt_Some _ _ _ Hq) as Hlt.
  cbv zeta in Hcase.
  set (words := Z.of_nat (length (PyStr.split text))) in *.
  set (persona := detected_persona svc backend text duration) in *.
  destruct (built_evaluation_keys backend persona words) as (Hk1 & Hk2 & Hk3).
  set (evaluation_data := built_evaluation backend persona words) in *.
  set (slot := answered_slot _ _ _ _) in *.
  destruct Hcase as [(follow_up & -> & _)|Hadv].
  - exists (set_slot session (slot_with_follow_up slot follow_up)),
           (slot_with_follow_up slot follow_up), evaluation_data.
    cbn [sessions set_sessions]. split; [apply lookup_insert_eq|].
    split; [by apply list_lookup_insert_eq|].
    split; [reflexivity|]. split; [reflexivity|].
    unfold get_session_evaluations.
    cbn [session_evaluations persona_history set_sessions]. rewrite lookup_insert_eq.
    split; [apply last_snoc|]. split; [apply last_snoc|]. done.
  - apply (f_equal fst) in Hadv. rewrite advance_state in Hadv.
    cbn [fst] in Hadv. subst svc'.
    exists (advanced (set_slot session slot) now), slot, evaluation_data.
    cbn [sessions set_sessions]. split; [apply lookup_insert_eq|].
    split; [rewrite advanced_questions; by apply list_lookup_insert_eq|].
    split; [reflexivity|]. split; [reflexivity|].
    unfold get_session_evaluations.
    cbn [session_evaluations persona_history set_sessions]. rewrite lookup_insert_eq.
    split; [apply last_snoc|]. split; [apply last_snoc|]. done.
Qed.

(** X7 at the first answer of the interview. *)
Lemma accepted_answer_recorded_witness :
  let svc := started_service in
  let svc' := (@step example_builtins default_settings svc (answer_at 1 (Fin 30))).1 in
  exists s' slot evaluation_data,
    sessions svc' !! "s1" = Some s'
    /\ questions s' !! current_question_index started_session = Some slot
    /\ initial_answer slot
       = Some {| answer_question_id := 1; answer_text := "I fixed the cache";
                 duration_seconds := Fin 30;
                 word_count := Z.of_nat (length (PyStr.split "I fixed the cache")) |}
    /\ evaluation slot = Some evaluation_data
    /\ last (get_session_evaluations svc' "s1") = Some evaluation_data
    /\ last (persona_history svc') = Some (persona_detected slot)
    /\ evaluation_data !! "persona"
       = Some (JStr (persona_value (persona_detected slot)))
    /\ evaluation_data !! "word_count"
       = Some (JInt (Z.of_nat (length (PyStr.split "I fixed the cache"))))
    /\ evaluation_data !! "star_analysis"
       = Some (JObj (STARChecker.check_star_pattern (star_reply silent_backend))).
Proof.
  intros svc svc'.
  destruct first_answer_ok as (response & Hstep & Hsuccess).
  exact (@accepted_answer_recorded example_builtins default_settings svc
           silent_backend 1 "s1" 1 "I fixed the cache" (Fin 30) false svc' response
           started_session started_service_lookup Hstep Hsuccess).
Defined.

Lemma answer_last_snoc entries e text :
  answer_last (entries ++ [e]) text
  = entries ++ [{| entry_question := entry_question e;
                   entry_answer := Some text;
                   entry_type := entry_type e |}].
Proof.
  induction entries as [|e0 entries IH]; [done|].
  cbn [app answer_last]. rewrite IH.
  by destruct entries.
Qed.

Lemma probing_answer_ok :
  exists response follow_up,
    @submit_answer example_builtins default_settings started_service
      probing_backend 1 "s1" 1 "I fixed the cache" (Fin 30) false
    = ((@submit_answer example_builtins default_settings started_service
          probing_backend 1 "s1" 1 "I fixed the cache" (Fin 30) false).1,
       Ok response)
    /\ follow_up_question response = Some follow_up.
Proof.
  assert (Hok : match (@submit_answer example_builtins default_settings
                         started_service probing_backend 1 "s1" 1
                         "I fixed the cache" (Fin 30) false).2 with
                | Ok response => bool_decide (is_Some (follow_up_question response))
                | Raise _ => false
                end = true) by (vm_compute; reflexivity).
  destruct (submit_answer _ _ _ _ _ _ _ _ _) as [svc' [response|e]];
    [|discriminate].
  apply bool_decide_eq_true_1 in Hok. destruct Hok as [follow_up Hf].
  by exists response, follow_up.
Qed.

(** X8.  A follow-up and its answer.  When [submit_answer] hands out a
    follow-up question, the cursor stays; the next [submit_followup_answer]
    succeeds, stores its text as the answer of exactly that follow-up (the
    last entry of the slot, with the question text and type handed out),
    keeps the initial answer of the slot, and moves the cursor on by one. *)
Theorem follow_up_round_trip `{Builtins} settings svc backend now sid qid text
    duration voice svc1 response follow_up now' text' duration' session q_session :
  sessions svc !! sid = Some session ->
  questions session !! current_question_index session = Some q_session ->
  submit_answer settings svc backend now sid qid text duration voice
  = (svc1, Ok response) ->
  follow_up_question response = Some follow_up ->
  (exists s1, sessions svc1 !! sid = Some s1
              /\ current_question_index s1 = current_question_index session)
  /\ exists s2 slot response',
       submit_followup_answer svc1 now' sid text' duration'
       = (set_sessions svc1 (<[sid := s2]> (sessions svc1)), Ok response')
       /\ success response' = true
       /\ current_question_index s2 = S (current_question_index session)
       /\ questions s2 !! current_question_index session = Some slot
       /\ follow_ups slot
          = follow_ups q_session
            ++ [{| entry_question := followup_text follow_up;
                   entry_answer := Some text';
                   entry_type := followup_type follow_up |}]
       /\ exists answer, initial_answer slot = Some answer
                         /\ answer_text answer = text.
Proof.
  intros Hs Hq Hcall Hfollow.
  destruct (submit_answer_inv _ _ _ _ _ _ _ _ _ _ _ Hcall)
    as [[_ ->]|(session0 & q0 & evaluations & Hs0 & Hq0 & Hev & Hcase)];
    [discriminate|].
  assert (session0 = session) as -> by congruence.
  assert (q0 = q_session) as -> by congruence.
  pose proof (lookup_lt_Some _ _ _ Hq) as Hlt.
  cbv zeta in Hcase.
  set (slot := answered_slot _ _ _ _) in *.
  destruct Hcase as [(f & -> & ->)|Hadv].
  2:{ exfalso.
      match type of Hadv with
      | advance ?svc0 ?now0 ?sid0 ?s0 ?dm ?nm = _ =>
          destruct (advance_result svc0 now0 sid0 s0 dm nm) as [(_ & Hres)|(? & _ & Hres)];
            [by rewrite set_slot_length| |];
            rewrite Hres in Hadv; injection Hadv as <- <-; discriminate
      end. }
  cbn [follow_up_question] in Hfollow. injection Hfollow as ->.
  set (s1 := set_slot session (slot_with_follow_up slot follow_up)).
  cbn [sessions set_sessions].
  split; [exists s1; split; [apply lookup_insert_eq|done]|].
  set (slot2 := slot_with_follow_up_answer (slot_with_follow_up slot follow_up) text').
  assert (Hq1 : questions s1 !! current_question_index s1
                = Some (slot_with_follow_up slot follow_up))
    by (by apply list_lookup_insert_eq).
  assert (Hlt2 : (current_question_index (set_slot s1 slot2)
                  < length (questions (set_slot s1 slot2)))%nat)
    by (unfold s1; rewrite !set_slot_length; exact Hlt).
  unfold submit_followup_answer. cbn [sessions set_sessions].
  rewrite lookup_insert_eq. fold s1. rewrite Hq1. cbv zeta.
  fold (slot_with_follow_up_answer (slot_with_follow_up slot follow_up) text').
  fold slot2.
  exists (advanced (set_slot s1 slot2) now'), slot2.
  match goal with
  | |- context [advance ?svc0 now' sid (set_slot s1 slot2) ?dm ?nm] =>
      destruct (advance_result svc0 now' sid (set_slot s1 slot2) dm nm Hlt2)
        as [(_ & Hres)|(next & _ & Hres)]; rewrite Hres; eexists
  end.
  all: cbn [sessions set_sessions]; split; [reflexivity|]; split; [done|].
  all: split; [rewrite (proj2 (advanced_same_interview _ _)); reflexivity|].
  all: split;
    [rewrite advanced_questions; apply list_lookup_insert_eq;
     unfold s1; rewrite set_slot_length; exact Hlt|].
  all: split; [apply answer_last_snoc|].
  all: by eexists.
Qed.

(** X8 at a first answer that the backend wants probed. *)
Lemma follow_up_round_trip_witness :
  let svc1 := (@submit_answer example_builtins default_settings started_service
                 probing_backend 1 "s1" 1 "I fixed the cache" (Fin 30) false).1 in
  exists follow_up,
    (exists s1, sessions svc1 !! "s1" = Some s1
                /\ current_question_index s1 = current_question_index started_session)
    /\ exists s2 slot response',
         submit_followup_answer svc1 2 "s1" "The one on order dates" (Fin 20)
         = (set_sessions svc1 (<["s1" := s2]> (sessions svc1)), Ok response')
         /\ success response' = true
         /\ current_question_index s2 = S (current_question_index started_session)
         /\ questions s2 !! current_question_index started_session = Some slot
         /\ follow_ups slot
            = [] ++ [{| entry_question := followup_text follow_up;
                        entry_answer := Some "The one on order dates";
                        entry_type := followup_type follow_up |}]
         /\ exists answer, initial_answer slot = Some answer
                           /\ answer_text answer = "I fixed the cache".
Proof.
  intros svc1.
  destruct probing_answer_ok as (response & follow_up & Hcall & Hfollow).
  exists follow_up.
  exact (@follow_up_round_trip example_builtins default_settings started_service
           probing_backend 1 "s1" 1 "I fixed the cache" (Fin 30) false svc1
           response follow_up 2 "The one on order dates" (Fin 20) started_session
           (new_question_session
              (QuestionGenerator._create_generic_question 1 "Software Engineer"))
           started_service_lookup eq_refl Hcall Hfollow).
Defined.

(** X9.  [submit_followup_answer] does not check that a follow-up is
    pending.  On a slot without follow-ups the text is dropped: nothing is
    recorded on any slot, and the call still succeeds and moves the cursor
    to the next question, whether or not the slot has been answered. *)
Theorem followup_without_pending svc now sid text duration session q_session :
  sessions svc !! sid = Some session ->
  questions session !! current_question_index session = Some q_session ->
  follow_ups q_session = [] ->
  exists s' response,
    submit_followup_answer svc now sid text duration
    = (set_sessions svc (<[sid := s']> (sessions svc)), Ok response)
    /\ success response = true
    /\ questions s' = questions session
    /\ current_question_index s' = S (current_question_index session).
Proof.
  intros Hs Hq Hnone.
  pose proof (lookup_lt_Some _ _ _ Hq) as Hlt.
  unfold submit_followup_answer. rewrite Hs, Hq. cbv zeta. rewrite Hnone.
  cbn [answer_last].
  assert (Hslot : set_slot session
                    {| question := question q_session;
                       initial_answer := initial_answer q_session;
                       follow_ups := [];
                       persona_detected := persona_detected q_session;
                       evaluation := evaluation q_session |} = session).
  { unfold set_slot, set_questions. rewrite <- Hnone.
    replace {| question := question q_session;
               initial_answer := initial_answer q_session;
               follow_ups := follow_ups q_session;
               persona_detected := persona_detected q_session;
               evaluation := evaluation q_session |} with q_session
      by (by destruct q_session).
    rewrite list_insert_id by done. by destruct session. }
  rewrite Hslot.
  exists (advanced session now).
  destruct (advance_result svc now sid session "Interview completed!"
              "Follow-up answer submitted" Hlt)
    as [(_ & Hres)|(next & _ & Hres)]; rewrite Hres; eexists.
  all: split; [reflexivity|]; split; [done|].
  all: split; [apply advanced_questions|apply advanced_same_interview].
Qed.

(** X9 at a fresh session: a follow-up answer before any answer. *)
Lemma followup_without_pending_witness :
  exists s' response,
    submit_followup_answer started_service 1 "s1" "anything" (Fin 1)
    = (set_sessions started_service (<["s1" := s']> (sessions started_service)),
       Ok response)
    /\ success response = true
    /\ questions s' = questions started_session
    /\ current_question_index s' = S (current_question_index started_session).
Proof.
  exact (followup_without_pending started_service 1 "s1" "anything" (Fin 1)
           started_session
           (new_question_session
              (QuestionGenerator._create_generic_question 1 "Software Engineer"))
           started_service_lookup eq_refl eq_refl).
Defined.

End ResponseFacts.

(** ** Session state machine: the reachable states *)

Section ReachableFacts.
Import InterviewService.

Lemma step_keyed `{Builtins} settings svc c :
  keyed svc -> keyed (step settings svc c).1.
Proof.
  intros Hkeyed sid.
  destruct (step_effect settings svc c)
    as [->|(session & _ & _ & s' & Hsession & _ & _ & _ & -> & _ & Hev)];
    [apply Hkeyed|].
  intros Hs.
  assert (is_Some (sessions svc !! sid)) as Hold.
  { destruct (decide (call_session c = sid)) as [<-|Hne]; [by eexists|].
    by rewrite lookup_insert_ne in Hs. }
  destruct Hev as [->|(evs & ev & _ & ->)]; [by apply Hkeyed|].
  destruct (decide (call_session c = sid)) as [<-|Hne].
  - rewrite lookup_insert_eq. by eexists.
  - rewrite lookup_insert_ne by done. by apply Hkeyed.
Qed.

Lemma step_fresh_ahead `{Builtins} settings svc c :
  fresh_ahead svc -> fresh_ahead (step settings svc c).1.
Proof.
  intros Hfresh sid s i slot.
  destruct (step_effect settings svc c)
    as [->|(session & q & slot0 & s' & Hsession & Hq & _ & Hs' & -> & _)];
    [apply Hfresh|].
  destruct (decide (call_session c = sid)) as [<-|Hne].
  - rewrite lookup_insert_eq. intros [= <-] Hlt Hi.
    apply (Hfresh (call_session c) session i slot Hsession).
    + destruct Hs' as [->| ->]; [exact Hlt|].
      rewrite (proj2 (advanced_same_interview _ _)) in Hlt.
      cbn in Hlt. lia.
    + destruct Hs' as [->| ->].
      * cbn in Hi, Hlt. rewrite list_lookup_insert_ne in Hi by lia. done.
      * rewrite advanced_questions in Hi.
        rewrite (proj2 (advanced_same_interview _ _)) in Hlt.
        cbn in Hi, Hlt. rewrite list_lookup_insert_ne in Hi by lia. done.
  - rewrite lookup_insert_ne by done. apply Hfresh.
Qed.

(** What holds in every reachable state. *)
Lemma reachable_invariant `{Builtins} settings svc :
  0 < TOTAL_QUESTIONS settings ->
  reachable settings svc ->
  store_consistent svc /\ keyed svc /\ fresh_ahead svc.
Proof.
  intros Hn Hreach.
  induction Hreach as [|svc reply now sid resume role _ (Hc & Hk & Hf)
                        |svc c _ (Hc & Hk & Hf)].
  - split; [|split].
    + intros sid s Hs. cbn in Hs. by rewrite lookup_empty in Hs.
    + intros sid [s Hs]. cbn in Hs. by rewrite lookup_empty in Hs.
    + intros sid s i slot Hs. cbn in Hs. by rewrite lookup_empty in Hs.
  - destruct (start_interview_started settings svc reply now sid resume role Hn)
      as (Hstarted & Hsessions & Hevs).
    cbv zeta in Hstarted, Hsessions, Hevs.
    split; [|split].
    + intros sid' s. rewrite Hsessions.
      destruct (decide (sid = sid')) as [<-|Hne].
      * rewrite lookup_insert_eq. intros [= <-]. by apply started_consistent.
      * rewrite lookup_insert_ne by done. apply Hc.
    + intros sid'. rewrite Hsessions.
      destruct (decide (sid = sid')) as [<-|Hne].
      * intros _. by eexists.
      * rewrite lookup_insert_ne by done. intros Hs.
        cbn [fst start_interview session_evaluations].
        rewrite lookup_insert_ne by done. by apply Hk.
    + intros sid' s i slot. rewrite Hsessions.
      destruct (decide (sid = sid')) as [<-|Hne].
      * rewrite lookup_insert_eq. intros [= <-] _.
        cbn [snd start_interview questions].
        rewrite list_lookup_fmap.
        destruct (_ !! i); [|done]. by intros [= <-].
      * rewrite lookup_insert_ne by done. apply Hf.
  - split; [by apply step_consistent|].
    split; [by apply step_keyed|by apply step_fresh_ahead].
Qed.

Lemma reachable_run `{Builtins} settings svc calls :
  reachable settings svc -> reachable settings (run settings svc calls).
Proof.
  revert svc. induction calls as [|c calls IH]; intros svc Hreach; [done|].
  apply IH. by constructor.
Qed.

Lemma started_service_reachable :
  @reachable example_builtins default_settings started_service.
Proof. apply reach_start, reach_init. Qed.

(** The follow-up engine on an evaluation built by [submit_answer]: the
    validation of the reason is all that can fail. *)
Lemma generate_follow_up_raises `{Builtins} response backend persona words e :
  FollowUpEngine.generate_follow_up response
    (built_evaluation backend persona words) persona = Raise e ->
  e = ValidationError.
Proof.
  unfold FollowUpEngine.generate_follow_up, built_evaluation.
  destruct (negb _); [discriminate|].
  destruct (pipeline_follow_up_type (evaluation_reply backend)
              (STARChecker.check_star_pattern (star_reply backend)) words persona)
    as (follow_up_type & -> & _).
  cbn [mbind Result_bind]. cbv zeta.
  destruct (String.eqb _ ""); [discriminate|].
  destruct (FollowUpEngine.validate_str _) as [reason|e'] eqn:Hreason;
    [discriminate|].
  cbn [mbind Result_bind]. intros [= <-].
  unfold FollowUpEngine.validate_str in Hreason.
  by destruct (dict_get _ _ _); try discriminate; injection Hreason as <-.
Qed.

(** X10.  The exceptions of a submission, in every state the service
    reaches when at least one question is configured.  A submission raises
    [ValueError] only for an unknown session and [IndexError] only for a
    completed one, both before anything is written.  Otherwise only
    [submit_answer] can raise, with the validation error of a follow-up
    whose reason is not a string, and then the answer has already been
    recorded: the evaluation list of the session is one longer.  No
    [KeyError] escapes. *)
Theorem step_exceptions `{Builtins} settings svc c svc' e :
  0 < TOTAL_QUESTIONS settings ->
  reachable settings svc ->
  step settings svc c = (svc', Raise e) ->
  let sid := call_session c in
  (e = ValueError /\ sessions svc !! sid = None /\ svc' = svc)
  \/ (e = IndexError /\ svc' = svc
      /\ exists s, sessions svc !! sid = Some s /\ status s = completed)
  \/ (e = ValidationError /\ is_answer c = true
      /\ exists s, sessions svc !! sid = Some s /\ status s = in_progress
         /\ length (get_session_evaluations svc' sid)
            = S (length (get_session_evaluations svc sid))).
Proof.
  intros Hn Hreach Hstep sid.
  destruct (reachable_invariant settings svc Hn Hreach) as (Hc & Hk & _).
  assert (Hslot : forall s, sessions svc !! sid = Some s ->
            questions s !! current_question_index s = None ->
            status s = completed).
  { intros s Hs Hnone. destruct (Hc _ _ Hs) as [(_ & Hlt & _)|(? & _)]; [|done].
    apply lookup_lt_is_Some_2 in Hlt. rewrite Hnone in Hlt. by destruct Hlt. }
  assert (Hprogress : forall s q, sessions svc !! sid = Some s ->
            questions s !! current_question_index s = Some q ->
            status s = in_progress).
  { intros s q Hs Hq. destruct (Hc _ _ Hs) as [(? & _)|(_ & Heq & _)]; [done|].
    apply lookup_lt_Some in Hq. lia. }
  assert (Hadvance : forall svc1 now s dm nm,
            (current_question_index s < length (questions s))%nat ->
            advance svc1 now sid s dm nm <> (svc', Raise e)).
  { intros svc1 now s dm nm Hlt Hadv.
    destruct (advance_result svc1 now sid s dm nm Hlt)
      as [(_ & Hres)|(next & _ & Hres)]; rewrite Hres in Hadv; discriminate. }
  destruct c as [backend now sid' qid text duration voice|now sid' text duration];
    cbn [step call_session is_answer] in *; subst sid.
  - destruct (sessions svc !! sid') as [session|] eqn:Hs.
    2:{ unfold submit_answer in Hstep. rewrite Hs in Hstep.
        injection Hstep as <- <-. by left. }
    destruct (fgt duration (Fin (inject_Z (ANSWER_TIME_SECONDS settings))))
      eqn:Hlimit;
      [unfold submit_answer in Hstep; by rewrite Hs, Hlimit in Hstep|].
    destruct (questions session !! current_question_index session)
      as [q_session|] eqn:Hq.
    2:{ unfold submit_answer in Hstep. rewrite Hs, Hlimit, Hq in Hstep.
        injection Hstep as <- <-. right. left.
        split; [done|]. split; [done|]. exists session.
        split; [done|]. by apply Hslot. }
    destruct (Hk sid' (ltac:(by eexists))) as [evaluations Hev].
    rewrite (submit_answer_accepted settings svc backend now sid' qid text
               duration voice session q_session evaluations Hs Hlimit Hq Hev)
      in Hstep.
    cbv zeta in Hstep.
    destruct (FollowUpEngine.generate_follow_up _ _ _) as [[follow_up|]|e0]
      eqn:Hfollow; [discriminate| |].
    + exfalso. eapply Hadvance; [|exact Hstep].
      rewrite set_slot_length. cbn. by eapply lookup_lt_Some.
    + apply generate_follow_up_raises in Hfollow. subst e0.
      injection Hstep as <- <-. right. right.
      split; [done|]. split; [done|].
      exists session. split; [done|]. split; [by eapply Hprogress|].
      unfold get_session_evaluations. cbn [session_evaluations].
      rewrite lookup_insert_eq, Hev. cbn. rewrite length_app. cbn. lia.
  - unfold submit_followup_answer in Hstep.
    destruct (sessions svc !! sid') as [session|] eqn:Hs.
    2:{ injection Hstep as <- <-. by left. }
    destruct (questions session !! current_question_index session)
      as [q_session|] eqn:Hq.
    2:{ injection Hstep as <- <-. right. left.
        split; [done|]. split; [done|]. exists session.
        split; [done|]. by apply Hslot. }
    exfalso. cbv zeta in Hstep. eapply Hadvance; [|exact Hstep].
    rewrite set_slot_length. cbn. by eapply lookup_lt_Some.
Qed.

Lemma sixth_answer_raises :
  exists e,
    @step example_builtins default_settings finished_service (answer_at 6 (Fin 30))
    = ((@step example_builtins default_settings finished_service
          (answer_at 6 (Fin 30))).1, Raise e).
Proof.
  assert (Hraise : match (@step example_builtins default_settings finished_service
                            (answer_at 6 (Fin 30))).2 with
                   | Ok _ => false
                   | Raise _ => true
                   end = true) by (vm_compute; reflexivity).
  destruct (step _ _ _) as [svc' [response|e]]; [discriminate|by exists e].
Qed.

(** X10 at a sixth answer to the interview of five questions. *)
Lemma step_exceptions_witness :
  let c := answer_at 6 (Fin 30) in
  let svc := finished_service in
  let svc' := (@step example_builtins default_settings svc c).1 in
  let sid := call_session c in
  exists e,
    (e = ValueError /\ sessions svc !! sid = None /\ svc' = svc)
    \/ (e = IndexError /\ svc' = svc
        /\ exists s, sessions svc !! sid = Some s /\ status s = completed)
    \/ (e = ValidationError /\ is_answer c = true
        /\ exists s, sessions svc !! sid = Some s /\ status s = in_progress
           /\ length (get_session_evaluations svc' sid)
              = S (length (get_session_evaluations svc sid))).
Proof.
  intros c svc svc' sid.
  destruct sixth_answer_raises as [e Hstep].
  exists e.
  refine (@step_exceptions example_builtins default_settings svc c svc' e _ _ Hstep).
  - reflexivity.
  - apply reachable_run, started_service_reachable.
Defined.

(** X11.  [get_current_question] in every state the service reaches when
    at least one question is configured: for a known session it never
    raises; it returns nothing exactly when the session is completed, and
    otherwise the question of the slot at the cursor. *)
Theorem get_current_question_reachable `{Builtins} settings svc sid s :
  0 < TOTAL_QUESTIONS settings ->
  reachable settings svc ->
  sessions svc !! sid = Some s ->
  (status s = completed /\ get_current_question svc sid = Ok None)
  \/ (status s = in_progress
      /\ exists q_session,
           questions s !! current_question_index s = Some q_session
           /\ get_current_question svc sid = Ok (Some (question q_session))).
Proof.
  intros Hn Hreach Hs.
  destruct (reachable_invariant settings svc Hn Hreach) as (Hc & _ & _).
  unfold get_current_question. rewrite Hs.
  destruct (Hc _ _ Hs) as [(Hst & Hlt & _)|(Hst & Heq & _)].
  - right. split; [done|].
    destruct (lookup_lt_is_Some_2 _ _ Hlt) as [q_session Hq].
    exists q_session. split; [done|]. rewrite Hq.
    by destruct (Nat.leb_spec (length (questions s)) (current_question_index s));
      [lia|].
  - left. split; [done|]. by rewrite Heq, Nat.leb_refl.
Qed.

(** X11 at the interview of five answered questions. *)
Lemma get_current_question_reachable_witness :
  exists s,
    sessions finished_service !! "s1" = Some s
    /\ ((status s = completed /\ get_current_question finished_service "s1" = Ok None)
        \/ (status s = in_progress
            /\ exists q_session,
                 questions s !! current_question_index s = Some q_session
                 /\ get_current_question finished_service "s1"
                    = Ok (Some (question q_session)))).
Proof.
  destruct finished_service_session as (s & Hs & _).
  exists s. split; [exact Hs|].
  refine (@get_current_question_reachable example_builtins default_settings
            finished_service "s1" s _ _ Hs).
  - reflexivity.
  - apply reachable_run, started_service_reachable.
Defined.

(** X12.  Answers are only ever written at the cursor.  In every state
    the service reaches, each slot after the cursor of its session is as
    [start_interview] created it: no answer, no follow-up, no evaluation,
    and the default persona. *)
Theorem reachable_fresh_ahead `{Builtins} settings svc sid s i slot :
  reachable settings svc ->
  sessions svc !! sid = Some s ->
  (current_question_index s < i)%nat ->
  questions s !! i = Some slot ->
  initial_answer slot = None /\ follow_ups slot = []
  /\ evaluation slot = None /\ persona_detected slot = NORMAL.
Proof.
  intros Hreach Hs Hlt Hi.
  assert (Hfresh : fresh_ahead svc).
  { clear Hs. induction Hreach as [|svc reply now sid0 resume role _ Hf|svc c _ Hf].
    - intros sid0 s0 i0 slot0 Hs0. cbn in Hs0. by rewrite lookup_empty in Hs0.
    - intros sid' s' i' slot'. cbn [fst start_interview sessions].
      destruct (decide (sid0 = sid')) as [<-|Hne].
      + rewrite lookup_insert_eq. intros [= <-] _.
        cbn [questions]. rewrite list_lookup_fmap.
        destruct (_ !! i'); [|done]. by intros [= <-].
      + rewrite lookup_insert_ne by done. apply Hf.
    - by apply step_fresh_ahead. }
  rewrite (Hfresh sid s i slot Hs Hlt Hi). done.
Qed.

(** X12 at the second slot of a session just started. *)
Lemma reachable_fresh_ahead_witness :
  let slot := new_question_session
                (QuestionGenerator._create_generic_question 2 "Software Engineer") in
  initial_answer slot = None /\ follow_ups slot = []
  /\ evaluation slot = None /\ persona_detected slot = NORMAL.
Proof.
  intros slot.
  refine (@reachable_fresh_ahead example_builtins default_settings started_service
            "s1" started_session 1 slot started_service_reachable
            started_service_lookup _ eq_refl).
  simpl. lia.
Defined.

Lemma step_past_slot `{Builtins} settings svc c sid s i :
  sessions svc !! sid = Some s ->
  (i < current_question_index s)%nat ->
  exists s',
    sessions (step settings svc c).1 !! sid = Some s'
    /\ questions s' !! i = questions s !! i
    /\ (current_question_index s <= current_question_index s')%nat.
Proof.
  intros Hs Hlt.
  destruct (step_effect settings svc c)
    as [->|(session & q & slot & s' & Hsession & _ & _ & Hs' & -> & _)];
    [by exists s|].
  destruct (decide (call_session c = sid)) as [<-|Hne].
  - rewrite lookup_insert_eq. exists s'. split; [done|].
    assert (session = s) as -> by congruence.
    destruct Hs' as [->| ->].
    + split; [|done]. cbn. apply list_lookup_insert_ne. lia.
    + rewrite advanced_questions, (proj2 (advanced_same_interview _ _)).
      split; [|cbn; lia]. cbn. apply list_lookup_insert_ne. lia.
  - rewrite lookup_insert_ne by done. by exists s.
Qed.

(** X13.  An answered slot is final once the cursor has passed it: no
    later submission changes any slot before the cursor, so the answer,
    follow-ups, persona and evaluation recorded there stay as they are. *)
Theorem run_past_slots_frozen `{Builtins} settings svc calls sid s i :
  sessions svc !! sid = Some s ->
  (i < current_question_index s)%nat ->
  exists s',
    sessions (run settings svc calls) !! sid = Some s'
    /\ questions s' !! i = questions s !! i.
Proof.
  revert svc s. induction calls as [|c calls IH]; intros svc s Hs Hlt.
  { by exists s. }
  destruct (step_past_slot settings svc c sid s i Hs Hlt) as (s1 & Hs1 & Hq1 & Hle).
  destruct (IH _ s1 Hs1 ltac:(lia)) as (s' & Hs' & Hq').
  exists s'. split; [exact Hs'|]. by rewrite Hq'.
Qed.

Lemma first_answer_session :
  exists s,
    sessions (@step example_builtins default_settings started_service
                (answer_at 1 (Fin 30))).1 !! "s1" = Some s
    /\ current_question_index s = 1%nat.
Proof.
  assert (Hsummary :
    current_question_index
      <$> sessions (@step example_builtins default_settings started_service
                      (answer_at 1 (Fin 30))).1 !! "s1"
    = Some 1%nat) by (vm_compute; reflexivity).
  destruct (sessions _ !! "s1") as [s|]; [|discriminate].
  exists s. split; [done|]. by injection Hsummary.
Qed.

(** X13 at the first slot, after the first answer and over the other four. *)
Lemma run_past_slots_frozen_witness :
  let svc := (@step example_builtins default_settings started_service
                (answer_at 1 (Fin 30))).1 in
  let calls := [answer_at 2 (Fin 30); answer_at 3 (Fin 30); answer_at 4 (Fin 30);
                answer_at 5 (Fin 30)] in
  exists s s',
    sessions svc !! "s1" = Some s
    /\ sessions (@run example_builtins default_settings svc calls) !! "s1" = Some s'
    /\ questions s' !! 0%nat = questions s !! 0%nat.
Proof.
  intros svc calls.
  destruct first_answer_session as (s & Hs & Hidx).
  destruct (@run_past_slots_frozen example_builtins default_settings svc calls
              "s1" s 0%nat Hs ltac:(rewrite Hidx; lia)) as (s' & Hs' & Hq).
  exists s, s'. split; [exact Hs|]. split; [exact Hs'|exact Hq].
Defined.

(** X14.  [start_interview] begins afresh.  With at least one question
    configured, the session it stores under the id is the one it returns,
    with every slot unanswered and the cursor on the first question, which
    [get_current_question] then returns; the evaluation list of the id is
    empty, so a session and evaluations stored under the same id before
    are discarded.  Every other session and evaluation list is left as it
    was, and so is the persona history, which is not per session. *)
Theorem start_interview_fresh settings svc questions_reply now sid resume_data role :
  0 < TOTAL_QUESTIONS settings ->
  let result :=
    start_interview settings svc questions_reply now sid resume_data role in
  get_session result.1 sid = Some result.2
  /\ get_session_evaluations result.1 sid = []
  /\ persona_history result.1 = persona_history svc
  /\ (forall other, other <> sid ->
        get_session result.1 other = get_session svc other
        /\ get_session_evaluations result.1 other = get_session_evaluations svc other)
  /\ Forall (fun slot => slot = new_question_session (question slot))
            (questions result.2)
  /\ exists slot, questions result.2 !! 0%nat = Some slot
                  /\ get_current_question result.1 sid = Ok (Some (question slot)).
Proof.
  intros Hn result.
  destruct (start_interview_started settings svc questions_reply now sid
              resume_data role Hn) as ((Hidx & _ & _ & Hne) & Hsessions & Hevs).
  fold result in Hidx, Hne, Hsessions, Hevs.
  unfold get_session, get_session_evaluations.
  rewrite Hsessions, Hevs, lookup_insert_eq.
  split; [done|]. split; [done|]. split; [done|].
  split.
  { intros other Hother. rewrite lookup_insert_ne by done. split; [done|].
    cbn [result fst start_interview session_evaluations].
    by rewrite lookup_insert_ne. }
  split.
  { cbn [result snd start_interview questions].
    apply Forall_forall. intros slot Hin.
    apply list_elem_of_fmap in Hin. by destruct Hin as (q & -> & _). }
  destruct (questions result.2) as [|slot slots] eqn:Hqs; [done|].
  exists slot. split; [done|].
  unfold get_current_question. rewrite Hsessions, lookup_insert_eq, Hidx, Hqs.
  done.
Qed.

(** X14 at a second start under the id of the finished interview. *)
Lemma start_interview_fresh_witness :
  let result :=
    start_interview default_settings finished_service None 9 "s1"
      example_resume "Data Analyst" in
  get_session result.1 "s1" = Some result.2
  /\ get_session_evaluations result.1 "s1" = []
  /\ persona_history result.1 = persona_history finished_service
  /\ (forall other, other <> "s1" ->
        get_session result.1 other = get_session finished_service other
        /\ get_session_evaluations result.1 other
           = get_session_evaluations finished_service other)
  /\ Forall (fun slot => slot = new_question_session (question slot))
            (questions result.2)
  /\ exists slot, questions result.2 !! 0%nat = Some slot
                  /\ get_current_question result.1 "s1" = Ok (Some (question slot)).
Proof.
  refine (start_interview_fresh default_settings finished_service None 9 "s1"
            example_resume "Data Analyst" _).
  reflexivity.
Defined.

End ReachableFacts.

(** ** Persona detector: statistics and rules *)

Section PersonaStatistics.
Import PersonaDetector.

Lemma occurrences_cons p q history :
  occurrences p (q :: history)
  = (if bool_decide (q = p) then 1 else 0) + occurrences p history.
Proof.
  unfold occurrences. cbn [List.filter].
  destruct (bool_decide (q = p)); cbn [length]; lia.
Qed.

Lemma occurrences_nonneg p history : 0 <= occurrences p history.
Proof. unfold occurrences. lia. Qed.

Lemma occurrences_total history :
  occurrences CONFUSED history + occurrences EFFICIENT history
  + occurrences CHATTY history + occurrences EDGE_CASE history
  + occurrences NORMAL history
  = Z.of_nat (length history).
Proof.
  induction history as [|q history IH]; [done|].
  rewrite !occurrences_cons. cbn [length].
  destruct q; repeat case_bool_decide; try done; lia.
Qed.

(** The loop of [get_persona_distribution] from any five counts. *)
Lemma persona_distribution_loop history a b c d e :
  foldl (fun acc persona =>
           distribution ← acc; increment (persona_value persona) distribution)
        (Ok [ (persona_value CONFUSED, a); (persona_value EFFICIENT, b);
              (persona_value CHATTY, c); (persona_value EDGE_CASE, d);
              (persona_value NORMAL, e) ])
        history
  = Ok [ (persona_value CONFUSED, a + occurrences CONFUSED history);
         (persona_value EFFICIENT, b + occurrences EFFICIENT history);
         (persona_value CHATTY, c + occurrences CHATTY history);
         (persona_value EDGE_CASE, d + occurrences EDGE_CASE history);
         (persona_value NORMAL, e + occurrences NORMAL history) ].
Proof.
  revert a b c d e. induction history as [|q history IH]; intros a b c d e.
  - cbn [foldl]. unfold occurrences. cbn. by rewrite !Z.add_0_r.
  - cbn [foldl]. rewrite !occurrences_cons.
    destruct q; cbn -[occurrences]; rewrite IH;
      repeat case_bool_decide; try done;
      by rewrite ?Z.add_0_l, ?Z.add_assoc.
Qed.

(** X15.  [get_persona_distribution] never raises and counts the history:
    the result has the five persona values as keys, in the order of the
    source, each with the number of occurrences of that persona, and the
    counts add up to the length of the history. *)
Theorem persona_distribution_counts history :
  exists distribution,
    get_persona_distribution history = Ok distribution
    /\ distribution.*1 = ["confused"; "efficient"; "chatty"; "edge_case"; "normal"]
    /\ (forall persona,
          count_of (persona_value persona) distribution
          = Some (occurrences persona history))
    /\ total_count distribution = Z.of_nat (length history).
Proof.
  eexists. split.
  { unfold get_persona_distribution, empty_distribution.
    apply persona_distribution_loop. }
  split; [reflexivity|]. split.
  - intros []; reflexivity.
  - rewrite <- occurrences_total. cbn. lia.
Qed.

Lemma occurrences_snoc p q history :
  occurrences p (history ++ [q])
  = occurrences p history + (if bool_decide (q = p) then 1 else 0).
Proof.
  unfold occurrences. rewrite List.filter_app, length_app. cbn [List.filter].
  destruct (bool_decide (q = p)); cbn [length]; lia.
Qed.

Lemma occurrences_pos_elem p history :
  0 < occurrences p history -> p ∈ history.
Proof.
  induction history as [|q history IH]; [unfold occurrences; cbn; lia|].
  rewrite occurrences_cons. case_bool_decide as Hq.
  - subst q. intros _. apply list_elem_of_here.
  - intros Hpos. apply list_elem_of_further, IH. lia.
Qed.

Lemma count_persona_keys p counts :
  (count_persona p counts).*1
  = if bool_decide (p ∈ counts.*1) then counts.*1 else counts.*1 ++ [p].
Proof.
  induction counts as [|[k0 v0] counts IH]; [done|].
  cbn [count_persona fst snd]. destruct (decide (k0 = p)) as [->|Hk].
  - rewrite bool_decide_eq_true_2 by done. cbn.
    rewrite bool_decide_eq_true_2; [done|apply list_elem_of_here].
  - rewrite (bool_decide_eq_false_2 (k0 = p)) by done.
    cbn [fmap list_fmap fst]. rewrite IH.
    destruct (bool_decide (p ∈ counts.*1)) eqn:Hin.
    + apply bool_decide_eq_true_1 in Hin.
      rewrite bool_decide_eq_true_2; [done|by apply list_elem_of_further].
    + apply bool_decide_eq_false_1 in Hin.
      rewrite bool_decide_eq_false_2; [done|].
      intros [?|?]%elem_of_cons; [congruence|done].
Qed.

Lemma count_persona_elem p counts k v :
  NoDup counts.*1 ->
  (k, v) ∈ count_persona p counts
  <-> (k <> p /\ (k, v) ∈ counts)
      \/ (k = p /\ ((p, v - 1) ∈ counts \/ ((p ∉ counts.*1) /\ v = 1))).
Proof.
  induction counts as [|[k0 v0] counts IH]; intros Hnodup.
  - cbn [count_persona]. rewrite list_elem_of_singleton. split.
    + intros [= -> ->]. right. split; [done|]. right. split; [|done].
      apply not_elem_of_nil.
    + intros [[_ Hin]|[-> [Hin|[_ ->]]]]; [|by apply elem_of_nil in Hin|done].
      by apply elem_of_nil in Hin.
  - cbn [fmap list_fmap fst] in Hnodup. apply NoDup_cons in Hnodup as [Hk0 Hnodup].
    assert (Hkey : forall k' v', (k', v') ∈ counts -> k' ∈ counts.*1).
    { intros k' v' Hin. by apply (list_elem_of_fmap_2 fst) in Hin. }
    cbn [count_persona fst snd]. case_bool_decide as Hk.
    + subst k0. rewrite !elem_of_cons. split.
      * intros [[= -> ->]|Hin].
        -- right. split; [done|]. left. left. f_equal. lia.
        -- left. split; [|by right]. intros ->. apply Hk0. by eapply Hkey.
      * intros [[Hne [[= ? ?]|Hin]]|[-> [[[= ?]|Hin]|[Hnot _]]]].
        -- done.
        -- by right.
        -- left. f_equal. lia.
        -- exfalso. apply Hk0. by eapply Hkey.
        -- exfalso. apply Hnot. cbn. apply list_elem_of_here.
    + rewrite !elem_of_cons, (IH Hnodup). cbn [fmap list_fmap fst].
      rewrite not_elem_of_cons. split.
      * intros [[= -> ->]|[[Hne Hin]|[-> [Hin|[Hnot ->]]]]].
        -- left. split; [done|by left].
        -- left. split; [done|by right].
        -- right. split; [done|]. left. by right.
        -- right. split; [done|]. right. split; [|done]. split; [congruence|done].
      * intros [[Hne [[= -> ->]|Hin]]|[-> [[[= ? ?]|Hin]|[[_ Hnot] ->]]]].
        -- by left.
        -- right. left. done.
        -- congruence.
        -- right. right. split; [done|]. by left.
        -- right. right. split; [done|]. right. done.
Qed.

Lemma count_persona_counted p counts history :
  counted counts history -> counted (count_persona p counts) (history ++ [p]).
Proof.
  intros [Hnodup Hcounts].
  assert (Hkeys : forall k, k ∈ counts.*1 -> 0 < occurrences k history).
  { intros k Hin. apply list_elem_of_fmap in Hin as ([k' v'] & -> & Hin).
    apply Hcounts in Hin. cbn. lia. }
  split.
  - rewrite count_persona_keys. case_bool_decide as Hin; [done|].
    apply NoDup_app. split; [done|]. split; [|apply NoDup_singleton].
    intros k Hk ->%list_elem_of_singleton. done.
  - intros k v. rewrite (count_persona_elem p counts k v Hnodup).
    rewrite occurrences_snoc, !Hcounts.
    pose proof (occurrences_nonneg p history) as Hnonneg.
    split.
    + intros [[Hne [-> Hpos]]|[-> [[Hv Hpos]|[Hnot ->]]]].
      * rewrite bool_decide_eq_false_2 by congruence. lia.
      * rewrite bool_decide_eq_true_2 by done. lia.
      * rewrite bool_decide_eq_true_2 by done.
        assert (occurrences p history = 0); [|lia].
        destruct (decide (0 < occurrences p history)) as [Hpos|]; [|lia].
        exfalso. apply Hnot.
        apply (list_elem_of_fmap_2 fst _ (p, occurrences p history)).
        by apply Hcounts.
    + intros [-> Hpos]. case_bool_decide as Heq.
      * subst k. right. split; [done|].
        destruct (decide (0 < occurrences p history)) as [Hp|Hp].
        -- left. split; lia.
        -- right. split; [|lia]. intros Hin. apply Hkeys in Hin. lia.
      * left. split; [congruence|]. split; lia.
Qed.

Lemma foldl_count_persona_counted history' counts history :
  counted counts history ->
  counted (foldl (fun counts persona => count_persona persona counts)
             counts history')
          (history ++ history').
Proof.
  revert counts history.
  induction history' as [|p history' IH]; intros counts history Hcounted.
  - by rewrite app_nil_r.
  - cbn [foldl]. rewrite (cons_middle p history history').
    rewrite (assoc_L (++) history [p] history').
    by apply IH, count_persona_counted.
Qed.

Lemma max_by_count_spec {K} (best : K * Z) rest :
  exists v, (max_by_count best rest, v) ∈ best :: rest
            /\ forall k' v', (k', v') ∈ best :: rest -> v' <= v.
Proof.
  revert best. induction rest as [|kv rest IH]; intros [kb vb].
  - exists vb. split; [apply list_elem_of_here|].
    intros k' v' [= -> ->]%list_elem_of_singleton. done.
  - destruct kv as [k1 v1]. cbn [max_by_count fst snd].
    destruct (Z.ltb_spec vb v1) as [Hlt|Hge].
    + destruct (IH (k1, v1)) as (v & Hin & Hmax).
      exists v. split; [by apply list_elem_of_further|].
      intros k' v' [[= -> ->]|Hin']%elem_of_cons; [|by eapply Hmax].
      specialize (Hmax k1 v1 (list_elem_of_here _ _)). lia.
    + destruct (IH (kb, vb)) as (v & Hin & Hmax).
      exists v. split.
      * apply elem_of_cons in Hin as [Hin|Hin]; [rewrite Hin; apply list_elem_of_here|].
        by do 2 apply list_elem_of_further.
      * intros k' v' [[= -> ->]|[[= -> ->]|Hin']%elem_of_cons]%elem_of_cons.
        -- apply (Hmax kb vb), list_elem_of_here.
        -- specialize (Hmax kb vb (list_elem_of_here _ _)). lia.
        -- apply (Hmax k' v'). by apply list_elem_of_further.
Qed.

(** X16.  [get_dominant_persona] never raises and returns a most frequent
    persona: [normal] for an empty history, and otherwise a persona of the
    history that no other persona outnumbers. *)
Theorem dominant_persona_most_frequent history :
  exists persona,
    get_dominant_persona history = Ok persona
    /\ (history = [] -> persona = NORMAL)
    /\ (history <> [] -> persona ∈ history)
    /\ forall other, occurrences other history <= occurrences persona history.
Proof.
  destruct history as [|p0 history].
  { exists NORMAL. split; [done|]. split; [done|]. split; [done|].
    intros other. unfold occurrences. cbn. lia. }
  set (h := p0 :: history).
  assert (Hcounted :
    counted (foldl (fun counts persona => count_persona persona counts) [] h) h).
  { apply (foldl_count_persona_counted h [] []).
    split; [apply NoDup_nil_2|].
    intros k v. split; [by intros ?%elem_of_nil|].
    unfold occurrences. cbn. lia. }
  unfold get_dominant_persona. fold h. cbv zeta.
  destruct Hcounted as [_ Hcounts].
  destruct (foldl _ [] h) as [|first rest] eqn:Hfold.
  { exfalso.
    assert (Hin : (p0, occurrences p0 h) ∈ @nil (PersonaType * Z)).
    { apply Hcounts. split; [done|].
      unfold h. rewrite occurrences_cons, bool_decide_eq_true_2 by done.
      pose proof (occurrences_nonneg p0 history). lia. }
    by apply elem_of_nil in Hin. }
  destruct (max_by_count_spec first rest) as (v & Hin & Hmax).
  exists (max_by_count first rest). split; [done|].
  apply Hcounts in Hin as [-> Hpos].
  split; [done|]. split; [intros _; by apply occurrences_pos_elem|].
  intros other.
  destruct (decide (0 < occurrences other h)) as [Hother|Hother]; [|lia].
  apply (Hmax other). by apply Hcounts.
Qed.

(** X17.  What each label of the rule-based stage implies.  Fewer than
    ten words always give [edge_case].  [chatty] needs more than 300 words
    or more than 150 seconds; [efficient] needs 50 to 150 words in under
    90 seconds; [normal] is never given to an answer of more than 300
    words or more than 150 seconds. *)
Theorem rule_based_detection_cases answer duration word_count :
  let persona := _rule_based_detection answer duration word_count in
  (word_count < 10 -> persona = EDGE_CASE)
  /\ (persona = CONFUSED -> 10 <= word_count)
  /\ (persona = CHATTY ->
      10 <= word_count /\ (300 < word_count \/ fgt duration (Fin 150) = true))
  /\ (persona = EFFICIENT ->
      50 <= word_count <= 150 /\ flt duration (Fin 90) = true
      /\ fgt duration (Fin 150) = false)
  /\ (persona = NORMAL ->
      10 <= word_count <= 300 /\ fgt duration (Fin 150) = false).
Proof.
  cbv zeta. unfold _rule_based_detection.
  destruct (Z.ltb_spec word_count 10) as [Hshort|Hlong].
  { repeat split; intros; (done || lia). }
  destruct (Z.ltb_spec word_count 3); [lia|].
  destruct (_ <? 5)%nat.
  { repeat split; intros; (done || lia). }
  destruct (_ || _).
  { repeat split; intros; (done || lia). }
  destruct (Z.ltb_spec 300 word_count) as [Hmany|Hfew];
    destruct (fgt duration (Fin 150)) eqn:Hslow; cbn [orb].
  1-3: repeat split; intros; try (done || lia); auto.
  destruct (Z.leb_spec 50 word_count), (Z.leb_spec word_count 150),
    (flt duration (Fin 90)); cbn [andb]; try destruct (existsb _ _);
    repeat split; intros; (done || lia).
Qed.

(** X18.  The backend is consulted only for short or degenerate answers.
    For an answer of at least ten words with at least five distinct
    characters the label is the one of the rule-based stage whatever the
    backend replies, it is never [edge_case], and it is the label appended
    to the history. *)
Theorem detect_persona_backend_unused history response response' answer duration
    word_count :
  10 <= word_count ->
  (10 <= length (PyStr.split answer))%nat ->
  (5 <= PyStr.distinct_chars (PyStr.lower (PyStr.remove_spaces answer)))%nat ->
  let detected := detect_persona history response answer duration word_count in
  detected = detect_persona history response' answer duration word_count
  /\ detected.1 = _rule_based_detection answer duration word_count
  /\ detected.1 <> EDGE_CASE
  /\ detected.2 = history ++ [detected.1].
Proof.
  intros Hwords Hsplit Hchars.
  assert (Hrule : _rule_based_detection answer duration word_count <> EDGE_CASE).
  { unfold _rule_based_detection.
    destruct (Z.ltb_spec word_count 10); [lia|].
    destruct (Z.ltb_spec word_count 3); [lia|].
    destruct (Nat.ltb_spec
                (PyStr.distinct_chars (PyStr.lower (PyStr.remove_spaces answer))) 5);
      [lia|].
    destruct (_ || _); [done|]. destruct (_ || _); [done|].
    destruct (_ && _); [|done]. by destruct (existsb _ _). }
  cbv zeta. unfold detect_persona. cbv zeta.
  rewrite bool_decide_eq_false_2 by done.
  destruct (Nat.ltb_spec (length (PyStr.split answer)) 10); [lia|].
  done.
Qed.

(** X18 at an answer of twelve words. *)
Lemma detect_persona_backend_unused_witness :
  let answer := "I fixed the cache by adding an index to the orders table" in
  let detected := detect_persona [] (Some "CONFUSED") answer (Fin 30) 12 in
  detected = detect_persona [] None answer (Fin 30) 12
  /\ detected.1 = _rule_based_detection answer (Fin 30) 12
  /\ detected.1 <> EDGE_CASE
  /\ detected.2 = [] ++ [detected.1].
Proof.
  intros answer.
  refine (detect_persona_backend_unused [] (Some "CONFUSED") None answer (Fin 30)
            12 _ _ _).
  - lia.
  - vm_compute. lia.
  - vm_compute. lia.
Defined.

End PersonaStatistics.

(** ** Narrative-pattern checker: the feedback text *)

Section STARFeedback.
Import STARChecker.

(** One component in the loop of [get_star_feedback]. *)
Ltac feedback_component c :=
  let q := fresh "q" in
  destruct (present _ c) eqn:?; cbn [negb mbind Result_bind fst snd app];
  [destruct (as_number (quality _ c)) as [q|?e] eqn:?; cbn [mbind Result_bind];
   [destruct (py_lt q (PInt 3)) eqn:?; cbn [mbind Result_bind fst snd app]|]|].

(** X19.  [get_star_feedback] praises an answer exactly when nothing is
    missing and nothing is weak: the fixed sentence of praise is returned
    if and only if each of the four components is present with a numeric
    quality that is not below 3. *)
Theorem star_feedback_excellent analysis :
  get_star_feedback analysis = Ok EXCELLENT
  <-> Forall (fun component =>
                present analysis component = true
                /\ exists q, as_number (quality analysis component) = Ok q
                             /\ py_lt q (PInt 3) = false)
             COMPONENTS.
Proof.
  unfold COMPONENTS. rewrite !Forall_cons, Forall_nil.
  unfold get_star_feedback, feedback_lists, COMPONENTS. cbn [foldl].
  cbn [mbind Result_bind fst snd app].
  feedback_component "situation"; try feedback_component "task";
    try feedback_component "action"; try feedback_component "result".
  all: split;
    [ intros Htext; try (vm_compute in Htext; discriminate)
    | intros ((Hp1 & q1' & Hq1 & Hl1) & (Hp2 & q2' & Hq2 & Hl2)
              & (Hp3 & q3' & Hq3 & Hl3) & (Hp4 & q4' & Hq4 & Hl4) & _);
      try congruence ].
  all: try reflexivity.
  repeat split; eauto.
Qed.

(** The quality loop of the score returns only when every present
    component has a numeric quality. *)
Lemma quality_loop_numeric analysis components acc total :
  foldl (fun acc component =>
           quality_score ← acc;
           if present analysis component then
             points ← scaled_quality (quality analysis component);
             py_add quality_score points
           else Ok quality_score)
        acc components = Ok total ->
  Forall (fun component =>
            present analysis component = true ->
            exists q, as_number (quality analysis component) = Ok q)
         components.
Proof.
  revert acc. induction components as [|c components IH]; intros acc Hloop;
    [by constructor|].
  cbn [foldl] in Hloop. apply Forall_cons. split; [|by eapply IH].
  intros Hc. rewrite Hc in Hloop.
  destruct (as_number (quality analysis c)) as [q|e] eqn:Hq; [by exists q|].
  exfalso. unfold scaled_quality in Hloop. rewrite Hq in Hloop.
  assert (Hraise : forall e' cs,
            foldl (fun acc component =>
                     quality_score ← acc;
                     if present analysis component then
                       points ← scaled_quality (quality analysis component);
                       py_add quality_score points
                     else Ok quality_score)
                  (Raise e') cs = Raise e').
  { intros e' cs. induction cs as [|c' cs IHcs]; [done|]. exact IHcs. }
  destruct acc as [quality_score|e0]; cbn [mbind Result_bind] in Hloop;
    by rewrite Hraise in Hloop.
Qed.

Lemma feedback_lists_total analysis :
  Forall (fun component =>
            present analysis component = true ->
            exists q, as_number (quality analysis component) = Ok q)
         COMPONENTS ->
  exists lists, feedback_lists analysis = Ok lists.
Proof.
  unfold COMPONENTS. rewrite !Forall_cons, Forall_nil.
  intros (H1 & H2 & H3 & H4 & _).
  unfold feedback_lists, COMPONENTS. cbn [foldl].
  cbn [mbind Result_bind fst snd app].
  destruct (present analysis "situation");
    [destruct (H1 eq_refl) as [q1 ->]; cbn [mbind Result_bind];
     destruct (py_lt q1 (PInt 3))|];
    cbn [negb mbind Result_bind fst snd app].
  all: destruct (present analysis "task");
    [destruct (H2 eq_refl) as [q2 ->]; cbn [mbind Result_bind];
     destruct (py_lt q2 (PInt 3))|];
    cbn [negb mbind Result_bind fst snd app].
  all: destruct (present analysis "action");
    [destruct (H3 eq_refl) as [q3 ->]; cbn [mbind Result_bind];
     destruct (py_lt q3 (PInt 3))|];
    cbn [negb mbind Result_bind fst snd app].
  all: destruct (present analysis "result");
    [destruct (H4 eq_refl) as [q4 ->]; cbn [mbind Result_bind];
     destruct (py_lt q4 (PInt 3))|];
    cbn [negb mbind Result_bind fst snd app].
  all: by eexists.
Qed.

(** X20.  The feedback never fails on what the checker returns.  Whatever
    the backend replied, [get_star_feedback] applied to the result of
    [check_star_pattern] returns a text: an analysis whose qualities are
    not numbers has already been replaced by the fallback analysis when
    the score was computed. *)
Theorem star_feedback_total reply :
  exists text, get_star_feedback (check_star_pattern reply) = Ok text.
Proof.
  assert (Hfallback : exists text, get_star_feedback _get_fallback_analysis = Ok text)
    by (eexists; vm_compute; reflexivity).
  assert (Htotal : forall analysis,
            (exists lists, feedback_lists analysis = Ok lists) ->
            exists text, get_star_feedback analysis = Ok text).
  { intros analysis [lists Hlists]. unfold get_star_feedback. rewrite Hlists.
    cbn [mbind Result_bind]. cbv zeta. destruct (_ && _); by eexists. }
  destruct reply as [[| | | | | |analysis]|]; try exact Hfallback.
  unfold check_star_pattern.
  destruct (_calculate_star_score analysis) as [score|e] eqn:Hscore;
    cbn [mbind Result_bind try_except]; [|exact Hfallback].
  apply Htotal, feedback_lists_total.
  unfold _calculate_star_score in Hscore.
  destruct (quality_loop analysis) as [total|e] eqn:Hloop; [|discriminate].
  apply quality_loop_numeric in Hloop. clear Hscore.
  unfold COMPONENTS in *. rewrite !Forall_cons, Forall_nil in *.
  unfold present, quality, dict_get in *.
  by rewrite !lookup_insert_ne by done.
Qed.

End STARFeedback.

(** ** Response evaluator: the overall score and the normal form *)

Section EvaluatorScores.
Import ResponseEvaluator.
Context `{Builtins}.



Lemma clamp_fixed score :
  exists x, clamp score = PFlt x /\ clamp x = PFlt x.
Proof.
  unfold clamp, py_max, py_min, py_gt, py_lt. cbn [num_val].
  destruct (flt score (Fin 100)) eqn:Hhi; cbn [num_val].
  - destruct (flt (Fin 0) score) eqn:Hlo; eexists; (split; [reflexivity|]).
    + rewrite Hhi. cbn [num_val]. by rewrite Hlo.
    + reflexivity.
  - change (flt (Fin 0) (Fin 100)) with true. cbv iota.
    eexists. split; [reflexivity|]. reflexivity.
Qed.

Lemma expected_score_fixed field :
  exists x, expected_score field = JFloat x /\ clamp x = PFlt x.
Proof.
  assert (Hdefault : clamp (Fin 50) = PFlt (Fin 50)) by reflexivity.
  unfold expected_score. destruct field as [v|]; [|eauto].
  destruct (py_float v) as [score|e]; [|eauto].
  destruct (clamp_fixed score) as (x & -> & Hx). eauto.
Qed.

(** The normalisation as four assignments to the merged dictionary. *)
Lemma normalize_evaluation_inserts (evaluation ev' : Dict) :
  _normalize_evaluation evaluation = Ok ev' ->
  exists v1 v2 v3 v4,
    ev' = <["clarity_score" := v4]>
            (<["technical_depth_score" := v3]>
               (<["confidence_score" := v2]>
                  (<["relevance_score" := v1]> (merge_defaults evaluation)))).
Proof.
  unfold _normalize_evaluation, SCORE_KEYS. cbn [foldl mbind Result_bind].
  intros Hn.
  destruct (normalize_score _ "relevance_score") as [ev1|] eqn:H1;
    [cbn [mbind Result_bind] in Hn|discriminate].
  destruct (normalize_score _ "confidence_score") as [ev2|] eqn:H2;
    [cbn [mbind Result_bind] in Hn|discriminate].
  destruct (normalize_score _ "technical_depth_score") as [ev3|] eqn:H3;
    [cbn [mbind Result_bind] in Hn|discriminate].
  apply normalize_score_inv in H1 as (v1 & _ & ->).
  apply normalize_score_inv in H2 as (v2 & _ & ->).
  apply normalize_score_inv in H3 as (v3 & _ & ->).
  apply normalize_score_inv in Hn as (v4 & _ & ->).
  eauto.
Qed.

Lemma merge_defaults_present (evaluation : Dict) :
  Forall (fun kv => is_Some (evaluation !! kv.1)) defaults ->
  merge_defaults evaluation = evaluation.
Proof.
  unfold merge_defaults. generalize defaults.
  intros l Hall. induction Hall as [|kv l [v Hv] _ IH]; [done|].
  cbn [foldl]. by rewrite Hv.
Qed.

(** X22.  The normal form of an evaluation.  When [_normalize_evaluation]
    returns, every field other than the four scores is the one of the
    reply when the reply has it and the default otherwise, and the result
    is a fixed point: normalising it again returns it unchanged. *)
Theorem normalize_evaluation_fixed (evaluation ev' : Dict) :
  _normalize_evaluation evaluation = Ok ev' ->
  (forall key, key ∉ SCORE_KEYS ->
     ev' !! key = match evaluation !! key with
                  | Some v => Some v
                  | None => assoc key defaults
                  end)
  /\ _normalize_evaluation ev' = Ok ev'.
Proof.
  intros Hn.
  destruct (normalize_evaluation_inserts _ _ Hn) as (v1 & v2 & v3 & v4 & Hev').
  assert (Hother : forall key, key ∉ SCORE_KEYS ->
            ev' !! key = merge_defaults evaluation !! key).
  { intros key Hkey. unfold SCORE_KEYS in Hkey.
    rewrite !not_elem_of_cons in Hkey. destruct Hkey as (? & ? & ? & ? & _).
    rewrite Hev'. by rewrite !lookup_insert_ne by done. }
  split.
  { intros key Hkey. rewrite (Hother key Hkey). apply merge_lookup. }
  assert (Hscore : forall key, key ∈ SCORE_KEYS ->
            normalize_score ev' key = Ok ev').
  { intros key Hkey.
    pose proof (normalize_evaluation_inv _ _ Hn key Hkey) as Hlook.
    destruct (expected_score_fixed (evaluation !! key)) as (x & Hx & Hfixed).
    rewrite Hx in Hlook. unfold normalize_score. rewrite Hlook.
    cbn [py_float]. rewrite Hfixed. cbn [num_to_json].
    by rewrite insert_id. }
  assert (Hmerged : merge_defaults ev' = ev').
  { apply merge_defaults_present. unfold defaults.
    repeat (apply Forall_cons; split; [|]); [..|by constructor]; cbn [fst].
    1-4: match goal with
         | |- is_Some (_ !! ?key) =>
             rewrite (normalize_evaluation_inv _ _ Hn key)
               by (unfold SCORE_KEYS; in_list);
             by eexists
         end.
    all: match goal with
         | |- is_Some (_ !! ?key) =>
             rewrite (Hother key)
               by (unfold SCORE_KEYS; rewrite !not_elem_of_cons;
                   repeat split; try done; apply not_elem_of_nil);
             unfold merge_defaults; rewrite merge_lookup;
             destruct (evaluation !! key); by eexists
         end. }
  unfold _normalize_evaluation. rewrite Hmerged.
  unfold SCORE_KEYS. cbn [foldl mbind Result_bind].
  repeat (rewrite Hscore by (unfold SCORE_KEYS; in_list);
          cbn [mbind Result_bind]).
  done.
Qed.

End EvaluatorScores.

(** X22 at a reply with no field at all. *)
Lemma normalize_evaluation_fixed_witness :
  exists ev',
    @ResponseEvaluator._normalize_evaluation InterviewService.example_builtins ∅ = Ok ev'
    /\ (forall key, key ∉ ResponseEvaluator.SCORE_KEYS ->
          ev' !! key = match (∅ : Dict) !! key with
                       | Some v => Some v
                       | None => ResponseEvaluator.assoc key ResponseEvaluator.defaults
                       end)
    /\ @ResponseEvaluator._normalize_evaluation InterviewService.example_builtins ev' = Ok ev'.
Proof.
  destruct (@normalize_evaluation_total InterviewService.example_builtins ∅) as [ev' Hev'].
  { intros key z _ Hz. by rewrite lookup_empty in Hz. }
  exists ev'. split; [exact Hev'|].
  exact (@normalize_evaluation_fixed InterviewService.example_builtins ∅ ev' Hev').
Defined.

(** ** Follow-up engine: the backend fails *)

Section FollowUpFallback.
Import FollowUpEngine.

(** X23.  A follow-up that is asked for is asked even when the backend
    fails.  When the evaluation requests a follow-up and the request for
    its wording raises, [generate_follow_up] still returns a follow-up (or
    the validation error of a reason that is no string): its type is one
    of the four types, and its text is the fixed sentence of that type,
    which is never empty. *)
Theorem follow_up_fallback evaluation persona follow_up_type :
  needs_follow_up evaluation = true ->
  _determine_follow_up_type evaluation persona = Ok follow_up_type ->
  follow_up_type ∈ ["redirect"; "probe"; "hint"; "challenge"]
  /\ _get_fallback_follow_up follow_up_type <> ""
  /\ generate_follow_up None evaluation persona
     = (reason ← validate_str
          (dict_get evaluation "follow_up_reason" (JStr "Seeking clarification"));
        Ok (Some {| followup_text := _get_fallback_follow_up follow_up_type;
                    followup_reason := reason;
                    followup_type := follow_up_type |})).
Proof.
  intros Hneeds Htype.
  assert (Hin : follow_up_type ∈ ["redirect"; "probe"; "hint"; "challenge"]).
  { revert Htype. unfold _determine_follow_up_type.
    destruct (negb _); [intros [= <-]; in_list|].
    destruct (as_number (dict_get evaluation "relevance_score" _))
      as [relevance|]; cbn [mbind Result_bind]; [|discriminate].
    destruct (py_lt relevance _); [intros [= <-]; in_list|].
    destruct (bool_decide _); [intros [= <-]; in_list|].
    destruct (as_number (dict_get evaluation "confidence_score" _))
      as [confidence|]; cbn [mbind Result_bind]; [|discriminate].
    destruct (py_gt confidence _); [intros [= <-]; in_list|].
    destruct (as_number (dict_get evaluation "technical_depth_score" _))
      as [depth|]; cbn [mbind Result_bind]; [|discriminate].
    destruct (py_lt depth _); intros [= <-]; in_list. }
  assert (Htext : _get_fallback_follow_up follow_up_type <> "")
    by (cases_in_list Hin; discriminate).
  split; [done|]. split; [done|].
  unfold needs_follow_up in Hneeds. unfold generate_follow_up.
  rewrite Hneeds, Htype. cbn [negb mbind Result_bind _generate_follow_up_text].
  cbv zeta. by rewrite (proj2 (String.eqb_neq _ _) Htext).
Qed.

(** X23 at the evaluation of the example and a silent backend. *)
Lemma follow_up_fallback_witness :
  "probe" ∈ ["redirect"; "probe"; "hint"; "challenge"]
  /\ _get_fallback_follow_up "probe" <> ""
  /\ generate_follow_up None example_evaluation NORMAL
     = (reason ← validate_str
          (dict_get example_evaluation "follow_up_reason"
             (JStr "Seeking clarification"));
        Ok (Some {| followup_text := _get_fallback_follow_up "probe";
                    followup_reason := reason;
                    followup_type := "probe" |})).
Proof.
  apply (follow_up_fallback example_evaluation NORMAL "probe"); reflexivity.
Defined.

End FollowUpFallback.

(** ** Question generator: numbering and fallback *)

Section QuestionNumbering.
Import QuestionGenerator.

(** X24.  A well-formed reply gives consecutive identifiers.  When the
    reply is an object whose [questions] field is a list and each of its
    first [TOTAL_QUESTIONS] entries can be converted, the result has
    exactly [TOTAL_QUESTIONS] questions, numbered 1, 2, ... in order,
    whether or not generic questions had to be appended. *)
Theorem generate_questions_well_formed settings d l target_role :
  0 <= TOTAL_QUESTIONS settings ->
  dict_get d "questions" (JList []) = JList l ->
  Forall convertible (py_slice_to l (TOTAL_QUESTIONS settings)) ->
  let questions := generate_questions settings (Some (JObj d)) target_role in
  question_id <$> questions = seqZ 1 (TOTAL_QUESTIONS settings)
  /\ length questions = Z.to_nat (TOTAL_QUESTIONS settings).
Proof.
  intros Hn Hl Hall questions.
  assert (Hids : question_id <$> questions = seqZ 1 (TOTAL_QUESTIONS settings))
    by (by apply generate_questions_ids_convertible with l).
  split; [exact Hids|].
  apply (f_equal length) in Hids.
  by rewrite length_fmap, length_seqZ in Hids.
Qed.

(** X24 at a reply of two entries, padded to five questions. *)
Lemma generate_questions_well_formed_witness :
  let d : Dict :=
    {[ "questions" := JList [entry_with_text "Q1"; entry_with_text "Q2"] ]} in
  let questions := generate_questions default_settings (Some (JObj d)) "chef" in
  question_id <$> questions = seqZ 1 (TOTAL_QUESTIONS default_settings)
  /\ length questions = Z.to_nat (TOTAL_QUESTIONS default_settings).
Proof.
  intros d.
  refine (generate_questions_well_formed default_settings d
            [entry_with_text "Q1"; entry_with_text "Q2"] "chef" _ _ _).
  - by vm_compute.
  - reflexivity.
  - repeat constructor; eexists; reflexivity.
Defined.

(** X25.  The number of questions.  With a reply whose entries can be
    read, the result has exactly [TOTAL_QUESTIONS] questions.  When the
    backend fails, or the reply is no object, or its [questions] field is
    neither a list nor a string, the result is the fixed list of five
    generic questions numbered 1 to 5, whatever [TOTAL_QUESTIONS] is. *)
Theorem generate_questions_count settings reply target_role :
  0 <= TOTAL_QUESTIONS settings ->
  let questions := generate_questions settings reply target_role in
  match reply with
  | Some questions_data =>
      match question_entries settings questions_data with
      | Ok _ => length questions = Z.to_nat (TOTAL_QUESTIONS settings)
      | Raise _ =>
          questions = _get_fallback_questions target_role
          /\ question_id <$> questions = [1; 2; 3; 4; 5]
      end
  | None =>
      questions = _get_fallback_questions target_role
      /\ question_id <$> questions = [1; 2; 3; 4; 5]
  end.
Proof.
  intros Hn. cbv zeta. unfold generate_questions.
  destruct reply as [questions_data|]; [|done].
  destruct (question_entries settings questions_data) as [entries|e];
    cbn [mbind Result_bind try_except]; [|done].
  apply py_slice_to_length; [done|]. rewrite pad_length. lia.
Qed.

(** X25 at a reply that is a list, with three questions configured. *)
Lemma generate_questions_count_witness :
  let settings :=
    {| ANSWER_TIME_SECONDS := 180; TOTAL_QUESTIONS := 3 |} in
  let questions := generate_questions settings (Some (JList [])) "chef" in
  questions = _get_fallback_questions "chef"
  /\ question_id <$> questions = [1; 2; 3; 4; 5].
Proof.
  intros settings.
  refine (generate_questions_count settings (Some (JList [])) "chef" _).
  by vm_compute.
Defined.

End QuestionNumbering.

(** ** Report generator: recommendation and persona statistics *)

Section ReportStatistics.
Import ReportGenerator.

Lemma fge_Fin a b : fge (Fin a) (Fin b) = true <-> (b <= a)%Q.
Proof.
  cbn [fge]. pose proof (Qlt_alt a b) as Hlt.
  pose proof (Qnot_lt_le a b) as Hle. pose proof (Qle_not_lt b a) as Hnot.
  destruct (a ?= b)%Q eqn:Hcmp; split; intros; try done.
  - apply Hle. intros Hab. apply Hlt in Hab. congruence.
  - exfalso. apply Hnot; [done|]. by apply Hlt.
  - apply Hle. intros Hab. apply Hlt in Hab. congruence.
Qed.

(** X26.  The recommendation is monotone in the overall score.  A higher
    score never gives a lower level, and never turns readiness off; a
    candidate is reported ready for interviews exactly from 60 upwards,
    and the level is [Strong] exactly from 75 upwards. *)
Theorem recommendation_monotone low high :
  (low <= high)%Q ->
  let lower := _determine_recommendation (Fin low) in
  let higher := _determine_recommendation (Fin high) in
  level_rank lower.1 <= level_rank higher.1
  /\ (lower.2 = true -> higher.2 = true)
  /\ (higher.2 = true <-> (60 <= high)%Q)
  /\ (higher.1 = "Strong" <-> (75 <= high)%Q).
Proof.
  intros Hle. cbv zeta. unfold _determine_recommendation.
  pose proof (fge_Fin low 75) as L75. pose proof (fge_Fin low 60) as L60.
  pose proof (fge_Fin low 45) as L45.
  pose proof (fge_Fin high 75) as H75. pose proof (fge_Fin high 60) as H60.
  pose proof (fge_Fin high 45) as H45.
  destruct (fge (Fin low) (Fin 75)), (fge (Fin low) (Fin 60)),
    (fge (Fin low) (Fin 45)), (fge (Fin high) (Fin 75)),
    (fge (Fin high) (Fin 60)), (fge (Fin high) (Fin 45));
    cbn [fst snd level_rank String.eqb Ascii.eqb Bool.eqb];
    repeat split; intros; try done; try lia;
    try (by apply H75); try (by apply H60);
    exfalso;
    repeat match goal with
           | H : true = true <-> _ |- _ => apply proj1 in H; specialize (H eq_refl)
           | H : false = true <-> _ |- _ =>
               apply proj2 in H;
               assert (~ _) by (let Hc := fresh in intros Hc; apply H in Hc; done);
               clear H
           end;
    lra.
Qed.

(** X26 at the scores 59.5 and 60. *)
Lemma recommendation_monotone_witness :
  let lower := _determine_recommendation (Fin (119 # 2)) in
  let higher := _determine_recommendation (Fin 60) in
  level_rank lower.1 <= level_rank higher.1
  /\ (lower.2 = true -> higher.2 = true)
  /\ (higher.2 = true <-> (60 <= 60)%Q)
  /\ (higher.1 = "Strong" <-> (75 <= 60)%Q).
Proof.
  apply (recommendation_monotone (119 # 2) 60). lra.
Defined.

(** The loop of [_analyze_persona_distribution] over evaluations that
    carry the values of the given personas, from any five counts. *)
Lemma report_distribution_loop personas evaluations a b c d e :
  Forall2 (fun persona (eval_data : Dict) =>
             eval_data !! "persona" = Some (JStr (persona_value persona)))
          personas evaluations ->
  foldl (fun acc (eval_data : Dict) =>
           distribution ← acc;
           match dict_get eval_data "persona" (JStr "normal") with
           | JStr persona =>
               if has_key persona distribution
               then PersonaDetector.increment persona distribution
               else Ok distribution
           | JList _ | JObj _ => Raise TypeError
           | _ => Ok distribution
           end)
        (Ok [ ("confused", a); ("efficient", b); ("chatty", c);
              ("edge_case", d); ("normal", e) ])
        evaluations
  = Ok [ ("confused", a + PersonaDetector.occurrences CONFUSED personas);
         ("efficient", b + PersonaDetector.occurrences EFFICIENT personas);
         ("chatty", c + PersonaDetector.occurrences CHATTY personas);
         ("edge_case", d + PersonaDetector.occurrences EDGE_CASE personas);
         ("normal", e + PersonaDetector.occurrences NORMAL personas) ].
Proof.
  intros Hall. revert a b c d e.
  induction Hall as [|p eval_data personas evaluations Hp _ IH]; intros a b c d e.
  - cbn [foldl]. unfold PersonaDetector.occurrences. cbn.
    by rewrite !Z.add_0_r.
  - assert (Hget : dict_get eval_data "persona" (JStr "normal")
                   = JStr (persona_value p))
      by (unfold dict_get; by rewrite Hp).
    cbn [foldl mbind Result_bind]. rewrite Hget.
    rewrite !occurrences_cons.
    destruct p; cbn -[PersonaDetector.occurrences]; rewrite IH;
      repeat case_bool_decide; try done;
      by rewrite ?Z.add_0_l, ?Z.add_assoc.
Qed.

(** X27.  The report counts personas as the detector does.  Over
    evaluations that carry the persona values of a history under their
    [persona] key, as the evaluations [submit_answer] records do,
    [_analyze_persona_distribution] returns what [get_persona_distribution]
    returns for that history: one count per persona, adding up to the
    number of evaluations.  The dominant persona the report derives from
    it is the value of a persona that no other persona outnumbers. *)
Theorem report_distribution_agrees personas evaluations :
  Forall2 (fun persona (eval_data : Dict) =>
             eval_data !! "persona" = Some (JStr (persona_value persona)))
          personas evaluations ->
  exists distribution dominant,
    _analyze_persona_distribution evaluations = Ok distribution
    /\ PersonaDetector.get_persona_distribution personas = Ok distribution
    /\ (forall persona,
          PersonaDetector.count_of (persona_value persona) distribution
          = Some (PersonaDetector.occurrences persona personas))
    /\ PersonaDetector.total_count distribution = Z.of_nat (length evaluations)
    /\ dominant_persona distribution = Ok (persona_value dominant)
    /\ forall persona,
         PersonaDetector.occurrences persona personas
         <= PersonaDetector.occurrences dominant personas.
Proof.
  intros Hall.
  pose proof (persona_distribution_loop personas 0 0 0 0 0) as Hdetector.
  pose proof (report_distribution_loop personas evaluations 0 0 0 0 0 Hall)
    as Hreport.
  rewrite !Z.add_0_l in Hdetector, Hreport.
  set (distribution :=
         [ ("confused", PersonaDetector.occurrences CONFUSED personas);
           ("efficient", PersonaDetector.occurrences EFFICIENT personas);
           ("chatty", PersonaDetector.occurrences CHATTY personas);
           ("edge_case", PersonaDetector.occurrences EDGE_CASE personas);
           ("normal", PersonaDetector.occurrences NORMAL personas) ]) in *.
  assert (Hmember : forall k v, (k, v) ∈ distribution <->
            exists persona, k = persona_value persona
                            /\ v = PersonaDetector.occurrences persona personas).
  { intros k v. unfold distribution. rewrite !elem_of_cons, elem_of_nil. split.
    - intros [[= -> ->]|[[= -> ->]|[[= -> ->]|[[= -> ->]|[[= -> ->]|[]]]]]];
        [exists CONFUSED|exists EFFICIENT|exists CHATTY|exists EDGE_CASE
        |exists NORMAL]; done.
    - intros ([] & -> & ->); cbn [persona_value]; tauto. }
  destruct (max_by_count_spec
              ("confused", PersonaDetector.occurrences CONFUSED personas)
              (tail distribution)) as (v & Hin & Hmax).
  change (_ :: tail distribution) with distribution in Hin, Hmax.
  apply Hmember in Hin as (dominant & Hdominant & ->).
  exists distribution, dominant.
  split; [exact Hreport|]. split; [exact Hdetector|].
  split; [intros []; reflexivity|].
  split.
  { rewrite <- (Forall2_length _ _ _ Hall), <- occurrences_total.
    unfold distribution. cbn. lia. }
  split.
  { unfold dominant_persona, distribution. f_equal. exact Hdominant. }
  intros persona. apply (Hmax (persona_value persona)).
  apply Hmember. by eexists.
Qed.

End ReportStatistics.

(** X27 at two evaluations as [submit_answer] builds them. *)
Lemma report_distribution_agrees_witness :
  let evaluations :=
    [ @InterviewService.built_evaluation InterviewService.example_builtins
        InterviewService.silent_backend NORMAL 4;
      @InterviewService.built_evaluation InterviewService.example_builtins
        InterviewService.probing_backend CONFUSED 12 ] in
  exists distribution dominant,
    ReportGenerator._analyze_persona_distribution evaluations = Ok distribution
    /\ PersonaDetector.get_persona_distribution [NORMAL; CONFUSED] = Ok distribution
    /\ (forall persona,
          PersonaDetector.count_of (persona_value persona) distribution
          = Some (PersonaDetector.occurrences persona [NORMAL; CONFUSED]))
    /\ PersonaDetector.total_count distribution = Z.of_nat (length evaluations)
    /\ ReportGenerator.dominant_persona distribution = Ok (persona_value dominant)
    /\ forall persona,
         PersonaDetector.occurrences persona [NORMAL; CONFUSED]
         <= PersonaDetector.occurrences dominant [NORMAL; CONFUSED].
Proof.
  intros evaluations.
  apply (report_distribution_agrees [NORMAL; CONFUSED] evaluations).
  repeat constructor; apply built_evaluation_keys.
Defined.

(** ** Input validation and the submission routes *)

Section ValidatorFacts.
Import Validators.

Lemma lstrip_empty p s :
  PyStr.lstrip p s = "" ->
  Forall (fun c => p c = true) (String.list_ascii_of_string s).
Proof.
  induction s as [|c s IH]; cbn [PyStr.lstrip String.list_ascii_of_string];
    [by constructor|].
  destruct (p c) eqn:Hc; [|discriminate].
  intros Hs. constructor; [done|by apply IH].
Qed.

Lemma string_length_0 s : String.length s = 0%nat -> s = "".
Proof. by destruct s. Qed.

Lemma strip_empty p s :
  String.length (PyStr.strip p s) = 0%nat ->
  Forall (fun c => p c = true) (String.list_ascii_of_string s).
Proof.
  unfold PyStr.strip, PyStr.reverse. intros Hlen.
  apply string_length_0 in Hlen.
  apply (f_equal String.list_ascii_of_string) in Hlen.
  rewrite String.list_ascii_of_string_of_list_ascii in Hlen.
  cbn [String.list_ascii_of_string] in Hlen.
  apply (f_equal (@rev ascii)) in Hlen. rewrite rev_involutive in Hlen.
  cbn [rev] in Hlen.
  apply (f_equal String.string_of_list_ascii) in Hlen.
  rewrite String.string_of_list_ascii_of_string in Hlen.
  cbn [String.string_of_list_ascii] in Hlen.
  apply lstrip_empty in Hlen.
  rewrite String.list_ascii_of_string_of_list_ascii in Hlen.
  apply Forall_rev in Hlen. rewrite rev_involutive in Hlen.
  destruct (PyStr.lstrip p s) as [|c rest] eqn:Hstrip; [by apply lstrip_empty|].
  exfalso.
  assert (Hhead : p c = false).
  { clear Hlen. induction s as [|c0 s IH]; [discriminate|].
    cbn [PyStr.lstrip] in Hstrip. destruct (p c0) eqn:Hc0; [by apply IH|].
    by injection Hstrip as -> _. }
  cbn [String.list_ascii_of_string] in Hlen.
  apply Forall_cons in Hlen as [Hc _]. congruence.
Qed.

Lemma split_blank s :
  Forall (fun c => PyStr.is_space c = true) (String.list_ascii_of_string s) ->
  PyStr.split s = [].
Proof.
  unfold PyStr.split.
  induction s as [|c s IH]; cbn [String.list_ascii_of_string PyStr.split_from];
    [done|].
  intros [Hc Hs]%Forall_cons. rewrite Hc. by apply IH.
Qed.

(** X28.  What [is_valid_answer] requires.  For a minimum of at least one
    word, as the default of five, an answer is valid exactly when it has
    at least that many whitespace-separated words and at least three
    distinct characters other than the space; the test for a blank text
    rejects nothing that the word count does not reject. *)
Theorem is_valid_answer_iff text min_words :
  1 <= min_words ->
  is_valid_answer text min_words = true
  <-> min_words <= Z.of_nat (length (PyStr.split text))
      /\ (3 <= PyStr.distinct_chars (PyStr.remove_spaces text))%nat.
Proof.
  intros Hmin. unfold is_valid_answer.
  destruct (Z.ltb_spec (Z.of_nat (length (PyStr.split text))) min_words)
    as [Hfew|Hwords];
    destruct (Nat.ltb_spec (PyStr.distinct_chars (PyStr.remove_spaces text)) 3)
      as [Hsame|Hchars];
    destruct (String.eqb text "" || _) eqn:Hblank;
    split; try done; try (intros [? ?]; lia).
  intros _. exfalso.
  apply orb_true_iff in Hblank as [Hempty|Hstrip].
  - apply String.eqb_eq in Hempty. subst text. cbn in Hwords. lia.
  - apply Nat.eqb_eq, strip_empty, split_blank in Hstrip.
    rewrite Hstrip in Hwords. cbn in Hwords. lia.
Qed.

(** X28 at the default minimum and an answer of four words. *)
Lemma is_valid_answer_iff_witness :
  is_valid_answer "I fixed the cache" 5 = true
  <-> 5 <= Z.of_nat (length (PyStr.split "I fixed the cache"))
      /\ (3 <= PyStr.distinct_chars (PyStr.remove_spaces "I fixed the cache"))%nat.
Proof.
  apply (is_valid_answer_iff "I fixed the cache" 5). lia.
Defined.

End ValidatorFacts.

Section RouteFacts.
Import InterviewService.

(** X29.  The status codes of the submission routes.  Neither route ever
    answers 400: an error is 404 or 500, and an unknown session gives 404.
    [POST /submit-answer] answers an answer the validator rejects, in
    particular one of fewer than five words, with 500 and leaves the
    service untouched, because the 400 raised for it is caught by the
    handler for every exception; it answers 200 exactly when the answer is
    valid and the service returns a response, which is then the body.
    [POST /submit-followup] does not validate the text. *)
Theorem submission_routes_status `{Builtins} settings svc backend now request :
  let text := Routes.req_answer_text request in
  let sid := Routes.req_session_id request in
  let result := Routes.submit_answer settings svc backend now request in
  let served :=
    submit_answer settings svc backend now sid
      (Routes.req_question_id request) text (Routes.req_duration_seconds request)
      (Routes.req_is_voice request) in
  let result' := Routes.submit_followup svc now request in
  let served' :=
    submit_followup_answer svc now sid text (Routes.req_duration_seconds request) in
  (forall code, result.2 = Routes.HttpError code -> code = 404 \/ code = 500)
  /\ (Validators.is_valid_answer text 5 = false ->
      result = (svc, Routes.HttpError 500))
  /\ (Z.of_nat (length (PyStr.split text)) < 5 ->
      Validators.is_valid_answer text 5 = false)
  /\ (forall body,
        result.2 = Routes.Http200 body
        <-> Validators.is_valid_answer text 5 = true /\ served.2 = Ok body)
  /\ (Validators.is_valid_answer text 5 = true -> sessions svc !! sid = None ->
      result = (svc, Routes.HttpError 404))
  /\ (forall code, result'.2 = Routes.HttpError code -> code = 404 \/ code = 500)
  /\ (forall body, result'.2 = Routes.Http200 body <-> served'.2 = Ok body)
  /\ (sessions svc !! sid = None -> result' = (svc, Routes.HttpError 404)).
Proof.
  cbv zeta. unfold Routes.submit_answer, Routes.submit_followup.
  split; [|split; [|split; [|split; [|split; [|split; [|split]]]]]].
  - intros code. destruct (Validators.is_valid_answer _ 5); cbn [negb snd].
    + unfold Routes.handle. destruct (submit_answer _ _ _ _ _ _ _ _ _).2 as [body|e];
        [discriminate|].
      destruct (Routes.is_value_error e); intros [= <-]; auto.
    + intros [= <-]. auto.
  - by intros ->.
  - intros Hfew. unfold Validators.is_valid_answer.
    destruct (_ || _); [done|].
    by rewrite (proj2 (Z.ltb_lt _ _) Hfew).
  - intros body. destruct (Validators.is_valid_answer _ 5); cbn [negb snd].
    + unfold Routes.handle. destruct (submit_answer _ _ _ _ _ _ _ _ _).2 as [body'|e].
      * split; [intros [= ->]; done|intros [_ [= ->]]; done].
      * destruct (Routes.is_value_error e); split; try done; by intros [_ ?].
    + split; [done|by intros [? _]].
  - intros -> Hnone. cbn [negb]. unfold submit_answer. rewrite Hnone. done.
  - intros code. cbn [snd]. unfold Routes.handle.
    destruct (submit_followup_answer _ _ _ _ _).2 as [body|e]; [discriminate|].
    destruct (Routes.is_value_error e); intros [= <-]; auto.
  - intros body. cbn [snd]. unfold Routes.handle.
    destruct (submit_followup_answer _ _ _ _ _).2 as [body'|e].
    + split; [intros [= ->]; done|intros [= ->]; done].
    + destruct (Routes.is_value_error e); split; done.
  - intros Hnone. unfold submit_followup_answer. rewrite Hnone. done.
Qed.

Lemma reachable_nonempty `{Builtins} settings svc :
  0 < TOTAL_QUESTIONS settings ->
  reachable settings svc ->
  forall id s, sessions svc !! id = Some s -> (0 < length (questions s))%nat.
Proof.
  intros Hn Hreach.
  induction Hreach as [|svc reply now sid resume role _ IH|svc c _ IH];
    intros id s Hs.
  - cbn in Hs. by rewrite lookup_empty in Hs.
  - destruct (start_interview_started settings svc reply now sid resume role Hn)
      as ((_ & _ & _ & Hne) & Hsessions & _).
    cbv zeta in Hne, Hsessions. rewrite Hsessions in Hs.
    destruct (decide (sid = id)) as [->|Hother].
    + rewrite lookup_insert_eq in Hs. injection Hs as <-.
      destruct (questions _); [done|cbn; lia].
    + rewrite lookup_insert_ne in Hs by done. by eapply IH.
  - destruct (step_effect settings svc c)
      as [Heq|(session & q & slot & s' & Hsession & Hq & _ & Hs' & Heq & _)];
      rewrite Heq in Hs; [by eapply IH|].
    destruct (decide (call_session c = id)) as [<-|Hother].
    + rewrite lookup_insert_eq in Hs. injection Hs as <-.
      apply lookup_lt_Some in Hq.
      destruct Hs' as [->| ->];
        rewrite ?advanced_questions, set_slot_length; lia.
    + rewrite lookup_insert_ne in Hs by done. by eapply IH.
Qed.

(** X30.  What [GET /session/{session_id}] reports in every state the
    service reaches when at least one question is configured: the number
    of the current question lies between 1 and one more than the total,
    and it exceeds the total exactly when the session is completed. *)
Theorem session_status_reachable `{Builtins} settings svc id st :
  0 < TOTAL_QUESTIONS settings ->
  reachable settings svc ->
  Routes.get_session svc id = Routes.Http200 st ->
  1 <= Routes.status_total_questions st
  /\ 1 <= Routes.status_current_question st <= Routes.status_total_questions st + 1
  /\ (Routes.status_status st = completed
      <-> Routes.status_current_question st = Routes.status_total_questions st + 1).
Proof.
  intros Hn Hreach. unfold Routes.get_session, get_session.
  destruct (sessions svc !! id) as [s|] eqn:Hs; [|discriminate].
  intros [= <-]. cbn.
  destruct (reachable_invariant settings svc Hn Hreach) as (Hc & _ & _).
  pose proof (reachable_nonempty settings svc Hn Hreach id s Hs) as Hpos.
  destruct (Hc _ _ Hs) as [(Hst & Hlt & _)|(Hst & Heq & _)]; rewrite Hst.
  - split; [lia|]. split; [lia|]. split; [done|lia].
  - split; [lia|]. split; [lia|]. split; [lia|done].
Qed.

(** X30 at the interview of five answered questions. *)
Lemma session_status_reachable_witness :
  exists st,
    Routes.get_session finished_service "s1" = Routes.Http200 st
    /\ 1 <= Routes.status_total_questions st
    /\ 1 <= Routes.status_current_question st <= Routes.status_total_questions st + 1
    /\ (Routes.status_status st = completed
        <-> Routes.status_current_question st
            = Routes.status_total_questions st + 1).
Proof.
  destruct finished_service_session as (s & Hs & _).
  assert (Hget : Routes.get_session finished_service "s1"
                 = Routes.Http200
                     {| Routes.status_session_id := session_id s;
                        Routes.status_status := status s;
                        Routes.status_current_question :=
                          Z.of_nat (current_question_index s) + 1;
                        Routes.status_total_questions :=
                          Z.of_nat (length (questions s));
                        Routes.status_target_role := target_role s |}).
  { unfold Routes.get_session, get_session. by rewrite Hs. }
  eexists. split; [exact Hget|].
  refine (@session_status_reachable example_builtins default_settings
            finished_service "s1" _ _ _ Hget).
  - reflexivity.
  - apply reachable_run, started_service_reachable.
Defined.

End RouteFacts.
